(** * IR Camera Viewer: the camera controller

    A shallow embedding of [constants.py] and [camera_controller.py].

    The controller object becomes a record, [IRCameraController]; its methods
    become computations in a small state-and-exception monad over the
    controller together with the part of the outside world the methods
    write to (directories, image files, finalised video files).  What the
    WinRT capture backend, the clock and OpenCV hand to the controller is
    passed to the methods as data.

    The model is sequential: the frame callback holds [self._lock] for its
    whole body, and every method call and every delivered frame is one
    step of a run.  The one place where the threads of the program meet
    without a lock, the buffer of the latest frame, is modelled a second
    time in [Threads], step by step.  What can raise:
    - [initialize_with_settings_async], and every read of a frame the
      backend delivers: acquiring it, its video frame, its infrared
      sub-frame and flag, its bitmap and the bitmap's conversion, and
      closing it;
    - [os.makedirs], for a path that names no directory: the empty path
      and a path with a NUL character;
    - [cv2.VideoWriter], for a rate that fits no C double.
    The file system grants every other request, the awaited calls that
    discover devices and start or stop a reader complete, and OpenCV's
    conversions complete on the frames a camera delivers, which are never
    without pixels. *)

From Stdlib Require Import ZArith List String Ascii Bool Lia.
Import ListNotations.

Local Open Scope string_scope.
Local Open Scope list_scope.
Local Open Scope Z_scope.

(** ** constants.py *)

Module IRFrameFilter.

Inductive t : Type := NONE | RAW | ILLUMINATED.

Definition value (m : t) : Z :=
  match m with NONE => 0 | RAW => 1 | ILLUMINATED => 2 end.

(** [list(self.__class__)]: the members in definition order. *)
Definition members : list t := [NONE; RAW; ILLUMINATED].

Definition eqb (a b : t) : bool :=
  match a, b with
  | NONE, NONE | RAW, RAW | ILLUMINATED, ILLUMINATED => true
  | _, _ => false
  end.

Definition next (m : t) : t :=
  let idx := (value m + 1) mod Z.of_nat (List.length members) in
  nth (Z.to_nat idx) members NONE.

Definition display_name (m : t) : string :=
  match m with NONE => "OFF" | RAW => "RAW" | ILLUMINATED => "ILLUM" end.

End IRFrameFilter.

Module IRMappingMode.

Inductive t : Type := NONE | GREEN | HEAT | JET.

Definition value (m : t) : Z :=
  match m with NONE => 0 | GREEN => 1 | HEAT => 2 | JET => 3 end.

Definition members : list t := [NONE; GREEN; HEAT; JET].

Definition eqb (a b : t) : bool :=
  match a, b with
  | NONE, NONE | GREEN, GREEN | HEAT, HEAT | JET, JET => true
  | _, _ => false
  end.

Definition next (m : t) : t :=
  let idx := (value m + 1) mod Z.of_nat (List.length members) in
  nth (Z.to_nat idx) members NONE.

Definition display_name (m : t) : string :=
  match m with
  | NONE => "OFF" | GREEN => "GREEN" | HEAT => "HEAT" | JET => "JET"
  end.

End IRMappingMode.

(** ** Images

    A frame is the numpy array of shape (height, width, 4) the controller
    builds from a bitmap: rows of BGRA pixels, one [Z] in 0..255 per
    channel.  The three-channel images handed to the video writer and to
    [cv2.imwrite] are rows of BGR pixels. *)

Definition Pixel : Type := Z * Z * Z * Z.
Definition PixelBGR : Type := Z * Z * Z.
Definition Frame : Type := list (list Pixel).
Definition ImageBGR : Type := list (list PixelBGR).
Definition GrayImage : Type := list (list Z).

(** What the controller calls in OpenCV and in [os.path] and does not
    define itself.  Colour conversion to gray and the two colour look-up
    tables act on each pixel on its own. *)
Class Platform : Type := {
  path_join : string -> string -> string;
  bgra2gray : Pixel -> Z;
  colormap_hot : Z -> PixelBGR;
  colormap_jet : Z -> PixelBGR
}.

Module cv2.

Definition COLOR_BGRA2BGR (f : Frame) : ImageBGR :=
  map (map (fun p : Pixel => let '(b, g, r, _) := p in (b, g, r))) f.

Definition COLOR_BGR2BGRA (i : ImageBGR) : Frame :=
  map (map (fun p : PixelBGR => let '(b, g, r) := p in (b, g, r, 255))) i.

Definition COLOR_BGRA2GRAY `{Platform} (f : Frame) : GrayImage :=
  map (map bgra2gray) f.

Definition applyColorMap (lut : Z -> PixelBGR) (g : GrayImage) : ImageBGR :=
  map (map lut) g.

(** [cv2.VideoWriter_fourcc(c1, c2, c3, c4)] *)
Definition VideoWriter_fourcc (c1 c2 c3 c4 : ascii) : Z :=
  let code (c : ascii) := Z.of_nat (nat_of_ascii c) in
  Z.lor (Z.lor (code c1) (Z.shiftl (code c2) 8))
        (Z.lor (Z.shiftl (code c3) 16) (Z.shiftl (code c4) 24)).

End cv2.

(** The writer object of [cv2.VideoWriter]: what it was opened with and the
    frames written to it so far. *)
Record VideoWriter : Type := {
  vw_path : string;
  vw_fourcc : Z;
  vw_fps : Z;
  vw_size : Z * Z;
  vw_frames : list ImageBGR
}.

Definition VideoWriter_write (i : ImageBGR) (w : VideoWriter) : VideoWriter :=
  {| vw_path := vw_path w; vw_fourcc := vw_fourcc w; vw_fps := vw_fps w;
     vw_size := vw_size w; vw_frames := vw_frames w ++ [i] |}.

(** ** The capture backend, as the controller sees it *)

Inductive MediaFrameSourceKind : Type :=
  CUSTOM | COLOR | INFRARED | DEPTH | AUDIO | IMAGE | METADATA.

Definition is_infrared (k : MediaFrameSourceKind) : bool :=
  match k with INFRARED => true | _ => false end.

(** A [MediaFrameSourceGroup], one per discovered device. *)
Record MediaFrameSourceGroup : Type := {
  display_name : string;
  source_infos : list MediaFrameSourceKind
}.

Inductive MediaCaptureSharingMode : Type :=
  EXCLUSIVE_CONTROL | SHARED_READ_ONLY.

Record VideoFormat : Type := { vf_width : Z; vf_height : Z }.

Record MediaFrameSource : Type := {
  supported_formats : list VideoFormat
}.

(** What the backend answers during one [select_device]: whether
    [initialize_with_settings_async] completes in each sharing mode, and
    the values of [frame_sources] in iteration order. *)
Record CaptureBackend : Type := {
  initialize_ok : MediaCaptureSharingMode -> bool;
  frame_sources : list MediaFrameSource
}.

Record MediaCapture : Type := {
  mc_settings : option (MediaFrameSourceGroup * MediaCaptureSharingMode);
  mc_backend : CaptureBackend
}.

Record MediaFrameReader : Type := {
  reader_source : MediaFrameSource;
  reader_format : option VideoFormat;
  reader_started : bool
}.

(** A property read or call on a backend object either gives a value or
    raises. *)
Inductive Fallible (A : Type) : Type :=
| Gives (a : A)
| Throws.
Arguments Gives {A} a.
Arguments Throws {A}.

Record InfraredMediaFrame : Type := { is_illuminated : Fallible bool }.

(** A [SoftwareBitmap]: its size, and the bytes its BGRA8 conversion
    yields when conversion and buffer access complete. *)
Record SoftwareBitmap : Type := {
  pixel_height : Z;
  pixel_width : Z;
  bgra8_bytes : Fallible (list Z)
}.

Record VideoMediaFrame : Type := {
  infrared_media_frame : Fallible (option InfraredMediaFrame);
  software_bitmap : Fallible (option SoftwareBitmap)
}.

(** [close]: what [media_frame.close()] does, return or raise. *)
Record MediaFrame : Type := {
  video_media_frame : Fallible (option VideoMediaFrame);
  close : Fallible unit
}.

(** [cv2.VideoWriter(path, fourcc, fps, size)].  The rate is handed on as a
    C double: for a Python int that rounds to no finite double the call
    raises [OverflowError].  The largest finite double is 2^1024 - 2^971,
    and the ints that round to it end below 2^1024 - 2^970. *)
Definition fits_double (n : Z) : bool := Z.abs n <? 2 ^ 1024 - 2 ^ 970.
Arguments fits_double : simpl never.

Definition cv2_VideoWriter (path : string) (fourcc fps : Z) (size : Z * Z)
  : Fallible VideoWriter :=
  if fits_double fps
  then Gives {| vw_path := path; vw_fourcc := fourcc; vw_fps := fps;
                vw_size := size; vw_frames := [] |}
  else Throws.

(** ** queue.Queue, as far as the controller uses it *)

Module Queue.

Record t : Type := { maxsize : Z; items : list Frame }.

Definition create (n : Z) : t := {| maxsize := n; items := [] |}.

Definition empty (q : t) : bool :=
  match items q with [] => true | _ => false end.

Definition full (q : t) : bool :=
  (0 <? maxsize q) && (maxsize q <=? Z.of_nat (List.length (items q))).

(** [None] stands for the exception [Empty]. *)
Definition get_nowait (q : t) : option (Frame * t) :=
  match items q with
  | [] => None
  | f :: rest => Some (f, {| maxsize := maxsize q; items := rest |})
  end.

(** [None] stands for the exception [Full]. *)
Definition put_nowait (f : Frame) (q : t) : option t :=
  if full q then None
  else Some {| maxsize := maxsize q; items := items q ++ [f] |}.

End Queue.

(** ** The controller object *)

Record IRCameraController : Type := {
  _media_capture : option MediaCapture;
  _frame_reader : option MediaFrameReader;
  _running : bool;
  _frame_queue : Queue.t;
  _last_frame : option Frame;
  _devices : list MediaFrameSourceGroup;
  _current_device_index : Z;
  _frame_width : Z;
  _frame_height : Z;
  _frame_filter : IRFrameFilter.t;
  _mapping_mode : IRMappingMode.t;
  _is_illuminated : bool;
  _is_recording : bool;
  _video_writer : option VideoWriter;
  _video_path : option string
}.

(** [__init__] *)
Definition __init__ : IRCameraController := {|
  _media_capture := None;
  _frame_reader := None;
  _running := false;
  _frame_queue := Queue.create 2;
  _last_frame := None;
  _devices := [];
  _current_device_index := 0;
  _frame_width := 640;
  _frame_height := 480;
  _frame_filter := IRFrameFilter.NONE;
  _mapping_mode := IRMappingMode.NONE;
  _is_illuminated := false;
  _is_recording := false;
  _video_writer := None;
  _video_path := None
|}.

(** Assignment to one attribute of [self]. *)

Definition set_media_capture (v : option MediaCapture) (c : IRCameraController)
  : IRCameraController :=
  {| _media_capture := v; _frame_reader := _frame_reader c;
     _running := _running c; _frame_queue := _frame_queue c;
     _last_frame := _last_frame c; _devices := _devices c;
     _current_device_index := _current_device_index c;
     _frame_width := _frame_width c; _frame_height := _frame_height c;
     _frame_filter := _frame_filter c; _mapping_mode := _mapping_mode c;
     _is_illuminated := _is_illuminated c; _is_recording := _is_recording c;
     _video_writer := _video_writer c; _video_path := _video_path c |}.

Definition set_frame_reader (v : option MediaFrameReader) (c : IRCameraController)
  : IRCameraController :=
  {| _media_capture := _media_capture c; _frame_reader := v;
     _running := _running c; _frame_queue := _frame_queue c;
     _last_frame := _last_frame c; _devices := _devices c;
     _current_device_index := _current_device_index c;
     _frame_width := _frame_width c; _frame_height := _frame_height c;
     _frame_filter := _frame_filter c; _mapping_mode := _mapping_mode c;
     _is_illuminated := _is_illuminated c; _is_recording := _is_recording c;
     _video_writer := _video_writer c; _video_path := _video_path c |}.

Definition set_running (v : bool) (c : IRCameraController)
  : IRCameraController :=
  {| _media_capture := _media_capture c; _frame_reader := _frame_reader c;
     _running := v; _frame_queue := _frame_queue c;
     _last_frame := _last_frame c; _devices := _devices c;
     _current_device_index := _current_device_index c;
     _frame_width := _frame_width c; _frame_height := _frame_height c;
     _frame_filter := _frame_filter c; _mapping_mode := _mapping_mode c;
     _is_illuminated := _is_illuminated c; _is_recording := _is_recording c;
     _video_writer := _video_writer c; _video_path := _video_path c |}.

Definition set_frame_queue (v : Queue.t) (c : IRCameraController)
  : IRCameraController :=
  {| _media_capture := _media_capture c; _frame_reader := _frame_reader c;
     _running := _running c; _frame_queue := v; _last_frame := _last_frame c;
     _devices := _devices c;
     _current_device_index := _current_device_index c;
     _frame_width := _frame_width c; _frame_height := _frame_height c;
     _frame_filter := _frame_filter c; _mapping_mode := _mapping_mode c;
     _is_illuminated := _is_illuminated c; _is_recording := _is_recording c;
     _video_writer := _video_writer c; _video_path := _video_path c |}.

Definition set_last_frame (v : option Frame) (c : IRCameraController)
  : IRCameraController :=
  {| _media_capture := _media_capture c; _frame_reader := _frame_reader c;
     _running := _running c; _frame_queue := _frame_queue c;
     _last_frame := v; _devices := _devices c;
     _current_device_index := _current_device_index c;
     _frame_width := _frame_width c; _frame_height := _frame_height c;
     _frame_filter := _frame_filter c; _mapping_mode := _mapping_mode c;
     _is_illuminated := _is_illuminated c; _is_recording := _is_recording c;
     _video_writer := _video_writer c; _video_path := _video_path c |}.

Definition set_devices (v : list MediaFrameSourceGroup) (c : IRCameraController)
  : IRCameraController :=
  {| _media_capture := _media_capture c; _frame_reader := _frame_reader c;
     _running := _running c; _frame_queue := _frame_queue c;
     _last_frame := _last_frame c; _devices := v;
     _current_device_index := _current_device_index c;
     _frame_width := _frame_width c; _frame_height := _frame_height c;
     _frame_filter := _frame_filter c; _mapping_mode := _mapping_mode c;
     _is_illuminated := _is_illuminated c; _is_recording := _is_recording c;
     _video_writer := _video_writer c; _video_path := _video_path c |}.

Definition set_current_device_index (v : Z) (c : IRCameraController)
  : IRCameraController :=
  {| _media_capture := _media_capture c; _frame_reader := _frame_reader c;
     _running := _running c; _frame_queue := _frame_queue c;
     _last_frame := _last_frame c; _devices := _devices c;
     _current_device_index := v; _frame_width := _frame_width c;
     _frame_height := _frame_height c; _frame_filter := _frame_filter c;
     _mapping_mode := _mapping_mode c; _is_illuminated := _is_illuminated c;
     _is_recording := _is_recording c; _video_writer := _video_writer c;
     _video_path := _video_path c |}.

Definition set_frame_width (v : Z) (c : IRCameraController)
  : IRCameraController :=
  {| _media_capture := _media_capture c; _frame_reader := _frame_reader c;
     _running := _running c; _frame_queue := _frame_queue c;
     _last_frame := _last_frame c; _devices := _devices c;
     _current_device_index := _current_device_index c; _frame_width := v;
     _frame_height := _frame_height c; _frame_filter := _frame_filter c;
     _mapping_mode := _mapping_mode c; _is_illuminated := _is_illuminated c;
     _is_recording := _is_recording c; _video_writer := _video_writer c;
     _video_path := _video_path c |}.

Definition set_frame_height (v : Z) (c : IRCameraController)
  : IRCameraController :=
  {| _media_capture := _media_capture c; _frame_reader := _frame_reader c;
     _running := _running c; _frame_queue := _frame_queue c;
     _last_frame := _last_frame c; _devices := _devices c;
     _current_device_index := _current_device_index c;
     _frame_width := _frame_width c; _frame_height := v;
     _frame_filter := _frame_filter c; _mapping_mode := _mapping_mode c;
     _is_illuminated := _is_illuminated c; _is_recording := _is_recording c;
     _video_writer := _video_writer c; _video_path := _video_path c |}.

Definition set_frame_filter (v : IRFrameFilter.t) (c : IRCameraController)
  : IRCameraController :=
  {| _media_capture := _media_capture c; _frame_reader := _frame_reader c;
     _running := _running c; _frame_queue := _frame_queue c;
     _last_frame := _last_frame c; _devices := _devices c;
     _current_device_index := _current_device_index c;
     _frame_width := _frame_width c; _frame_height := _frame_height c;
     _frame_filter := v; _mapping_mode := _mapping_mode c;
     _is_illuminated := _is_illuminated c; _is_recording := _is_recording c;
     _video_writer := _video_writer c; _video_path := _video_path c |}.

Definition set_mapping_mode (v : IRMappingMode.t) (c : IRCameraController)
  : IRCameraController :=
  {| _media_capture := _media_capture c; _frame_reader := _frame_reader c;
     _running := _running c; _frame_queue := _frame_queue c;
     _last_frame := _last_frame c; _devices := _devices c;
     _current_device_index := _current_device_index c;
     _frame_width := _frame_width c; _frame_height := _frame_height c;
     _frame_filter := _frame_filter c; _mapping_mode := v;
     _is_illuminated := _is_illuminated c; _is_recording := _is_recording c;
     _video_writer := _video_writer c; _video_path := _video_path c |}.

Definition set_is_illuminated (v : bool) (c : IRCameraController)
  : IRCameraController :=
  {| _media_capture := _media_capture c; _frame_reader := _frame_reader c;
     _running := _running c; _frame_queue := _frame_queue c;
     _last_frame := _last_frame c; _devices := _devices c;
     _current_device_index := _current_device_index c;
     _frame_width := _frame_width c; _frame_height := _frame_height c;
     _frame_filter := _frame_filter c; _mapping_mode := _mapping_mode c;
     _is_illuminated := v; _is_recording := _is_recording c;
     _video_writer := _video_writer c; _video_path := _video_path c |}.

Definition set_is_recording (v : bool) (c : IRCameraController)
  : IRCameraController :=
  {| _media_capture := _media_capture c; _frame_reader := _frame_reader c;
     _running := _running c; _frame_queue := _frame_queue c;
     _last_frame := _last_frame c; _devices := _devices c;
     _current_device_index := _current_device_index c;
     _frame_width := _frame_width c; _frame_height := _frame_height c;
     _frame_filter := _frame_filter c; _mapping_mode := _mapping_mode c;
     _is_illuminated := _is_illuminated c; _is_recording := v;
     _video_writer := _video_writer c; _video_path := _video_path c |}.

Definition set_video_writer (v : option VideoWriter) (c : IRCameraController)
  : IRCameraController :=
  {| _media_capture := _media_capture c; _frame_reader := _frame_reader c;
     _running := _running c; _frame_queue := _frame_queue c;
     _last_frame := _last_frame c; _devices := _devices c;
     _current_device_index := _current_device_index c;
     _frame_width := _frame_width c; _frame_height := _frame_height c;
     _frame_filter := _frame_filter c; _mapping_mode := _mapping_mode c;
     _is_illuminated := _is_illuminated c; _is_recording := _is_recording c;
     _video_writer := v; _video_path := _video_path c |}.

Definition set_video_path (v : option string) (c : IRCameraController)
  : IRCameraController :=
  {| _media_capture := _media_capture c; _frame_reader := _frame_reader c;
     _running := _running c; _frame_queue := _frame_queue c;
     _last_frame := _last_frame c; _devices := _devices c;
     _current_device_index := _current_device_index c;
     _frame_width := _frame_width c; _frame_height := _frame_height c;
     _frame_filter := _frame_filter c; _mapping_mode := _mapping_mode c;
     _is_illuminated := _is_illuminated c; _is_recording := _is_recording c;
     _video_writer := _video_writer c; _video_path := v |}.

(** ** The outside world the controller writes to

    [fs_dirs]: the directories [os.makedirs] was asked for; [fs_images]: the
    files written by [cv2.imwrite]; [released_writers]: the video writers
    whose [release()] was called, oldest first, each with the frames it
    received.  A writer that is open is referenced from the controller's
    [_video_writer] and from nowhere else. *)

Record World : Type := {
  fs_dirs : list string;
  fs_images : list (string * ImageBGR);
  released_writers : list VideoWriter
}.

Definition empty_world : World :=
  {| fs_dirs := []; fs_images := []; released_writers := [] |}.

(** What [os.makedirs(d, exist_ok=True)] leaves when it completes. *)
Definition make_directory (d : string) (w : World) : World :=
  {| fs_dirs := if existsb (String.eqb d) (fs_dirs w) then fs_dirs w
                else fs_dirs w ++ [d];
     fs_images := fs_images w;
     released_writers := released_writers w |}.

(** The paths [os.makedirs] accepts.  For the empty path it raises
    [FileNotFoundError], for a path with a NUL character [ValueError]. *)
Fixpoint has_nul (path : string) : bool :=
  match path with
  | EmptyString => false
  | String c rest => Ascii.eqb c Ascii.zero || has_nul rest
  end.

Definition names_directory (path : string) : bool :=
  negb (String.eqb path EmptyString) && negb (has_nul path).
Arguments names_directory : simpl never.

(** [cv2.imwrite(path, img)] *)
Definition cv2_imwrite (path : string) (img : ImageBGR) (w : World) : World :=
  {| fs_dirs := fs_dirs w;
     fs_images := fs_images w ++ [(path, img)];
     released_writers := released_writers w |}.

(** [writer.release()] *)
Definition VideoWriter_release (vw : VideoWriter) (w : World) : World :=
  {| fs_dirs := fs_dirs w;
     fs_images := fs_images w;
     released_writers := released_writers w ++ [vw] |}.

Record Sys : Type := { ctl : IRCameraController; env : World }.

(** ** A state monad with exceptions

    A method either returns a value or raises; the assignments made before
    a raise stay made. *)

Inductive Outcome (A : Type) : Type :=
| Returns (a : A)
| Raises.
Arguments Returns {A} a.
Arguments Raises {A}.

Definition M (A : Type) : Type := Sys -> Outcome A * Sys.

Definition ret {A} (a : A) : M A := fun s => (Returns a, s).

Definition bind {A B} (m : M A) (k : A -> M B) : M B :=
  fun s => match m s with
           | (Returns a, s') => k a s'
           | (Raises, s') => (Raises, s')
           end.

Definition raise {A} : M A := fun s => (Raises, s).

(** [try: m  except: h] *)
Definition try_except {A} (m : M A) (h : M A) : M A :=
  fun s => match m s with
           | (Returns a, s') => (Returns a, s')
           | (Raises, s') => h s'
           end.

(** [try: m  finally: f]: [f] runs on every way out of [m]; when [f]
    raises, the whole raises. *)
Definition try_finally {A} (m : M A) (f : M unit) : M A :=
  fun s => match m s with
           | (Returns a, s') =>
               match f s' with
               | (Returns _, s'') => (Returns a, s'')
               | (Raises, s'') => (Raises, s'')
               end
           | (Raises, s') => (Raises, snd (f s'))
           end.

Definition self : M IRCameraController := fun s => (Returns (ctl s), s).

Definition assign (f : IRCameraController -> IRCameraController) : M unit :=
  fun s => (Returns tt, {| ctl := f (ctl s); env := env s |}).

Definition outside (f : World -> World) : M unit :=
  fun s => (Returns tt, {| ctl := ctl s; env := f (env s) |}).

Notation "x <- m ;; k" := (bind m (fun x => k))
  (at level 61, m at next level, right associativity).
Notation "m ;; k" := (bind m (fun _ => k))
  (at level 61, right associativity).

(** The state a method leaves and the value it returns. *)
Definition after {A} (m : M A) (s : Sys) : Sys := snd (m s).
Definition result {A} (m : M A) (s : Sys) : Outcome A := fst (m s).

(** ** camera_controller.py *)

(** [np.frombuffer(data).reshape((h, w, 4))]: [None] stands for the
    [ValueError] numpy raises when the buffer does not hold h * w * 4
    bytes.  A bitmap's height and width are never negative; a negative one
    is refused here. *)
Fixpoint pixels_of (data : list Z) : list Pixel :=
  match data with
  | b :: g :: r :: a :: rest => (b, g, r, a) :: pixels_of rest
  | _ => []
  end.

Fixpoint rows_of (h w : nat) (px : list Pixel) : list (list Pixel) :=
  match h with
  | O => []
  | S h' => firstn w px :: rows_of h' w (skipn w px)
  end.

Definition reshape (h w : Z) (data : list Z) : option Frame :=
  if (0 <=? h) && (0 <=? w) && (Z.of_nat (List.length data) =? h * w * 4)
  then Some (rows_of (Z.to_nat h) (Z.to_nat w) (pixels_of data))
  else None.

(** The inner loop of [find_ir_cameras]: stops at the first infrared
    source. *)
Fixpoint has_infrared (infos : list MediaFrameSourceKind) : bool :=
  match infos with
  | [] => false
  | k :: rest => if is_infrared k then true else has_infrared rest
  end.

Fixpoint collect_ir (found acc : list MediaFrameSourceGroup)
  : list MediaFrameSourceGroup :=
  match found with
  | [] => acc
  | d :: rest =>
      collect_ir rest (if has_infrared (source_infos d) then acc ++ [d] else acc)
  end.

(** Python's [max(xs, key=k)] on a list that is not empty: the first of the
    maximal elements. *)
Fixpoint max_from {A} (k : A -> Z) (best : A) (xs : list A) : A :=
  match xs with
  | [] => best
  | x :: rest => max_from k (if k best <? k x then x else best) rest
  end.

Definition format_area (f : VideoFormat) : Z := vf_width f * vf_height f.

(** The loop of [_update_frame] that empties the queue: one [get_nowait]
    per turn while the queue is not empty.  The queue holds finitely many
    items, so as many turns as it has items are enough. *)
Fixpoint drain (turns : nat) (q : Queue.t) : Queue.t :=
  match turns with
  | O => q
  | S n =>
      if Queue.empty q then q
      else match Queue.get_nowait q with
           | Some (_, q') => drain n q'
           | None => q
           end
  end.

Definition read_attr {A} (x : Fallible A) : M A :=
  match x with
  | Gives a => ret a
  | Throws => raise
  end.

(** [os.makedirs(d, exist_ok=True)] *)
Definition os_makedirs (d : string) : M unit :=
  if names_directory d then outside (make_directory d) else raise.

Section Controller.

Context {P : Platform}.

(** *** Properties *)

Definition frame_filter : M IRFrameFilter.t :=
  c <- self ;; ret (_frame_filter c).

Definition frame_filter_setter (value : IRFrameFilter.t) : M unit :=
  assign (set_frame_filter value).

Definition mapping_mode : M IRMappingMode.t :=
  c <- self ;; ret (_mapping_mode c).

Definition mapping_mode_setter (value : IRMappingMode.t) : M unit :=
  assign (set_mapping_mode value).

Definition devices : M (list MediaFrameSourceGroup) :=
  c <- self ;; ret (_devices c).

Definition current_device_index : M Z :=
  c <- self ;; ret (_current_device_index c).

Definition is_recording : M bool :=
  c <- self ;; ret (_is_recording c).

Definition frame_size : M (Z * Z) :=
  c <- self ;; ret (_frame_width c, _frame_height c).

Definition is_running : M bool :=
  c <- self ;; ret (_running c).

(** *** Device management *)

(** [found] is what [MediaFrameSourceGroup.find_all_async()] yields. *)
Definition find_ir_cameras (found : list MediaFrameSourceGroup)
  : M (list MediaFrameSourceGroup) :=
  assign (set_devices []) ;;
  assign (set_devices (collect_ir found [])) ;;
  c <- self ;; ret (_devices c).

Definition get_device_names : M (list string) :=
  c <- self ;; ret (map display_name (_devices c)).

(** *** Recording *)

Definition stop_recording : M (option string) :=
  c <- self ;;
  if negb (_is_recording c) then ret None
  else
    assign (set_is_recording false) ;;
    match _video_writer c with
    | Some vw =>
        outside (VideoWriter_release vw) ;;
        assign (set_video_writer None)
    | None => ret tt
    end ;;
    c' <- self ;;
    let path := _video_path c' in
    assign (set_video_path None) ;;
    ret path.

(** The rate [start_recording] opens the writer with. *)
Definition actual_fps (filter : IRFrameFilter.t) (base_fps : Z) : Z :=
  if IRFrameFilter.eqb filter IRFrameFilter.NONE then base_fps
  else Z.max (base_fps / 2) 7.

(** [now] is [datetime.now().strftime("%Y%m%d_%H%M%S")]. *)
Definition start_recording (save_dir : string) (base_fps : Z) (now : string)
  : M (option string) :=
  c <- self ;;
  if _is_recording c then ret None
  else
    os_makedirs save_dir ;;
    let fps := actual_fps (_frame_filter c) base_fps in
    let timestamp := now in
    let filter_suffix := IRFrameFilter.display_name (_frame_filter c) in
    let video_path :=
      path_join save_dir
        (String.append "IR_Video_"
          (String.append timestamp
            (String.append "_" (String.append filter_suffix ".avi")))) in
    assign (set_video_path (Some video_path)) ;;
    let fourcc := cv2.VideoWriter_fourcc "X" "V" "I" "D" in
    writer <- read_attr (cv2_VideoWriter video_path fourcc fps
                           (_frame_width c, _frame_height c)) ;;
    assign (set_video_writer (Some writer)) ;;
    assign (set_is_recording true) ;;
    ret (Some video_path).

Definition take_photo (save_dir : string) (now : string) : M (option string) :=
  c <- self ;;
  match _last_frame c with
  | None => ret None
  | Some last =>
      os_makedirs save_dir ;;
      let timestamp := now in
      let filepath :=
        path_join save_dir
          (String.append "IR_Photo_" (String.append timestamp ".jpg")) in
      let save_frame := cv2.COLOR_BGRA2BGR last in
      outside (cv2_imwrite filepath save_frame) ;;
      ret (Some filepath)
  end.

(** *** Capture control *)

Definition reader_stop_async (r : MediaFrameReader) : MediaFrameReader :=
  {| reader_source := reader_source r; reader_format := reader_format r;
     reader_started := false |}.

Definition reader_start_async (r : MediaFrameReader) : MediaFrameReader :=
  {| reader_source := reader_source r; reader_format := reader_format r;
     reader_started := true |}.

Definition start : M bool :=
  c <- self ;;
  match _frame_reader c with
  | None => ret false
  | Some r =>
      assign (set_running true) ;;
      assign (set_frame_reader (Some (reader_start_async r))) ;;
      ret true
  end.

Definition stop : M unit :=
  assign (set_running false) ;;
  c <- self ;;
  (if _is_recording c then stop_recording ;; ret tt else ret tt) ;;
  c <- self ;;
  match _frame_reader c with
  | Some r =>
      assign (set_frame_reader (Some (reader_stop_async r))) ;;
      assign (set_frame_reader None)
  | None => ret tt
  end ;;
  c <- self ;;
  match _media_capture c with
  | Some _ => assign (set_media_capture None)
  | None => ret tt
  end.

Definition pause : M unit :=
  c <- self ;;
  match _frame_reader c with
  | Some r => assign (set_frame_reader (Some (reader_stop_async r)))
  | None => ret tt
  end.

Definition resume : M unit :=
  c <- self ;;
  match _frame_reader c with
  | Some r => assign (set_frame_reader (Some (reader_start_async r)))
  | None => ret tt
  end.

Definition get_frame : M (option Frame) :=
  c <- self ;;
  match Queue.get_nowait (_frame_queue c) with
  | Some (f, q) => assign (set_frame_queue q) ;; ret (Some f)
  | None => ret (_last_frame c)
  end.

(** [self._media_capture.initialize_with_settings_async(settings)] with
    [settings.source_group = device] and [settings.sharing_mode = mode]. *)
Definition initialize_with_settings_async
  (device : MediaFrameSourceGroup) (mode : MediaCaptureSharingMode) : M unit :=
  c <- self ;;
  match _media_capture c with
  | None => raise
  | Some mc =>
      if initialize_ok (mc_backend mc) mode
      then assign (set_media_capture (Some
             {| mc_settings := Some (device, mode);
                mc_backend := mc_backend mc |}))
      else raise
  end.

(** [backend] is the capture backend the new [MediaCapture()] talks to.
    [next(iter(frame_sources.values()), None)] is the first source; it is
    [None] only when there is no source, which the test before it has
    already answered. *)
Definition select_device (index : Z) (exclusive : bool)
  (backend : CaptureBackend) : M bool :=
  c <- self ;;
  if (index <? 0) || (index >=? Z.of_nat (List.length (_devices c)))
  then ret false
  else
    (match _frame_reader c with
     | Some _ => stop
     | None => ret tt
     end) ;;
    c <- self ;;
    match nth_error (_devices c) (Z.to_nat index) with
    | None => raise
    | Some device =>
        assign (set_current_device_index index) ;;
        assign (set_media_capture (Some
          {| mc_settings := None; mc_backend := backend |})) ;;
        try_except
          (initialize_with_settings_async device
             (if exclusive then EXCLUSIVE_CONTROL else SHARED_READ_ONLY))
          (if exclusive
           then initialize_with_settings_async device SHARED_READ_ONLY
           else raise) ;;
        c <- self ;;
        let sources :=
          match _media_capture c with
          | Some mc => frame_sources (mc_backend mc)
          | None => []
          end in
        match sources with
        | [] => ret false
        | frame_source :: _ =>
            chosen <-
              match supported_formats frame_source with
              | [] => ret None
              | f :: fs =>
                  let best_format := max_from format_area f fs in
                  assign (set_frame_width (vf_width best_format)) ;;
                  assign (set_frame_height (vf_height best_format)) ;;
                  ret (Some best_format)
              end ;;
            assign (set_frame_reader (Some
              {| reader_source := frame_source; reader_format := chosen;
                 reader_started := false |})) ;;
            ret true
        end
    end.

(** *** Frame processing *)

Definition _check_illumination (video_frame : VideoMediaFrame) : M unit :=
  try_except
    (ir_frame <- read_attr (infrared_media_frame video_frame) ;;
     match ir_frame with
     | Some ir =>
         flag <- read_attr (is_illuminated ir) ;;
         assign (set_is_illuminated flag)
     | None => ret tt
     end)
    (assign (set_is_illuminated false)).

Definition _should_display_frame : M bool :=
  c <- self ;;
  if IRFrameFilter.eqb (_frame_filter c) IRFrameFilter.NONE then ret true
  else if IRFrameFilter.eqb (_frame_filter c) IRFrameFilter.RAW
  then ret (negb (_is_illuminated c))
  else if IRFrameFilter.eqb (_frame_filter c) IRFrameFilter.ILLUMINATED
  then ret (_is_illuminated c)
  else ret true.

(** Any exception during conversion makes the method return [None]. *)
Definition _convert_bitmap_to_frame (bitmap : SoftwareBitmap) : option Frame :=
  match bgra8_bytes bitmap with
  | Throws => None
  | Gives data => reshape (pixel_height bitmap) (pixel_width bitmap) data
  end.

(** [result = np.zeros_like(frame); result[:, :, 1] = gray;
    result[:, :, 3] = 255], [gray] having the height and width of
    [frame]. *)
Definition green_channel (gray : GrayImage) : Frame :=
  map (map (fun g : Z => (0, g, 0, 255))) gray.

(** The body of [_apply_color_mapping], [mode] being [self._mapping_mode]. *)
Definition color_mapping (mode : IRMappingMode.t) (frame : Frame) : Frame :=
  if IRMappingMode.eqb mode IRMappingMode.NONE then frame
  else
    let gray := cv2.COLOR_BGRA2GRAY frame in
    if IRMappingMode.eqb mode IRMappingMode.GREEN
    then green_channel gray
    else if IRMappingMode.eqb mode IRMappingMode.HEAT
    then cv2.COLOR_BGR2BGRA (cv2.applyColorMap colormap_hot gray)
    else if IRMappingMode.eqb mode IRMappingMode.JET
    then cv2.COLOR_BGR2BGRA (cv2.applyColorMap colormap_jet gray)
    else frame.

Definition _apply_color_mapping (frame : Frame) : M Frame :=
  c <- self ;; ret (color_mapping (_mapping_mode c) frame).

Definition _update_frame (frame : Frame) : M unit :=
  frame <- _apply_color_mapping frame ;;
  (* frame.copy() has the value of frame *)
  assign (set_last_frame (Some frame)) ;;
  c <- self ;;
  (if _is_recording c
   then match _video_writer c with
        | Some vw =>
            let record_frame := cv2.COLOR_BGRA2BGR frame in
            assign (set_video_writer (Some (VideoWriter_write record_frame vw)))
        | None => ret tt
        end
   else ret tt) ;;
  c <- self ;;
  assign (set_frame_queue
    (drain (List.length (Queue.items (_frame_queue c))) (_frame_queue c))) ;;
  c <- self ;;
  match Queue.put_nowait frame (_frame_queue c) with
  | Some q => assign (set_frame_queue q)
  | None => ret tt
  end.

(** [acquired] is what [reader.try_acquire_latest_frame()] does: it
    raises, or yields a frame or [None].  The frame is closed on every
    way out of the [try] block; closing leaves no trace in the
    controller. *)
Definition _process_frame (acquired : Fallible (option MediaFrame)) : M unit :=
  media_frame <- read_attr acquired ;;
  match media_frame with
  | None => ret tt
  | Some media_frame =>
      try_finally
        (video_frame <- read_attr (video_media_frame media_frame) ;;
         match video_frame with
         | None => ret tt
         | Some video_frame =>
             _check_illumination video_frame ;;
             show <- _should_display_frame ;;
             if negb show then ret tt
             else
               bitmap <- read_attr (software_bitmap video_frame) ;;
               match bitmap with
               | Some bitmap =>
                   match _convert_bitmap_to_frame bitmap with
                   | Some frame => _update_frame frame
                   | None => ret tt
                   end
               | None => ret tt
               end
         end)
        (read_attr (close media_frame))
  end.

(** The callback runs under [self._lock]; one call is one step here.
    Whatever [_process_frame] raises is dropped. *)
Definition _on_frame_arrived (acquired : Fallible (option MediaFrame))
  : M unit :=
  c <- self ;;
  if negb (_running c) then ret tt
  else try_except (_process_frame acquired) (ret tt).

(** *** main.py: the handlers that drive the controller *)

Definition _on_filter : M unit :=
  current <- frame_filter ;;
  frame_filter_setter (IRFrameFilter.next current).

Definition _on_color : M unit :=
  current <- mapping_mode ;;
  mapping_mode_setter (IRMappingMode.next current).

(** ** Runs of the controller

    One [Call] is one use of the controller from outside: a method call, a
    property assignment, or the backend delivering a frame.  A call that
    raises leaves the state it reached. *)

Inductive Call : Type :=
| set_filter (value : IRFrameFilter.t)
| next_filter
| set_mapping (value : IRMappingMode.t)
| next_mapping
| call_find_ir_cameras (found : list MediaFrameSourceGroup)
| call_select_device (index : Z) (exclusive : bool) (backend : CaptureBackend)
| call_start
| call_stop
| call_pause
| call_resume
| call_get_frame
| frame_arrived (acquired : Fallible (option MediaFrame))
| call_take_photo (save_dir now : string)
| call_start_recording (save_dir : string) (base_fps : Z) (now : string)
| call_stop_recording.

Definition perform (call : Call) : M unit :=
  match call with
  | set_filter v => frame_filter_setter v
  | next_filter => _on_filter
  | set_mapping v => mapping_mode_setter v
  | next_mapping => _on_color
  | call_find_ir_cameras found => find_ir_cameras found ;; ret tt
  | call_select_device i e b => select_device i e b ;; ret tt
  | call_start => start ;; ret tt
  | call_stop => stop
  | call_pause => pause
  | call_resume => resume
  | call_get_frame => get_frame ;; ret tt
  | frame_arrived a => _on_frame_arrived a
  | call_take_photo d n => take_photo d n ;; ret tt
  | call_start_recording d f n => start_recording d f n ;; ret tt
  | call_stop_recording => stop_recording ;; ret tt
  end.

Definition run (calls : list Call) (s : Sys) : Sys :=
  fold_left (fun s call => after (perform call) s) calls s.

(** The calls that can end a recording: [stop_recording], [stop], and
    [select_device], which stops the current capture. *)
Definition ends_recording (call : Call) : bool :=
  match call with
  | call_stop_recording | call_stop | call_select_device _ _ _ => true
  | _ => false
  end.

Definition delivers_frame (call : Call) : bool :=
  match call with
  | frame_arrived _ => true
  | _ => false
  end.

End Controller.

(** A fresh controller in a world nothing was written to. *)
Definition at_startup : Sys := {| ctl := __init__; env := empty_world |}.

(** ** Concrete data for the examples *)

Definition demo_platform : Platform := {|
  path_join := fun a b => String.append a (String.append "/" b);
  bgra2gray := fun p => let '(b, g, r, _) := p in (b + g + r) / 3;
  colormap_hot := fun g => (0, g / 2, g);
  colormap_jet := fun g => (255 - g, 0, g)
|}.

Definition frame_A : Frame := [[(10, 20, 30, 255); (40, 50, 60, 255)]].
Definition frame_B : Frame := [[(1, 2, 3, 255); (4, 5, 6, 255)]].

Definition device_A : MediaFrameSourceGroup :=
  {| display_name := "A"; source_infos := [COLOR; INFRARED] |}.
Definition device_B : MediaFrameSourceGroup :=
  {| display_name := "B"; source_infos := [INFRARED] |}.

(** A backend that opens the device and offers one source with two
    formats. *)
Definition good_backend : CaptureBackend :=
  {| initialize_ok := fun _ => true;
     frame_sources :=
       [{| supported_formats :=
             [{| vf_width := 320; vf_height := 240 |};
              {| vf_width := 640; vf_height := 360 |}] |}] |}.

(** A backend that opens the device and offers no frame source. *)
Definition sourceless_backend : CaptureBackend :=
  {| initialize_ok := fun _ => true; frame_sources := [] |}.

(** The controller after discovery found the devices A and B. *)
Definition with_A_B : Sys :=
  {| ctl := set_devices [device_A; device_B] __init__; env := empty_world |}.

(** A controller that is capturing and recording to a writer opened at
    15 frames per second. *)
Definition demo_writer : VideoWriter :=
  {| vw_path := "videos/IR_Video_20240101_120000_OFF.avi";
     vw_fourcc := cv2.VideoWriter_fourcc "X" "V" "I" "D";
     vw_fps := 15; vw_size := (640, 480); vw_frames := [] |}.

Definition demo_reader : MediaFrameReader :=
  {| reader_source := {| supported_formats := [] |};
     reader_format := None; reader_started := true |}.

Definition recording_sys : Sys :=
  {| ctl :=
       set_video_path (Some (vw_path demo_writer))
         (set_video_writer (Some demo_writer)
           (set_is_recording true
             (set_running true
               (set_frame_reader (Some demo_reader)
                 (set_media_capture
                    (Some {| mc_settings := Some (device_A, SHARED_READ_ONLY);
                             mc_backend := good_backend |})
                    (set_devices [device_A; device_B] __init__))))));
     env := empty_world |}.

(** The previous frame was illuminated. *)
Definition after_illuminated_frame : Sys :=
  {| ctl := set_frame_filter IRFrameFilter.ILLUMINATED
              (set_is_illuminated true (set_running true __init__));
     env := empty_world |}.

(** A video frame without an infrared sub-frame. *)
Definition frame_without_ir : VideoMediaFrame :=
  {| infrared_media_frame := Gives None;
     software_bitmap :=
       Gives (Some {| pixel_height := 1; pixel_width := 2;
                      bgra8_bytes :=
                        Gives [10; 20; 30; 255; 40; 50; 60; 255] |}) |}.

(** A video frame whose illumination flag cannot be read. *)
Definition frame_with_unreadable_flag : VideoMediaFrame :=
  {| infrared_media_frame := Gives (Some {| is_illuminated := Throws |});
     software_bitmap := Gives None |}.

(** ** Predicates on states *)

(** A recording is in progress to the file [path], through a writer opened
    at [fps] frames per second. *)
Definition recording_as (path : string) (fps : Z) (s : Sys) : Prop :=
  _is_recording (ctl s) = true /\
  _video_path (ctl s) = Some path /\
  exists vw,
    _video_writer (ctl s) = Some vw /\ vw_path vw = path /\ vw_fps vw = fps.

(** Nothing is buffered: the queue is empty and there is no last frame. *)
Definition no_frame_yet (s : Sys) : Prop :=
  Queue.items (_frame_queue (ctl s)) = [] /\ _last_frame (ctl s) = None.

(** The method [m] leaves the part [part] of the state as it found it,
    whether it returns or raises. *)
Definition keeps {A X : Type} (part : Sys -> X) (m : M A) : Prop :=
  forall s : Sys, part (after m s) = part s.

(** The buffer of the latest frame: the queue and the last frame. *)
Definition buffer (s : Sys) : Queue.t * option Frame :=
  (_frame_queue (ctl s), _last_frame (ctl s)).

(** [n] calls of [get_frame] in a row; the values they return, first call
    first. *)
Fixpoint reads (n : nat) (s : Sys) : list (Outcome (option Frame)) :=
  match n with
  | O => []
  | S n' => result get_frame s :: reads n' (after get_frame s)
  end.

(** ** More predicates and test data *)

(** The bytes of a frame, row after row, pixel after pixel, B G R A: what
    [frame.tobytes()] gives. *)
Definition pixel_bytes (p : Pixel) : list Z :=
  let '(b, g, r, a) := p in [b; g; r; a].

Definition frame_bytes (f : Frame) : list Z :=
  flat_map pixel_bytes (List.concat f).

(** The table of the frame filter: does a frame with illumination flag
    [flag] pass the filter [filter]? *)
Definition passes (filter : IRFrameFilter.t) (flag : bool) : bool :=
  match filter with
  | IRFrameFilter.NONE => true
  | IRFrameFilter.RAW => negb flag
  | IRFrameFilter.ILLUMINATED => flag
  end.

(** A media frame as an infrared camera delivers it: the illumination
    flag can be read and a bitmap is attached. *)
Definition ir_media_frame (flag : bool) (bitmap : SoftwareBitmap) : MediaFrame :=
  {| video_media_frame :=
       Gives (Some {| infrared_media_frame :=
                        Gives (Some {| is_illuminated := Gives flag |});
                      software_bitmap := Gives (Some bitmap) |});
     close := Gives tt |}.

(** The recording fields agree: a writer is open and a path is kept
    exactly while [_is_recording] is set, and the writer writes to that
    path. *)
Definition recording_consistent (s : Sys) : Prop :=
  if _is_recording (ctl s)
  then exists path vw,
         _video_path (ctl s) = Some path /\
         _video_writer (ctl s) = Some vw /\ vw_path vw = path
  else _video_path (ctl s) = None /\ _video_writer (ctl s) = None.

(** The part of that agreement no failed call can break: while
    [_is_recording] is set a writer is open on the path kept, and while
    it is not set there is no writer.  A path can be left behind by a
    [start_recording] that raised in [cv2.VideoWriter]. *)
Definition recording_sound (s : Sys) : Prop :=
  if _is_recording (ctl s)
  then exists path vw,
         _video_path (ctl s) = Some path /\
         _video_writer (ctl s) = Some vw /\ vw_path vw = path
  else _video_writer (ctl s) = None.

(** The call does not ask [start_recording] for a base rate that fits no
    double. *)
Definition asks_finite_rate (call : Call) : bool :=
  match call with
  | call_start_recording _ base_fps _ => fits_double base_fps
  | _ => true
  end.

(** No capture session: no capture object, no reader, not running. *)
Definition no_session (s : Sys) : Prop :=
  _media_capture (ctl s) = None /\
  _frame_reader (ctl s) = None /\
  _running (ctl s) = false.

Definition selects_device (call : Call) : bool :=
  match call with
  | call_select_device _ _ _ => true
  | _ => false
  end.

(** The frames a writer receives when the bitmaps [arrivals], each with
    its illumination flag, are delivered one after the other: those that
    convert and pass the filter, colour-mapped and without alpha. *)
Fixpoint recorded `{Platform} (filter : IRFrameFilter.t)
  (mode : IRMappingMode.t) (arrivals : list (bool * SoftwareBitmap))
  : list ImageBGR :=
  match arrivals with
  | [] => []
  | (flag, bitmap) :: rest =>
      match _convert_bitmap_to_frame bitmap with
      | Some frame =>
          if passes filter flag
          then cv2.COLOR_BGRA2BGR (color_mapping mode frame)
                 :: recorded filter mode rest
          else recorded filter mode rest
      | None => recorded filter mode rest
      end
  end.

(** A 1 x 2 bitmap holding [frame_A]. *)
Definition bitmap_A : SoftwareBitmap :=
  {| pixel_height := 1; pixel_width := 2;
     bgra8_bytes := Gives [10; 20; 30; 255; 40; 50; 60; 255] |}.

Definition bitmap_B : SoftwareBitmap :=
  {| pixel_height := 1; pixel_width := 2;
     bgra8_bytes := Gives [1; 2; 3; 255; 4; 5; 6; 255] |}.

(** A bitmap whose buffer is one byte short. *)
Definition short_bitmap : SoftwareBitmap :=
  {| pixel_height := 1; pixel_width := 2;
     bgra8_bytes := Gives [10; 20; 30; 255; 40; 50; 60] |}.

(** A capture session on device A that is running, with nothing
    recorded. *)
Definition running_sys : Sys :=
  {| ctl :=
       set_running true
         (set_frame_reader (Some demo_reader)
           (set_media_capture
              (Some {| mc_settings := Some (device_A, SHARED_READ_ONLY);
                       mc_backend := good_backend |})
              (set_devices [device_A; device_B] __init__)));
     env := empty_world |}.

(** Everything [select_device] leaves alone once the old session is torn
    down: all but the capture object, the reader, the device index and
    the frame size. *)
Definition outside_session (s : Sys) :=
  (_running (ctl s), _frame_queue (ctl s), _last_frame (ctl s),
   _devices (ctl s), _frame_filter (ctl s), _mapping_mode (ctl s),
   _is_illuminated (ctl s), _is_recording (ctl s), _video_writer (ctl s),
   _video_path (ctl s), env s).

(** The mode [select_device] first asks for, and whether the backend
    opens the capture in that mode or, after a failed exclusive attempt,
    in shared mode. *)
Definition capture_opens (backend : CaptureBackend) (exclusive : bool) : bool :=
  initialize_ok backend
    (if exclusive then EXCLUSIVE_CONTROL else SHARED_READ_ONLY)
  || (exclusive && initialize_ok backend SHARED_READ_ONLY).

(** The backend delivers the bitmap with its illumination flag. *)
Definition deliver (arrival : bool * SoftwareBitmap) : Call :=
  frame_arrived (Gives (Some (ir_media_frame (fst arrival) (snd arrival)))).

(** What a delivered frame never touches: everything but the
    illumination flag, the buffer and the frames of the writer. *)
Definition beyond_frames (s : Sys) :=
  (_media_capture (ctl s), _frame_reader (ctl s), _running (ctl s),
   _devices (ctl s), _current_device_index (ctl s),
   _frame_width (ctl s), _frame_height (ctl s),
   _frame_filter (ctl s), _mapping_mode (ctl s),
   _is_recording (ctl s), _video_path (ctl s),
   option_map vw_path (_video_writer (ctl s)),
   option_map vw_fps (_video_writer (ctl s)),
   option_map vw_size (_video_writer (ctl s)),
   env s).

(** The colour mapping of one pixel. *)
Definition mapped_pixel `{Platform} (mode : IRMappingMode.t) (p : Pixel)
  : Pixel :=
  match mode with
  | IRMappingMode.NONE => p
  | IRMappingMode.GREEN => (0, bgra2gray p, 0, 255)
  | IRMappingMode.HEAT =>
      let '(b, g, r) := colormap_hot (bgra2gray p) in (b, g, r, 255)
  | IRMappingMode.JET =>
      let '(b, g, r) := colormap_jet (bgra2gray p) in (b, g, r, 255)
  end.

Definition alpha (p : Pixel) : Z := let '(_, _, _, a) := p in a.

(** ** constants.py: layout *)

Module Layout.

Definition CONTROL_PANEL_HEIGHT : Z := 60.
Definition CONTROL_PANEL_HEIGHT_2ROWS : Z := 105.
Definition BUTTON_HEIGHT : Z := 35.
Definition BUTTON_WIDTH : Z := 100.
Definition BUTTON_MARGIN : Z := 5.
Definition BUTTONS_PER_ROW : Z := 6.
Definition MIN_WINDOW_WIDTH : Z := 640.
Definition STATUS_DISPLAY_TIME : Z := 3.

End Layout.

(** ** gui_components.py

    Drawing is left out: it reads the components and writes to the image
    only.  A button's action is kept as a value of a type [A]; the panel
    is told how to run it. *)

(** What the user interface takes from outside: the type of the readings
    of [time.time()], the reading 0 a status bar starts with, and
    [os.path.basename]. *)
Class UiPlatform : Type := {
  Time : Type;
  time_zero : Time;
  basename : string -> string
}.

Module Button.

Record t (A : Type) : Type := {
  x : Z;
  y : Z;
  width : Z;
  height : Z;
  text : string;
  action : A;
  hover : bool;
  active : bool
}.
Arguments x {A} _.
Arguments y {A} _.
Arguments width {A} _.
Arguments height {A} _.
Arguments text {A} _.
Arguments action {A} _.
Arguments hover {A} _.
Arguments active {A} _.

Definition __init__ {A} (px py w h : Z) (label : string) (act : A) : t A :=
  {| x := px; y := py; width := w; height := h; text := label;
     action := act; hover := false; active := false |}.

Definition contains {A} (b : t A) (px py : Z) : bool :=
  (x b <=? px) && (px <=? x b + width b)
  && ((y b <=? py) && (py <=? y b + height b)).

Definition set_hover {A} (v : bool) (b : t A) : t A :=
  {| x := x b; y := y b; width := width b; height := height b;
     text := text b; action := action b; hover := v; active := active b |}.

Definition set_text {A} (v : string) (b : t A) : t A :=
  {| x := x b; y := y b; width := width b; height := height b;
     text := v; action := action b; hover := hover b; active := active b |}.

Definition set_active {A} (v : bool) (b : t A) : t A :=
  {| x := x b; y := y b; width := width b; height := height b;
     text := text b; action := action b; hover := hover b; active := v |}.

End Button.

Record StatusBar `{UiPlatform} : Type := {
  message : string;
  timestamp : Time;
  display_time : Z
}.

Definition StatusBar__init__ `{UiPlatform} : StatusBar :=
  {| message := ""; timestamp := time_zero;
     display_time := Layout.STATUS_DISPLAY_TIME |}.

(** [now] is the reading of [time.time()]. *)
Definition set_message `{UiPlatform} (text : string) (now : Time)
  (bar : StatusBar) : StatusBar :=
  {| message := text; timestamp := now; display_time := display_time bar |}.

Module ControlPanel.

Record t `{UiPlatform} (A : Type) : Type := {
  width : Z;
  height : Z;
  y_offset : Z;
  buttons : list (Button.t A);
  status_bar : StatusBar
}.
Arguments width {_ A} _.
Arguments height {_ A} _.
Arguments y_offset {_ A} _.
Arguments buttons {_ A} _.
Arguments status_bar {_ A} _.

Definition __init__ `{UiPlatform} {A} (w h offset : Z) : t A :=
  {| width := w; height := h; y_offset := offset; buttons := [];
     status_bar := StatusBar__init__ |}.

Definition append_button `{UiPlatform} {A} (b : Button.t A) (p : t A) : t A :=
  {| width := width p; height := height p; y_offset := y_offset p;
     buttons := buttons p ++ [b]; status_bar := status_bar p |}.

(** The button a panel holding [count] buttons gives to its next one. *)
Definition grid_button {A} (offset : Z) (count : nat) (label : string)
  (act : A) : Button.t A :=
  let row := Z.of_nat count / 5 in
  let col := Z.of_nat count mod 5 in
  let px := Layout.BUTTON_MARGIN
            + col * (Layout.BUTTON_WIDTH + Layout.BUTTON_MARGIN) in
  let py := offset + Layout.BUTTON_MARGIN
            + row * (Layout.BUTTON_HEIGHT + Layout.BUTTON_MARGIN) in
  Button.__init__ px py Layout.BUTTON_WIDTH Layout.BUTTON_HEIGHT label act.

(** [add_button] and [add_button_at] return the new button; here they
    return its position in [buttons], through which the caller reaches
    it later. *)
Definition add_button `{UiPlatform} {A} (label : string) (act : A) (p : t A)
  : nat * t A :=
  let button :=
    grid_button (y_offset p) (List.length (buttons p)) label act in
  (List.length (buttons p), append_button button p).

Definition add_button_at `{UiPlatform} {A} (px py w : Z) (label : string)
  (act : A) (p : t A) : nat * t A :=
  let button := Button.__init__ px py w Layout.BUTTON_HEIGHT label act in
  (List.length (buttons p), append_button button p).

(** The loop of [handle_mouse] over the buttons still to visit.  [run]
    runs an action on the state [S] the actions work on; an action that
    raises ends the loop, and the buttons not yet visited keep their
    hover flag. *)
Fixpoint visit_buttons {A S} (run : A -> S -> Outcome unit * S)
  (px py : Z) (clicked : bool) (todo : list (Button.t A)) (s : S)
  : Outcome unit * (list (Button.t A) * S) :=
  match todo with
  | [] => (Returns tt, ([], s))
  | button :: rest =>
      let button := Button.set_hover (Button.contains button px py) button in
      if clicked && Button.hover button
      then match run (Button.action button) s with
           | (Returns _, s') =>
               let '(o, (rest', s'')) :=
                 visit_buttons run px py clicked rest s' in
               (o, (button :: rest', s''))
           | (Raises, s') => (Raises, (button :: rest, s'))
           end
      else let '(o, (rest', s')) :=
             visit_buttons run px py clicked rest s in
           (o, (button :: rest', s'))
  end.

Definition set_buttons `{UiPlatform} {A} (bs : list (Button.t A)) (p : t A)
  : t A :=
  {| width := width p; height := height p; y_offset := y_offset p;
     buttons := bs; status_bar := status_bar p |}.

Definition set_status_bar `{UiPlatform} {A} (bar : StatusBar) (p : t A) : t A :=
  {| width := width p; height := height p; y_offset := y_offset p;
     buttons := buttons p; status_bar := bar |}.

Definition set_status `{UiPlatform} {A} (text : string) (now : Time) (p : t A)
  : t A :=
  set_status_bar (set_message text now (status_bar p)) p.

End ControlPanel.

(** ** main.py: the application around the controller *)

(** Python's [xs[i]]: a negative index counts from the end; [None] stands
    for [IndexError]. *)
Definition py_index {A} (xs : list A) (i : Z) : option A :=
  let n := Z.of_nat (List.length xs) in
  if (0 <=? i) && (i <? n) then nth_error xs (Z.to_nat i)
  else if (- n <=? i) && (i <? 0) then nth_error xs (Z.to_nat (n + i))
  else None.

(** [if path:] on a value that is [None] or a string. *)
Definition truthy (path : option string) : bool :=
  match path with
  | Some p => negb (String.eqb p "")
  | None => false
  end.

(** The bound methods handed to the buttons as their actions. *)
Inductive Action : Type :=
| do_photo | do_record | do_filter | do_color | do_device.

(** What one event reads from outside while it is handled: the formatted
    time of [datetime.now()], the reading of [time.time()], and the
    backend a newly selected device talks to. *)
Record Ambient `{UiPlatform} : Type := {
  ev_clock : string;
  ev_time : Time;
  ev_backend : CaptureBackend
}.

Definition EVENT_LBUTTONDOWN : Z := 1.

Section Application.

Context {P : Platform} {U : UiPlatform}.

(** The part of the application the button actions work on: the status
    bar of the control panel and the controller. *)
Definition Ui : Type := (StatusBar * Sys)%type.

Definition UiM (A : Type) : Type := Ui -> Outcome A * Ui.

Definition ui_ret {A} (a : A) : UiM A := fun u => (Returns a, u).

Definition ui_bind {A B} (m : UiM A) (k : A -> UiM B) : UiM B :=
  fun u => match m u with
           | (Returns a, u') => k a u'
           | (Raises, u') => (Raises, u')
           end.

Definition ui_raise {A} : UiM A := fun u => (Raises, u).

(** A call of a controller method. *)
Definition call {A} (m : M A) : UiM A :=
  fun u => let '(o, s) := m (snd u) in (o, (fst u, s)).

(** [self.control_panel.set_status(text)] *)
Definition status (text : string) (now : Time) : UiM unit :=
  fun u => (Returns tt, (set_message text now (fst u), snd u)).

Notation "x <~ m ;; k" := (ui_bind m (fun x => k))
  (at level 61, m at next level, right associativity).
Notation "m ~;; k" := (ui_bind m (fun _ => k))
  (at level 61, right associativity).

Definition _on_photo (ev : Ambient) : UiM unit :=
  path <~ call (take_photo "photos" (ev_clock ev)) ;;
  if truthy path
  then status (String.append "Saved: "
                 (basename (match path with Some p => p | None => "" end)))
         (ev_time ev)
  else ui_ret tt.

Definition _on_record (ev : Ambient) : UiM unit :=
  recording <~ call is_recording ;;
  if (recording : bool)
  then
    path <~ call stop_recording ;;
    if truthy path
    then status (String.append "Saved: "
                   (basename (match path with Some p => p | None => "" end)))
           (ev_time ev)
    else ui_ret tt
  else
    path <~ call (start_recording "videos" 15 (ev_clock ev)) ;;
    if truthy path
    then status "Recording..." (ev_time ev)
    else ui_ret tt.

Definition _on_device (ev : Ambient) : UiM unit :=
  devs <~ call devices ;;
  if Z.of_nat (List.length devs) <=? 1 then ui_ret tt
  else
    current <~ call current_device_index ;;
    devs <~ call devices ;;
    let next_idx := (current + 1) mod Z.of_nat (List.length devs) in
    call (select_device next_idx false (ev_backend ev)) ~;;
    call start ~;;
    names <~ call get_device_names ;;
    match py_index names next_idx with
    | Some name => status (String.append "Device: " name) (ev_time ev)
    | None => ui_raise
    end.

(** Calling the action of a button. *)
Definition fire (ev : Ambient) (a : Action) : UiM unit :=
  match a with
  | do_photo => _on_photo ev
  | do_record => _on_record ev
  | do_filter => call _on_filter
  | do_color => call _on_color
  | do_device => _on_device ev
  end.

Record IRCameraApp : Type := {
  controller : Sys;
  window_width : Z;
  window_height : Z;
  control_panel : option (ControlPanel.t Action);
  btn_record : option nat;
  btn_filter : option nat;
  btn_color : option nat;
  btn_device : option nat
}.

Definition IRCameraApp__init__ : IRCameraApp :=
  {| controller := at_startup;
     window_width := Layout.MIN_WINDOW_WIDTH;
     window_height := 480 + Layout.CONTROL_PANEL_HEIGHT;
     control_panel := None;
     btn_record := None; btn_filter := None; btn_color := None;
     btn_device := None |}.

Definition _setup_ui (app : IRCameraApp) : IRCameraApp :=
  let has_multi_devices :=
    1 <? Z.of_nat (List.length (_devices (ctl (controller app)))) in
  let panel_height :=
    if has_multi_devices then Layout.CONTROL_PANEL_HEIGHT_2ROWS
    else Layout.CONTROL_PANEL_HEIGHT in
  let panel_y := window_height app - panel_height in
  let panel := ControlPanel.__init__ (window_width app) panel_height panel_y in
  let '(_, panel) := ControlPanel.add_button "Photo" do_photo panel in
  let '(record, panel) := ControlPanel.add_button "Record" do_record panel in
  let '(filter, panel) :=
    ControlPanel.add_button "Filter: OFF" do_filter panel in
  let '(color, panel) := ControlPanel.add_button "Color: OFF" do_color panel in
  let '(device, panel) :=
    if has_multi_devices
    then
      let device_y :=
        panel_y + Layout.BUTTON_HEIGHT + Layout.BUTTON_MARGIN * 2 in
      let device_width := window_width app - Layout.BUTTON_MARGIN * 2 in
      let '(device, panel) :=
        ControlPanel.add_button_at Layout.BUTTON_MARGIN device_y device_width
          "Device" do_device panel in
      (Some device, panel)
    else (btn_device app, panel) in
  {| controller := controller app;
     window_width := window_width app;
     window_height := window_height app;
     control_panel := Some panel;
     btn_record := Some record; btn_filter := Some filter;
     btn_color := Some color; btn_device := device |}.

(** [self.control_panel.handle_mouse(x, y, clicked)], the actions being
    those of the application: they reach the status bar of the panel and
    the controller. *)
Definition handle_mouse (ev : Ambient) (px py : Z) (clicked : bool)
  (panel : ControlPanel.t Action) (sys : Sys)
  : Outcome unit * (ControlPanel.t Action * Sys) :=
  let '(o, (bs, (bar, sys'))) :=
    ControlPanel.visit_buttons (fire ev) px py clicked
      (ControlPanel.buttons panel) (ControlPanel.status_bar panel, sys) in
  (o, (ControlPanel.set_status_bar bar (ControlPanel.set_buttons bs panel),
       sys')).

Definition with_panel (panel : ControlPanel.t Action) (sys : Sys)
  (app : IRCameraApp) : IRCameraApp :=
  {| controller := sys;
     window_width := window_width app;
     window_height := window_height app;
     control_panel := Some panel;
     btn_record := btn_record app; btn_filter := btn_filter app;
     btn_color := btn_color app; btn_device := btn_device app |}.

(** The mouse callback.  Before [_setup_ui] there is no panel, and the
    attribute access raises. *)
Definition _on_mouse (ev : Ambient) (event px py : Z) (app : IRCameraApp)
  : Outcome unit * IRCameraApp :=
  let clicked := event =? EVENT_LBUTTONDOWN in
  match control_panel app with
  | None => (Raises, app)
  | Some panel =>
      let '(o, (panel', sys')) :=
        handle_mouse ev px py clicked panel (controller app) in
      (o, with_panel panel' sys' app)
  end.

End Application.

(** Running actions one after the other; the first that raises ends the
    sequence. *)
Fixpoint run_actions {A S} (run : A -> S -> Outcome unit * S)
  (actions : list A) (s : S) : Outcome unit * S :=
  match actions with
  | [] => (Returns tt, s)
  | a :: rest =>
      match run a s with
      | (Returns _, s') => run_actions run rest s'
      | (Raises, s') => (Raises, s')
      end
  end.

(** The buttons under the point, in panel order. *)
Definition under_pointer {A} (px py : Z) (bs : list (Button.t A))
  : list (Button.t A) :=
  filter (fun b => Button.contains b px py) bs.

(** No point lies in two buttons of the list. *)
Definition buttons_apart {A} (bs : list (Button.t A)) : Prop :=
  forall (i j : nat) (bi bj : Button.t A) (px py : Z),
    nth_error bs i = Some bi -> nth_error bs j = Some bj ->
    Button.contains bi px py = true -> Button.contains bj px py = true ->
    i = j.

(** The button lies inside the rectangle from (0, top) to (right,
    bottom). *)
Definition button_inside {A} (top right bottom : Z) (b : Button.t A) : Prop :=
  0 <= Button.x b /\ Button.x b + Button.width b <= right /\
  top <= Button.y b /\ Button.y b + Button.height b <= bottom.

(** [buttons[i]] changed by [f]; a list is left as it is when it has no
    such position. *)
Fixpoint update_button {A} (i : nat) (f : Button.t A -> Button.t A)
  (bs : list (Button.t A)) : list (Button.t A) :=
  match bs, i with
  | [], _ => []
  | b :: rest, O => f b :: rest
  | b :: rest, S i' => b :: update_button i' f rest
  end.

Section ApplicationRendering.

Context {P : Platform} {U : UiPlatform}.

(** A change to the button a reference points to; no reference, no
    change. *)
Definition through (ref : option nat) (f : Button.t Action -> Button.t Action)
  (panel : ControlPanel.t Action) : ControlPanel.t Action :=
  match ref with
  | Some i =>
      ControlPanel.set_buttons
        (update_button i f (ControlPanel.buttons panel)) panel
  | None => panel
  end.

(** [_update_button_texts].  The buttons are reached through the panel
    that holds them; before [_setup_ui] there is neither panel nor
    button.  [names[idx]] raises when the index is outside the names. *)
Definition _update_button_texts (app : IRCameraApp)
  : Outcome unit * IRCameraApp :=
  match control_panel app with
  | None => (Returns tt, app)
  | Some panel =>
      let c := ctl (controller app) in
      let panel :=
        through (btn_record app)
          (fun b => Button.set_active (_is_recording c)
                      (Button.set_text
                         (if _is_recording c then "Stop" else "Record") b))
          panel in
      let panel :=
        through (btn_filter app)
          (Button.set_text
             (String.append "Filter: "
                (IRFrameFilter.display_name (_frame_filter c))))
          panel in
      let panel :=
        through (btn_color app)
          (Button.set_text
             (String.append "Color: "
                (IRMappingMode.display_name (_mapping_mode c))))
          panel in
      match btn_device app with
      | None => (Returns tt, with_panel panel (controller app) app)
      | Some _ =>
          let names := map display_name (_devices c) in
          match py_index names (_current_device_index c) with
          | Some name =>
              let panel :=
                through (btn_device app)
                  (Button.set_text (String.append "Device: " name)) panel in
              (Returns tt, with_panel panel (controller app) app)
          | None => (Raises, with_panel panel (controller app) app)
          end
      end
  end.

Definition set_controller (sys : Sys) (app : IRCameraApp) : IRCameraApp :=
  {| controller := sys;
     window_width := window_width app;
     window_height := window_height app;
     control_panel := control_panel app;
     btn_record := btn_record app; btn_filter := btn_filter app;
     btn_color := btn_color app; btn_device := btn_device app |}.

Definition set_window (w h : Z) (app : IRCameraApp) : IRCameraApp :=
  {| controller := controller app;
     window_width := w;
     window_height := h;
     control_panel := control_panel app;
     btn_record := btn_record app; btn_filter := btn_filter app;
     btn_color := btn_color app; btn_device := btn_device app |}.

(** [_initialize], without the log lines and the creation of the window.
    [found] is what discovery yields and [backend] what the selected
    device talks to; a [RuntimeError] and an exception of the backend
    both end it. *)
Definition _initialize (found : list MediaFrameSourceGroup)
  (backend : CaptureBackend) (app : IRCameraApp)
  : Outcome unit * IRCameraApp :=
  let '(_, sys) := find_ir_cameras found (controller app) in
  let app := set_controller sys app in
  match _devices (ctl sys) with
  | [] => (Raises, app)
  | _ :: _ =>
      match select_device 0 false backend sys with
      | (Raises, sys) => (Raises, set_controller sys app)
      | (Returns false, sys) => (Raises, set_controller sys app)
      | (Returns true, sys) =>
          let app := set_controller sys app in
          let cam_w := _frame_width (ctl sys) in
          let cam_h := _frame_height (ctl sys) in
          let has_multi_devices :=
            1 <? Z.of_nat (List.length (_devices (ctl sys))) in
          let panel_height :=
            if has_multi_devices then Layout.CONTROL_PANEL_HEIGHT_2ROWS
            else Layout.CONTROL_PANEL_HEIGHT in
          let app :=
            set_window (Z.max cam_w Layout.MIN_WINDOW_WIDTH)
              (cam_h + panel_height) app in
          match start sys with
          | (Raises, sys) => (Raises, set_controller sys app)
          | (Returns false, sys) => (Raises, set_controller sys app)
          | (Returns true, sys) =>
              (Returns tt, _setup_ui (set_controller sys app))
          end
      end
  end.

End ApplicationRendering.

(** ** logger.py

    The loggers of the [logging] module form a table by name; a logger
    that was never asked for has level NOTSET and no handler.  A logger
    is an object shared by all who ask for its name: [setup_logger]
    changes the table entry. *)

Module logging.

Definition NOTSET : Z := 0.
Definition DEBUG : Z := 10.
Definition INFO : Z := 20.
Definition WARNING : Z := 30.
Definition ERROR : Z := 40.

(** A [StreamHandler] with its formatter. *)
Record Handler : Type := {
  stream : string;
  handler_level : Z;
  fmt : string;
  datefmt : string
}.

Record Logger : Type := {
  level : Z;
  handlers : list Handler
}.

(** The loggers of the interpreter, by the name they are kept under.
    [getLogger] hands out the root logger for the empty name and for the
    name root; every other name has a logger of its own. *)
Definition Registry : Type := string -> Logger.

Definition key (name : string) : string :=
  if String.eqb name EmptyString then "root" else name.

(** Before any set-up no logger has a handler; the root logger starts at
    [WARNING], the others at [NOTSET]. *)
Definition no_loggers : Registry :=
  fun k => {| level := if String.eqb k "root" then WARNING else NOTSET;
              handlers := [] |}.

Definition getLogger (name : string) (reg : Registry) : Logger :=
  reg (key name).

Definition store (name : string) (l : Logger) (reg : Registry) : Registry :=
  fun k => if String.eqb k (key name) then l else reg k.

End logging.

(** [setup_logger(name, level)]: the logger it returns and the table
    afterwards. *)
Definition setup_logger (name : string) (level : Z) (reg : logging.Registry)
  : logging.Logger * logging.Registry :=
  let logger := logging.getLogger name reg in
  let logger :=
    {| logging.level := level; logging.handlers := logging.handlers logger |} in
  match logging.handlers logger with
  | _ :: _ => (logger, logging.store name logger reg)
  | [] =>
      let console_handler :=
        {| logging.stream := "sys.stdout";
           logging.handler_level := level;
           logging.fmt := "[%(asctime)s] [%(levelname)s] %(message)s";
           logging.datefmt := "%H:%M:%S" |} in
      let logger :=
        {| logging.level := logging.level logger;
           logging.handlers := logging.handlers logger ++ [console_handler] |} in
      (logger, logging.store name logger reg)
  end.

(** Calling [setup_logger] for the names and levels of the list, one
    after the other. *)
Definition setup_loggers (requests : list (string * Z))
  (reg : logging.Registry) : logging.Registry :=
  fold_left (fun reg request =>
               snd (setup_logger (fst request) (snd request) reg))
    requests reg.

(** ** Data for the examples of the application *)

Definition demo_ui : UiPlatform :=
  {| Time := Z; time_zero := 0;
     basename := fun p => p |}.

Definition demo_event : @Ambient demo_ui :=
  @Build_Ambient demo_ui "20240101_120000" 1704110400%Z good_backend.

(** The application after discovery found the devices A and B. *)
Definition app_A_B : @IRCameraApp demo_ui :=
  {| controller := with_A_B;
     window_width := Layout.MIN_WINDOW_WIDTH;
     window_height := 480 + Layout.CONTROL_PANEL_HEIGHT_2ROWS;
     control_panel := None;
     btn_record := None; btn_filter := None; btn_color := None;
     btn_device := None |}.

(** The handler [setup_logger] builds for a level, and the levels asked
    for a name, in the order of the calls. *)
Definition console (level : Z) : logging.Handler :=
  {| logging.stream := "sys.stdout";
     logging.handler_level := level;
     logging.fmt := "[%(asctime)s] [%(levelname)s] %(message)s";
     logging.datefmt := "%H:%M:%S" |}.

Definition levels_for (name : string) (requests : list (string * Z)) : list Z :=
  map snd
    (filter (fun request =>
               String.eqb (logging.key (fst request)) (logging.key name))
       requests).

(** ** The buffer between two threads

    The backend calls [_on_frame_arrived] on a thread of its own, and the
    main loop calls [get_frame] on another; [get_frame] does not take
    [self._lock].  What the two threads share of the buffer is the queue
    and [_last_frame].  One call of a method of the queue, and one read
    or assignment of [_last_frame], is one step; the steps of the two
    threads follow each other in any order.  The lock lets one callback
    at a time into [_update_frame]. *)

Module Threads.

(** Where the callback stands in [_update_frame]; [frame] is the frame
    after colour mapping. *)
Inductive Callback : Type :=
| waiting
| at_last_frame (frame : Frame)
| at_record (frame : Frame)
| at_empty (frame : Frame)
| at_get_nowait (frame : Frame)
| at_put_nowait (frame : Frame).

(** Where the main loop stands in [get_frame]. *)
Inductive Reader : Type :=
| elsewhere
| at_try
| at_except.

(** The shared buffer, the two threads, and a record of what happened:
    the frames assigned to [_last_frame], oldest first; what [get_frame]
    returned, each value with the number of frames published by then; and
    how often [put_nowait] found the queue full. *)
Record State : Type := {
  queue : Queue.t;
  last_frame : option Frame;
  callback : Callback;
  reader : Reader;
  published : list Frame;
  returned : list (option Frame * nat);
  dropped : nat
}.

Inductive Move : Type :=
| frame_ready (frame : Frame)
| callback_step
| recording_raises
| get_frame_called
| reader_step.

Definition set_callback (c : Callback) (s : State) : State :=
  {| queue := queue s; last_frame := last_frame s; callback := c;
     reader := reader s; published := published s; returned := returned s;
     dropped := dropped s |}.

Definition set_reader (r : Reader) (s : State) : State :=
  {| queue := queue s; last_frame := last_frame s; callback := callback s;
     reader := r; published := published s; returned := returned s;
     dropped := dropped s |}.

Definition set_queue (q : Queue.t) (s : State) : State :=
  {| queue := q; last_frame := last_frame s; callback := callback s;
     reader := reader s; published := published s; returned := returned s;
     dropped := dropped s |}.

(** [self._last_frame = frame.copy()] *)
Definition publish (frame : Frame) (s : State) : State :=
  {| queue := queue s; last_frame := Some frame; callback := callback s;
     reader := reader s; published := published s ++ [frame];
     returned := returned s; dropped := dropped s |}.

(** [get_frame] returns [value]. *)
Definition give (value : option Frame) (s : State) : State :=
  {| queue := queue s; last_frame := last_frame s; callback := callback s;
     reader := elsewhere; published := published s;
     returned := returned s ++ [(value, List.length (published s))];
     dropped := dropped s |}.

Definition drop (s : State) : State :=
  {| queue := queue s; last_frame := last_frame s; callback := callback s;
     reader := reader s; published := published s; returned := returned s;
     dropped := S (dropped s) |}.

(** The next step of the callback in [_update_frame]. *)
Definition callback_next (s : State) : State :=
  match callback s with
  | waiting => s
  | at_last_frame frame => set_callback (at_record frame) (publish frame s)
  | at_record frame => set_callback (at_empty frame) s
  | at_empty frame =>
      if Queue.empty (queue s)
      then set_callback (at_put_nowait frame) s
      else set_callback (at_get_nowait frame) s
  | at_get_nowait frame =>
      match Queue.get_nowait (queue s) with
      | Some (_, q) => set_callback (at_empty frame) (set_queue q s)
      | None => set_callback (at_put_nowait frame) s
      end
  | at_put_nowait frame =>
      match Queue.put_nowait frame (queue s) with
      | Some q => set_callback waiting (set_queue q s)
      | None => set_callback waiting (drop s)
      end
  end.

(** The next step of the main loop in [get_frame]. *)
Definition reader_next (s : State) : State :=
  match reader s with
  | elsewhere => s
  | at_try =>
      match Queue.get_nowait (queue s) with
      | Some (frame, q) => give (Some frame) (set_queue q s)
      | None => set_reader at_except s
      end
  | at_except => give (last_frame s) s
  end.

(** One move of a schedule.  A frame that is ready while a callback is in
    [_update_frame] waits for the lock: nothing happens.  The recording
    block can raise, when the main loop ends the recording between its
    test and its write; the callback then leaves [_update_frame]. *)
Definition advance (s : State) (move : Move) : State :=
  match move with
  | frame_ready frame =>
      match callback s with
      | waiting => set_callback (at_last_frame frame) s
      | _ => s
      end
  | callback_step => callback_next s
  | recording_raises =>
      match callback s with
      | at_record _ => set_callback waiting s
      | _ => s
      end
  | get_frame_called =>
      match reader s with
      | elsewhere => set_reader at_try s
      | _ => s
      end
  | reader_step => reader_next s
  end.

Definition interleave (schedule : list Move) (s : State) : State :=
  fold_left advance schedule s.

(** Both threads at rest on the buffer of a controller. *)
Definition of_buffer (q : Queue.t) (last : option Frame) : State :=
  {| queue := q; last_frame := last; callback := waiting;
     reader := elsewhere; published := []; returned := []; dropped := 0 |}.

Definition initially : State :=
  of_buffer (_frame_queue __init__) (_last_frame __init__).

(** The frame the callback has assigned to [_last_frame] and still has
    to queue. *)
Definition in_hand (c : Callback) : option Frame :=
  match c with
  | waiting | at_last_frame _ => None
  | at_record frame | at_empty frame | at_get_nowait frame
  | at_put_nowait frame => Some frame
  end.

(** What holds in every state the two threads reach. *)
Definition safe (s : State) : Prop :=
  Queue.maxsize (queue s) = 2 /\
  (List.length (Queue.items (queue s)) <= 1)%nat /\
  dropped s = 0%nat /\
  (forall frame, callback s = at_put_nowait frame -> Queue.items (queue s) = []) /\
  (forall frame, in_hand (callback s) = Some frame -> In frame (published s)) /\
  (forall frame, In frame (Queue.items (queue s)) -> In frame (published s)) /\
  last_frame s = last (map Some (published s)) None /\
  (forall value count,
     In (value, count) (returned s) ->
     (count <= List.length (published s))%nat /\
     match value with
     | Some frame => In frame (firstn count (published s))
     | None => count = 0%nat
     end).

End Threads.

(** * Properties *)

Ltac run_monad :=
  unfold after, result, bind, ret, self, assign, outside, raise, try_except,
         try_finally, read_attr in *;
  cbn [fst snd ctl env] in *.

Lemma IRFrameFilter_eqb_eq (a b : IRFrameFilter.t) :
  IRFrameFilter.eqb a b = true <-> a = b.
Proof. destruct a, b; simpl; split; congruence. Qed.

Lemma IRFrameFilter_next_cycle :
  IRFrameFilter.next IRFrameFilter.NONE = IRFrameFilter.RAW /\
  IRFrameFilter.next IRFrameFilter.RAW = IRFrameFilter.ILLUMINATED /\
  IRFrameFilter.next IRFrameFilter.ILLUMINATED = IRFrameFilter.NONE.
Proof. repeat split. Qed.

Lemma IRMappingMode_next_cycle :
  IRMappingMode.next IRMappingMode.NONE = IRMappingMode.GREEN /\
  IRMappingMode.next IRMappingMode.GREEN = IRMappingMode.HEAT /\
  IRMappingMode.next IRMappingMode.HEAT = IRMappingMode.JET /\
  IRMappingMode.next IRMappingMode.JET = IRMappingMode.NONE.
Proof. repeat split. Qed.

Section ControllerFacts.

Context {P : Platform}.

(** ** The frame filter *)

(** C1. [_should_display_frame] follows the truth table: with filter NONE
    every frame is forwarded; with RAW a frame is forwarded exactly when it
    is not illuminated; with ILLUMINATED exactly when it is illuminated.
    The decision changes nothing in the controller. *)
Theorem should_display_frame_truth_table (s : Sys) :
  after _should_display_frame s = s /\
  result _should_display_frame s =
    Returns
      match _frame_filter (ctl s), _is_illuminated (ctl s) with
      | IRFrameFilter.NONE, true => true
      | IRFrameFilter.NONE, false => true
      | IRFrameFilter.RAW, true => false
      | IRFrameFilter.RAW, false => true
      | IRFrameFilter.ILLUMINATED, true => true
      | IRFrameFilter.ILLUMINATED, false => false
      end.
Proof.
  unfold _should_display_frame. run_monad.
  destruct (_frame_filter (ctl s)), (_is_illuminated (ctl s)); simpl; auto.
Qed.

(** ** Colour mapping *)

(** C6. With mapping mode NONE, [_apply_color_mapping] returns the frame
    it was given and leaves the controller as it was. *)
Theorem apply_color_mapping_none_identity (s : Sys) (frame : Frame) :
  _mapping_mode (ctl s) = IRMappingMode.NONE ->
  _apply_color_mapping frame s = (Returns frame, s).
Proof.
  intros Hmode. unfold _apply_color_mapping. run_monad.
  rewrite Hmode. reflexivity.
Qed.

(** ** What one call keeps *)

Ltac open_state s :=
  let c := fresh "c" in
  let w := fresh "w" in
  destruct s as [c w]; destruct c; cbn in *.

Ltac split_matches :=
  repeat match goal with
         | |- context [match ?x with _ => _ end] =>
             is_var x; destruct x; cbn in *; try discriminate
         | |- context [if ?x then _ else _] =>
             is_var x; destruct x; cbn in *; try discriminate
         | |- context [if negb ?x then _ else _] =>
             is_var x; destruct x; cbn in *; try discriminate
         | |- context [Queue.get_nowait ?q] =>
             is_var q; destruct q as [? [|? ?]]; cbn in *
         | |- context [if names_directory ?d then _ else _] =>
             destruct (names_directory d) eqn:?; cbn in *
         | |- context [if fits_double ?x then _ else _] =>
             destruct (fits_double x) eqn:?; cbn in *
         | |- context [if ?a || ?b then _ else _] =>
             destruct (a || b) eqn:?; cbn in *
         | |- context [match nth_error ?l ?n with _ => _ end] =>
             destruct (nth_error l n) eqn:?; cbn in *
         | |- context [if initialize_ok ?b ?m then _ else _] =>
             destruct (initialize_ok b m) eqn:?; cbn in *
         | |- context [match frame_sources ?b with _ => _ end] =>
             destruct (frame_sources b) eqn:?; cbn in *
         | |- context [match supported_formats ?b with _ => _ end] =>
             destruct (supported_formats b) eqn:?; cbn in *
         end.

Lemma drain_empties (n : nat) (q : Queue.t) :
  (List.length (Queue.items q) <= n)%nat ->
  drain n q = {| Queue.maxsize := Queue.maxsize q; Queue.items := [] |}.
Proof.
  revert q. induction n as [|n IH]; intros [m its] Hlen; cbn in *.
  - destruct its; cbn in *; [reflexivity | lia].
  - destruct its as [|f rest]; cbn in *; [reflexivity|].
    unfold Queue.empty, Queue.get_nowait. cbn.
    rewrite IH by (cbn; lia). reflexivity.
Qed.

Lemma put_into_empty (f : Frame) (m : Z) :
  Queue.put_nowait f {| Queue.maxsize := m; Queue.items := [] |} =
  Some {| Queue.maxsize := m; Queue.items := [f] |}.
Proof.
  unfold Queue.put_nowait, Queue.full. cbn.
  destruct (0 <? m) eqn:Hpos; cbn; [|reflexivity].
  destruct (m <=? 0) eqn:Hle; [|reflexivity].
  apply Z.ltb_lt in Hpos. apply Z.leb_le in Hle. lia.
Qed.

(** What [_update_frame] does, in one equation: the mapped frame becomes
    the last frame and the only item of the queue, and is appended to the
    writer when a recording is in progress. *)
Lemma update_frame_effect (s : Sys) (frame : Frame) :
  let mapped := color_mapping (_mapping_mode (ctl s)) frame in
  _update_frame frame s =
    (Returns tt,
     {| ctl :=
          set_frame_queue
            {| Queue.maxsize := Queue.maxsize (_frame_queue (ctl s));
               Queue.items := [mapped] |}
            (set_video_writer
               (if _is_recording (ctl s)
                then option_map (VideoWriter_write (cv2.COLOR_BGRA2BGR mapped))
                       (_video_writer (ctl s))
                else _video_writer (ctl s))
               (set_last_frame (Some mapped) (ctl s)));
        env := env s |}).
Proof.
  open_state s. unfold _update_frame, _apply_color_mapping. run_monad. cbn.
  destruct _is_recording0, _video_writer0; cbn;
    rewrite drain_empties by lia; cbn; rewrite put_into_empty; reflexivity.
Qed.

Lemma check_illumination_effect (vf : VideoMediaFrame) (s : Sys) :
  exists flag,
    _check_illumination vf s =
      (Returns tt, {| ctl := set_is_illuminated flag (ctl s); env := env s |}).
Proof.
  open_state s. unfold _check_illumination. run_monad.
  destruct (infrared_media_frame vf) as [[ir|]|]; cbn.
  - destruct (is_illuminated ir) as [b|]; cbn; eexists; reflexivity.
  - exists _is_illuminated0. reflexivity.
  - eexists; reflexivity.
Qed.

Lemma should_display_frame_pure (s : Sys) :
  exists show, _should_display_frame s = (Returns show, s).
Proof.
  unfold _should_display_frame. run_monad.
  destruct (_frame_filter (ctl s)); cbn; eexists; reflexivity.
Qed.

(** A delivered frame has one of three effects: none; a new value of the
    illumination flag; or a new value of the flag followed by
    [_update_frame] on the converted frame.  The callback never raises. *)
Lemma on_frame_arrived_cases (a : Fallible (option MediaFrame)) (s : Sys) :
  _on_frame_arrived a s = (Returns tt, s) \/
  exists flag,
    let s1 := {| ctl := set_is_illuminated flag (ctl s); env := env s |} in
    _on_frame_arrived a s = (Returns tt, s1) \/
    exists frame, _on_frame_arrived a s = _update_frame frame s1.
Proof.
  unfold _on_frame_arrived, try_except, bind, self. cbv beta iota.
  destruct (_running (ctl s)); cbn [negb]; [|left; reflexivity].
  destruct a as [[mf|]|]; [| left; reflexivity | left; reflexivity].
  unfold _process_frame, read_attr, bind, ret, try_finally. cbv beta iota.
  destruct (video_media_frame mf) as [[vf|]|]; unfold raise;
    [| left; destruct (close mf); reflexivity
     | left; destruct (close mf); reflexivity].
  right.
  destruct (check_illumination_effect vf s) as [flag Hflag].
  exists flag. cbv zeta.
  rewrite Hflag.
  destruct (should_display_frame_pure
              {| ctl := set_is_illuminated flag (ctl s); env := env s |})
    as [show Hshow].
  rewrite Hshow.
  destruct show; cbn [negb]; [|left; destruct (close mf); reflexivity].
  destruct (software_bitmap vf) as [[bm|]|];
    [| left; destruct (close mf); reflexivity
     | left; destruct (close mf); reflexivity].
  destruct (_convert_bitmap_to_frame bm) as [frame|];
    [|left; destruct (close mf); reflexivity].
  right. exists frame. rewrite update_frame_effect.
  destruct (close mf); reflexivity.
Qed.

Ltac unfold_methods :=
  unfold frame_filter_setter, _on_filter, frame_filter,
    mapping_mode_setter, _on_color, mapping_mode, find_ir_cameras,
    select_device, initialize_with_settings_async,
    start, stop, pause, resume, get_frame, take_photo, start_recording,
    stop_recording, os_makedirs, cv2_VideoWriter in *.

(** A recording goes on, with its path and rate, through every call that
    is not one of the three that end it. *)
Lemma recording_kept_by_call (path : string) (fps : Z) (call : Call) (s : Sys) :
  ends_recording call = false ->
  recording_as path fps s ->
  recording_as path fps (after (perform call) s).
Proof.
  intros Hcall Hrec.
  destruct call as [v| |v| |found|i e b| | | | | |acquired|d n|d f n|];
    try discriminate Hcall; cbn [perform].
  10: {
    (* a frame arrives *)
    destruct Hrec as (Hr & Hp & vw & Hvw & Hpath & Hfps).
    unfold after.
    destruct (on_frame_arrived_cases acquired s) as [E|[flag [E|[frame E]]]];
      rewrite E; try rewrite update_frame_effect; cbn;
      try rewrite Hr; try rewrite Hvw; unfold recording_as; cbn;
      repeat split; eauto. }
  all: destruct Hrec as (Hr & Hp & vw & Hvw & Hpath & Hfps);
    open_state s; subst; unfold recording_as; unfold_methods; run_monad; cbn;
    split_matches; repeat split; eauto.
Qed.

Lemma recording_kept_by_run (path : string) (fps : Z) (calls : list Call) :
  forall s : Sys,
    forallb (fun call => negb (ends_recording call)) calls = true ->
    recording_as path fps s ->
    recording_as path fps (run calls s).
Proof.
  induction calls as [|call calls IH]; intros s Hcalls Hrec; cbn in *.
  - exact Hrec.
  - apply andb_true_iff in Hcalls. destruct Hcalls as [Hcall Hrest].
    apply IH; [exact Hrest|].
    apply recording_kept_by_call; [|exact Hrec].
    destruct (ends_recording call); [discriminate | reflexivity].
Qed.

(** *** Parts of the state a method does not touch *)

Section Keeps.

Context {X : Type} (part : Sys -> X).

Lemma keeps_ret {A} (a : A) : keeps part (ret a).
Proof. intros s. reflexivity. Qed.

Lemma keeps_raise {A} : keeps part (@raise A).
Proof. intros s. reflexivity. Qed.

Lemma keeps_self : keeps part self.
Proof. intros s. reflexivity. Qed.

Lemma keeps_bind {A B} (m : M A) (k : A -> M B) :
  keeps part m -> (forall a, keeps part (k a)) -> keeps part (bind m k).
Proof.
  intros Hm Hk s. specialize (Hm s). unfold after, bind in *.
  destruct (m s) as [[a|] s1]; cbn in *.
  - rewrite <- Hm. apply Hk.
  - exact Hm.
Qed.

Lemma keeps_try_except {A} (m h : M A) :
  keeps part m -> keeps part h -> keeps part (try_except m h).
Proof.
  intros Hm Hh s. specialize (Hm s). unfold after, try_except in *.
  destruct (m s) as [[a|] s1]; cbn in *.
  - exact Hm.
  - rewrite <- Hm. apply Hh.
Qed.

Lemma keeps_assign (f : IRCameraController -> IRCameraController) :
  (forall c w, part {| ctl := f c; env := w |} = part {| ctl := c; env := w |}) ->
  keeps part (assign f).
Proof. intros Hf [c w]. apply Hf. Qed.

Lemma keeps_outside (f : World -> World) :
  (forall c w, part {| ctl := c; env := f w |} = part {| ctl := c; env := w |}) ->
  keeps part (outside f).
Proof. intros Hf [c w]. apply Hf. Qed.

End Keeps.

Ltac keeps_step :=
  match goal with
  | |- keeps _ (bind _ _) => apply keeps_bind; [|intro]
  | |- keeps _ (ret _) => apply keeps_ret
  | |- keeps _ raise => apply keeps_raise
  | |- keeps _ self => apply keeps_self
  | |- keeps _ (try_except _ _) => apply keeps_try_except
  | |- keeps _ (assign _) =>
      apply keeps_assign; intros [] ?; reflexivity
  | |- keeps _ (outside _) =>
      apply keeps_outside; intros [] ?; reflexivity
  | |- keeps _ (match ?x with _ => _ end) => destruct x
  | |- keeps _ (if ?x then _ else _) => destruct x
  end.

Lemma stop_keeps_buffer : keeps buffer stop.
Proof. unfold stop, stop_recording. repeat keeps_step. Qed.

Lemma select_device_keeps_buffer (i : Z) (e : bool) (b : CaptureBackend) :
  keeps buffer (select_device i e b).
Proof.
  unfold select_device, initialize_with_settings_async.
  repeat first [apply stop_keeps_buffer | keeps_step].
Qed.

(** Once there is a last frame there is one for good: no call clears it. *)
Lemma last_frame_kept_by_call (call : Call) (s : Sys) :
  _last_frame (ctl s) <> None ->
  _last_frame (ctl (after (perform call) s)) <> None.
Proof.
  intros Hlast.
  destruct call as [v| |v| |found|i e b| | | | | |acquired|d n|d f n|];
    cbn [perform].
  12: {
    unfold after.
    destruct (on_frame_arrived_cases acquired s) as [E|[flag [E|[frame E]]]];
      rewrite E; try rewrite update_frame_effect; cbn;
      try exact Hlast; discriminate. }
  6: {
    assert (E : buffer (after (select_device i e b ;; ret tt) s) = buffer s)
      by (apply keeps_bind;
          [apply select_device_keeps_buffer | intro; apply keeps_ret]).
    unfold buffer in E. injection E as _ E. rewrite E. exact Hlast. }
  all: open_state s; unfold_methods; run_monad; cbn;
    split_matches; try exact Hlast.
Qed.

Lemma last_frame_kept_by_run (calls : list Call) :
  forall s : Sys,
    _last_frame (ctl s) <> None -> _last_frame (ctl (run calls s)) <> None.
Proof.
  induction calls as [|call calls IH]; intros s Hlast; cbn.
  - exact Hlast.
  - apply IH. apply last_frame_kept_by_call. exact Hlast.
Qed.

(** While no frame is delivered the buffer stays as it was at start. *)
Lemma no_frame_yet_kept_by_call (call : Call) (s : Sys) :
  delivers_frame call = false ->
  no_frame_yet s ->
  no_frame_yet (after (perform call) s).
Proof.
  intros Hcall [Hq Hl].
  destruct call as [v| |v| |found|i e b| | | | | |acquired|d n|d f n|];
    try discriminate Hcall; cbn [perform].
  6: {
    assert (E : buffer (after (select_device i e b ;; ret tt) s) = buffer s)
      by (apply keeps_bind;
          [apply select_device_keeps_buffer | intro; apply keeps_ret]).
    unfold buffer in E. injection E as E1 E2.
    unfold no_frame_yet. rewrite E1, E2. split; assumption. }
  all: open_state s; unfold no_frame_yet; subst;
    destruct _frame_queue0 as [m its]; cbn in *; subst;
    unfold_methods; run_monad; cbn;
    split_matches; split; reflexivity.
Qed.

Lemma no_frame_yet_kept_by_run (calls : list Call) :
  forall s : Sys,
    forallb (fun call => negb (delivers_frame call)) calls = true ->
    no_frame_yet s ->
    no_frame_yet (run calls s).
Proof.
  induction calls as [|call calls IH]; intros s Hcalls Hnone; cbn in *.
  - exact Hnone.
  - apply andb_true_iff in Hcalls. destruct Hcalls as [Hcall Hrest].
    apply IH; [exact Hrest|].
    apply no_frame_yet_kept_by_call; [|exact Hnone].
    destruct (delivers_frame call); [discriminate | reflexivity].
Qed.

(** *** What the recording methods do *)

(** [start_recording] while idle, in one equation: it raises with nothing
    changed when the directory cannot be made; it raises with the
    directory made and [_video_path] assigned when the writer refuses the
    rate; otherwise the writer is open and the recording begun. *)
Lemma start_recording_effect (s : Sys) (save_dir : string) (base_fps : Z)
  (now : string) :
  _is_recording (ctl s) = false ->
  let path :=
    path_join save_dir
      (String.append "IR_Video_"
        (String.append now
          (String.append "_"
            (String.append (IRFrameFilter.display_name (_frame_filter (ctl s)))
               ".avi")))) in
  let fps := actual_fps (_frame_filter (ctl s)) base_fps in
  start_recording save_dir base_fps now s =
    if names_directory save_dir
    then
      if fits_double fps
      then (Returns (Some path),
            {| ctl :=
                 set_is_recording true
                   (set_video_writer
                      (Some {| vw_path := path;
                               vw_fourcc := cv2.VideoWriter_fourcc "X" "V" "I" "D";
                               vw_fps := fps;
                               vw_size := (_frame_width (ctl s),
                                           _frame_height (ctl s));
                               vw_frames := [] |})
                      (set_video_path (Some path) (ctl s)));
               env := make_directory save_dir (env s) |})
      else (Raises,
            {| ctl := set_video_path (Some path) (ctl s);
               env := make_directory save_dir (env s) |})
    else (Raises, s).
Proof.
  intros Hidle. open_state s. subst.
  unfold start_recording, os_makedirs, cv2_VideoWriter. run_monad. cbn.
  destruct (names_directory save_dir); cbn; [|reflexivity].
  destruct (fits_double (actual_fps _frame_filter0 base_fps)); reflexivity.
Qed.

Lemma start_recording_when_idle (s : Sys) (save_dir : string) (base_fps : Z)
  (now : string) :
  _is_recording (ctl s) = false ->
  names_directory save_dir = true ->
  fits_double (actual_fps (_frame_filter (ctl s)) base_fps) = true ->
  let path :=
    path_join save_dir
      (String.append "IR_Video_"
        (String.append now
          (String.append "_"
            (String.append (IRFrameFilter.display_name (_frame_filter (ctl s)))
               ".avi")))) in
  let fps := actual_fps (_frame_filter (ctl s)) base_fps in
  result (start_recording save_dir base_fps now) s = Returns (Some path) /\
  recording_as path fps (after (start_recording save_dir base_fps now) s) /\
  exists vw,
    _video_writer (ctl (after (start_recording save_dir base_fps now) s)) =
      Some vw /\
    vw_path vw = path /\ vw_fps vw = fps /\ vw_frames vw = [] /\
    vw_size vw = (_frame_width (ctl s), _frame_height (ctl s)).
Proof.
  intros Hidle Hdir Hfits. cbv zeta. unfold result, after.
  rewrite (start_recording_effect s save_dir base_fps now Hidle).
  rewrite Hdir, Hfits. unfold recording_as. cbn.
  repeat split; eauto 10.
Qed.

(** [start_recording] returns a path exactly when it was called while
    idle with a directory that can be made and a rate the writer takes. *)
Lemma start_recording_succeeds_iff (s : Sys) (save_dir : string)
  (base_fps : Z) (now : string) :
  (exists path,
     result (start_recording save_dir base_fps now) s = Returns (Some path))
  <->
  _is_recording (ctl s) = false /\
  names_directory save_dir = true /\
  fits_double (actual_fps (_frame_filter (ctl s)) base_fps) = true.
Proof.
  destruct (_is_recording (ctl s)) eqn:Hrec.
  - unfold result, start_recording. run_monad. rewrite Hrec. cbn.
    split; [intros [path E]; discriminate | intros [E _]; discriminate].
  - unfold result. rewrite (start_recording_effect s save_dir base_fps now Hrec).
    destruct (names_directory save_dir); cbn.
    + destruct (fits_double (actual_fps (_frame_filter (ctl s)) base_fps)); cbn.
      * split; [auto | intros _; eexists; reflexivity].
      * split; [intros [path E]; discriminate | intros (_ & _ & E); discriminate].
    + split; [intros [path E]; discriminate | intros (_ & E & _); discriminate].
Qed.

Lemma start_recording_when_recording (s : Sys) (save_dir : string)
  (base_fps : Z) (now : string) :
  _is_recording (ctl s) = true ->
  start_recording save_dir base_fps now s = (Returns None, s).
Proof.
  intros Hrec. unfold start_recording. run_monad. rewrite Hrec. reflexivity.
Qed.

Lemma stop_recording_when_idle (s : Sys) :
  _is_recording (ctl s) = false -> stop_recording s = (Returns None, s).
Proof.
  intros Hidle. unfold stop_recording. run_monad. rewrite Hidle. reflexivity.
Qed.

Lemma stop_recording_when_recording (s : Sys) :
  _is_recording (ctl s) = true ->
  stop_recording s =
    (Returns (_video_path (ctl s)),
     {| ctl := set_video_path None
                 (set_video_writer None (set_is_recording false (ctl s)));
        env := match _video_writer (ctl s) with
               | Some vw => VideoWriter_release vw (env s)
               | None => env s
               end |}).
Proof.
  intros Hrec. open_state s. subst. unfold stop_recording. run_monad. cbn.
  destruct _video_writer0; reflexivity.
Qed.

Lemma stop_effect (s : Sys) :
  stop s =
    (Returns tt,
     {| ctl :=
          set_media_capture None
            (set_frame_reader None
               (if _is_recording (ctl s)
                then set_video_path None
                       (set_video_writer None
                          (set_is_recording false (set_running false (ctl s))))
                else set_running false (ctl s)));
        env := if _is_recording (ctl s)
               then match _video_writer (ctl s) with
                    | Some vw => VideoWriter_release vw (env s)
                    | None => env s
                    end
               else env s |}).
Proof.
  open_state s. unfold stop, stop_recording. run_monad. cbn.
  destruct _is_recording0, _video_writer0, _frame_reader0, _media_capture0;
    reflexivity.
Qed.

(** ** Recording *)

(** C2, as the code has it.  Starting a recording while none is in
    progress aims at the rate [base_fps] when the filter is NONE and at
    [max(base_fps // 2, 7)] when the filter is RAW or ILLUMINATED.  When
    the directory can be made and the writer takes the rate, the writer
    is opened at that rate, the call returns the writer's path and the
    controller is recording.  In every other case the call raises, no
    writer is opened and the controller is not recording. *)
Theorem start_recording_rate (s : Sys) (save_dir : string) (base_fps : Z)
  (now : string) :
  _is_recording (ctl s) = false ->
  let rate :=
    match _frame_filter (ctl s) with
    | IRFrameFilter.NONE => base_fps
    | IRFrameFilter.RAW => Z.max (base_fps / 2) 7
    | IRFrameFilter.ILLUMINATED => Z.max (base_fps / 2) 7
    end in
  let s' := after (start_recording save_dir base_fps now) s in
  (names_directory save_dir = true ->
   fits_double rate = true ->
   exists vw,
     _video_writer (ctl s') = Some vw /\
     result (start_recording save_dir base_fps now) s =
       Returns (Some (vw_path vw)) /\
     _is_recording (ctl s') = true /\
     vw_fps vw = rate) /\
  (names_directory save_dir = false \/ fits_double rate = false ->
   result (start_recording save_dir base_fps now) s = Raises /\
   _is_recording (ctl s') = false /\
   _video_writer (ctl s') = _video_writer (ctl s)).
Proof.
  intros Hidle rate s'.
  assert (Hrate : actual_fps (_frame_filter (ctl s)) base_fps = rate)
    by (unfold actual_fps; subst rate;
        destruct (_frame_filter (ctl s)); reflexivity).
  split.
  - intros Hdir Hfits. rewrite <- Hrate in Hfits.
    destruct (start_recording_when_idle s save_dir base_fps now Hidle Hdir Hfits)
      as (Hres & (Hrec & _) & vw & Hvw & Hpath & Hfps & _).
    exists vw. subst s'. repeat split.
    + exact Hvw.
    + rewrite Hres, Hpath. reflexivity.
    + exact Hrec.
    + rewrite Hfps. exact Hrate.
  - intros Hfail. subst s'. unfold result, after.
    rewrite (start_recording_effect s save_dir base_fps now Hidle), Hrate.
    destruct (names_directory save_dir); cbn.
    + destruct (fits_double rate); cbn.
      * destruct Hfail; discriminate.
      * repeat split. exact Hidle.
    + repeat split. exact Hidle.
Qed.

(** C3. After [start_recording] has succeeded, the rate and the path of
    the writer it opened stay as they are through every later call that
    does not end the recording: assignments to [frame_filter], by value
    or through [next()], among them, and also arriving frames, reads,
    photos and further [start_recording] calls. *)
Theorem recording_rate_fixed (s : Sys) (save_dir : string) (base_fps : Z)
  (now : string) (calls : list Call) (path : string) :
  result (start_recording save_dir base_fps now) s = Returns (Some path) ->
  forallb (fun call => negb (ends_recording call)) calls = true ->
  let started := after (start_recording save_dir base_fps now) s in
  let later := run calls started in
  exists opened current,
    _video_writer (ctl started) = Some opened /\
    _video_writer (ctl later) = Some current /\
    vw_fps current = vw_fps opened /\
    vw_path current = vw_path opened /\
    _video_path (ctl later) = _video_path (ctl started) /\
    _is_recording (ctl later) = true.
Proof.
  intros Hstart Hcalls started later.
  destruct (proj1 (start_recording_succeeds_iff s save_dir base_fps now)
              (ex_intro _ path Hstart)) as (Hidle & Hdir & Hfits).
  destruct (start_recording_when_idle s save_dir base_fps now Hidle Hdir Hfits)
    as (_ & Hrec & opened & Hopened & Hpath & Hfps & _).
  pose proof (recording_kept_by_run _ _ calls _ Hcalls Hrec) as Hlater.
  destruct Hlater as (Hr & Hp & current & Hcurrent & Hpath' & Hfps').
  destruct Hrec as (_ & Hp0 & _).
  exists opened, current. subst started later.
  repeat split; try assumption; congruence.
Qed.

(** C5. [stop_recording] while idle returns [None] and changes nothing;
    while recording it returns the path held in [_video_path], releases
    the writer and leaves the controller idle; [start_recording] while
    recording returns [None] and changes nothing; and the path returned
    by [stop_recording] is the one [start_recording] returned when the
    recording began. *)
Theorem recording_control_misuse :
  (forall s, _is_recording (ctl s) = false ->
     stop_recording s = (Returns None, s)) /\
  (forall s, _is_recording (ctl s) = true ->
     result stop_recording s = Returns (_video_path (ctl s)) /\
     _is_recording (ctl (after stop_recording s)) = false /\
     _video_writer (ctl (after stop_recording s)) = None /\
     _video_path (ctl (after stop_recording s)) = None /\
     env (after stop_recording s) =
       match _video_writer (ctl s) with
       | Some vw => VideoWriter_release vw (env s)
       | None => env s
       end) /\
  (forall s save_dir base_fps now, _is_recording (ctl s) = true ->
     start_recording save_dir base_fps now s = (Returns None, s)) /\
  (forall s save_dir base_fps now calls path,
     result (start_recording save_dir base_fps now) s = Returns (Some path) ->
     forallb (fun call => negb (ends_recording call)) calls = true ->
     let later := run calls (after (start_recording save_dir base_fps now) s) in
     exists vw,
       _video_writer (ctl later) = Some vw /\
       vw_path vw = path /\
       result stop_recording later = Returns (Some path) /\
       released_writers (env (after stop_recording later)) =
         released_writers (env later) ++ [vw]).
Proof.
  split; [|split; [|split]].
  - exact stop_recording_when_idle.
  - intros s Hrec. unfold result, after.
    rewrite (stop_recording_when_recording s Hrec). repeat split.
  - intros s d f n. apply start_recording_when_recording.
  - intros s d f n calls path Hstart Hcalls later.
    destruct (proj1 (start_recording_succeeds_iff s d f n)
                (ex_intro _ path Hstart)) as (Hidle & Hdir & Hfits).
    destruct (start_recording_when_idle s d f n Hidle Hdir Hfits)
      as (Hres & Hrec & _).
    rewrite Hres in Hstart. injection Hstart as Hstart. subst path.
    pose proof (recording_kept_by_run _ _ calls _ Hcalls Hrec) as Hlater.
    destruct Hlater as (Hr & Hp & vw & Hvw & Hpath & _).
    fold later in Hr, Hp, Hvw. clearbody later.
    exists vw.
    split; [exact Hvw|]. split; [exact Hpath|].
    unfold result, after.
    rewrite (stop_recording_when_recording _ Hr). cbn.
    rewrite Hvw, Hp. split; reflexivity.
Qed.

(** C9. After [stop()] the controller is not running and not recording,
    and frame reader and capture handle are cleared; when a recording was
    in progress, [stop()] does what [stop_recording()] followed by
    [stop()] does: it has released the writer and cleared [_video_writer]
    and [_video_path].  [stop()] always returns. *)
Theorem stop_ends_recording (s : Sys) :
  result stop s = Returns tt /\
  _running (ctl (after stop s)) = false /\
  _is_recording (ctl (after stop s)) = false /\
  _frame_reader (ctl (after stop s)) = None /\
  _media_capture (ctl (after stop s)) = None /\
  (_is_recording (ctl s) = true ->
     after stop s = after stop (after stop_recording s) /\
     _video_writer (ctl (after stop s)) = None /\
     _video_path (ctl (after stop s)) = None /\
     forall vw, _video_writer (ctl s) = Some vw ->
       released_writers (env (after stop s)) =
         released_writers (env s) ++ [vw]).
Proof.
  destruct (_is_recording (ctl s)) eqn:Hrec.
  - unfold after, result.
    rewrite (stop_recording_when_recording s Hrec), !stop_effect.
    cbn. rewrite Hrec. cbn.
    repeat split; try reflexivity.
    intros vw Hvw. rewrite Hvw. reflexivity.
  - unfold after, result. rewrite stop_effect. cbn. rewrite Hrec.
    repeat split; try reflexivity; try exact Hrec; discriminate.
Qed.

(** ** The latest-frame buffer *)

Lemma get_frame_effect (s : Sys) :
  get_frame s =
    match Queue.items (_frame_queue (ctl s)) with
    | [] => (Returns (_last_frame (ctl s)), s)
    | f :: rest =>
        (Returns (Some f),
         {| ctl := set_frame_queue
                     {| Queue.maxsize := Queue.maxsize (_frame_queue (ctl s));
                        Queue.items := rest |} (ctl s);
            env := env s |})
    end.
Proof.
  unfold get_frame, Queue.get_nowait. run_monad.
  destruct (Queue.items (_frame_queue (ctl s))); reflexivity.
Qed.

Lemma get_frame_none_iff (s : Sys) :
  result get_frame s = Returns None <-> no_frame_yet s.
Proof.
  unfold result, no_frame_yet. rewrite get_frame_effect.
  destruct (Queue.items (_frame_queue (ctl s))) as [|f rest]; cbn.
  - split.
    + intros E. injection E as E. split; [reflexivity | exact E].
    + intros [_ E]. rewrite E. reflexivity.
  - split; [discriminate | intros [E _]; discriminate].
Qed.

(** Reading again and again gives the last frame each time, whether or
    not it is still waiting in the queue. *)
Lemma reads_repeat_last (n : nat) :
  forall (s : Sys) (f : Frame),
    _last_frame (ctl s) = Some f ->
    Queue.items (_frame_queue (ctl s)) = [] \/
    Queue.items (_frame_queue (ctl s)) = [f] ->
    reads n s = repeat (Returns (Some f)) n.
Proof.
  induction n as [|n IH]; intros s f Hlast Hq; cbn [reads repeat].
  - reflexivity.
  - unfold result, after. rewrite get_frame_effect.
    destruct Hq as [Hq|Hq]; rewrite Hq; cbn [fst snd].
    + rewrite Hlast. f_equal. apply IH; [exact Hlast | left; exact Hq].
    + f_equal. apply IH; cbn; [exact Hlast | left; reflexivity].
Qed.

(** C4. The buffer holds the latest frame only.  After two writes with no
    read between them the buffer is what the second write alone would have
    left, and every read that follows returns the second frame, the first
    read and all later ones alike.  [get_frame] always returns at once.
    It returns [None] exactly when the queue is empty and no last frame
    is kept, which is so at start-up and until a frame is written, and is
    never so again after a write, whatever calls follow. *)
Theorem latest_frame_buffer_semantics :
  (forall (s : Sys) (A B : Frame) (n : nat),
     let written := color_mapping (_mapping_mode (ctl s)) B in
     let s2 := after (_update_frame B) (after (_update_frame A) s) in
     buffer s2 = buffer (after (_update_frame B) s) /\
     Queue.items (_frame_queue (ctl s2)) = [written] /\
     reads (S n) s2 = repeat (Returns (Some written)) (S n)) /\
  (forall s : Sys, exists r, result get_frame s = Returns r) /\
  (forall s : Sys, result get_frame s = Returns None <-> no_frame_yet s) /\
  (forall calls : list Call,
     forallb (fun call => negb (delivers_frame call)) calls = true ->
     result get_frame (run calls at_startup) = Returns None) /\
  (forall (s : Sys) (A : Frame) (calls : list Call),
     result get_frame (run calls (after (_update_frame A) s)) <>
       Returns None).
Proof.
  split; [|split; [|split; [|split]]].
  - intros s A B n written s2. subst written s2. unfold after.
    rewrite (update_frame_effect s A). cbn [snd].
    rewrite !update_frame_effect. cbn [snd].
    split; [reflexivity|]. split; [reflexivity|].
    apply reads_repeat_last; cbn; [reflexivity | right; reflexivity].
  - intros s. unfold result. rewrite get_frame_effect.
    destruct (Queue.items (_frame_queue (ctl s))); eexists; reflexivity.
  - exact get_frame_none_iff.
  - intros calls Hcalls. apply get_frame_none_iff.
    apply no_frame_yet_kept_by_run; [exact Hcalls|].
    split; reflexivity.
  - intros s A calls Hnone.
    apply get_frame_none_iff in Hnone. destruct Hnone as [_ Hlast].
    revert Hlast. apply last_frame_kept_by_run.
    unfold after. rewrite update_frame_effect. cbn. discriminate.
Qed.

(** ** Photos *)

Lemma makedirs_makes (d : string) (w : World) :
  In d (fs_dirs (make_directory d w)).
Proof.
  unfold make_directory. cbn.
  destruct (existsb (String.eqb d) (fs_dirs w)) eqn:E.
  - apply existsb_exists in E. destruct E as (x & Hin & Heq).
    apply String.eqb_eq in Heq. subst x. exact Hin.
  - apply in_or_app. right. left. reflexivity.
Qed.

(** [take_photo] in one equation. *)
Lemma take_photo_effect (s : Sys) (save_dir now : string) :
  take_photo save_dir now s =
    match _last_frame (ctl s) with
    | None => (Returns None, s)
    | Some last =>
        if names_directory save_dir
        then
          let path :=
            path_join save_dir
              (String.append "IR_Photo_" (String.append now ".jpg")) in
          (Returns (Some path),
           {| ctl := ctl s;
              env := cv2_imwrite path (cv2.COLOR_BGRA2BGR last)
                       (make_directory save_dir (env s)) |})
        else (Raises, s)
    end.
Proof.
  unfold take_photo, os_makedirs. run_monad.
  destruct (_last_frame (ctl s)); [|reflexivity].
  destruct (names_directory save_dir); reflexivity.
Qed.

(** C10, as the code has it.  [take_photo] returns [None] exactly when
    there is no last frame, and then changes nothing, in the controller or
    outside.  When there is a last frame and the directory can be made,
    it returns the path of the file it has written that frame to, in that
    directory; when the directory cannot be made it raises and writes
    nothing.  There is no last frame at start-up and until a frame is
    delivered; after a frame was written there is one, whatever calls
    follow. *)
Theorem take_photo_result :
  (forall (s : Sys) (save_dir now : string),
     (result (take_photo save_dir now) s = Returns None <->
      _last_frame (ctl s) = None) /\
     (_last_frame (ctl s) = None ->
      take_photo save_dir now s = (Returns None, s)) /\
     (forall last, _last_frame (ctl s) = Some last ->
        (names_directory save_dir = true ->
         exists path,
           result (take_photo save_dir now) s = Returns (Some path) /\
           path =
             path_join save_dir
               (String.append "IR_Photo_" (String.append now ".jpg")) /\
           ctl (after (take_photo save_dir now) s) = ctl s /\
           fs_images (env (after (take_photo save_dir now) s)) =
             fs_images (env s) ++ [(path, cv2.COLOR_BGRA2BGR last)] /\
           In save_dir (fs_dirs (env (after (take_photo save_dir now) s)))) /\
        (names_directory save_dir = false ->
         take_photo save_dir now s = (Raises, s)))) /\
  (forall (calls : list Call) (save_dir now : string),
     forallb (fun call => negb (delivers_frame call)) calls = true ->
     result (take_photo save_dir now) (run calls at_startup) = Returns None) /\
  (forall (s : Sys) (A : Frame) (calls : list Call) (save_dir now : string),
     result (take_photo save_dir now) (run calls (after (_update_frame A) s))
       <> Returns None).
Proof.
  assert (Hiff : forall s d n,
    result (take_photo d n) s = Returns None <-> _last_frame (ctl s) = None).
  { intros s d n. unfold result. rewrite take_photo_effect.
    destruct (_last_frame (ctl s)); [|split; reflexivity].
    destruct (names_directory d); cbn; split; discriminate. }
  split; [|split].
  - intros s d n. split; [apply Hiff|]. split.
    + intros Hnone. rewrite take_photo_effect, Hnone. reflexivity.
    + intros last Hlast. split.
      * intros Hdir. unfold result, after.
        rewrite take_photo_effect, Hlast, Hdir. cbn.
        eexists. split; [reflexivity|]. split; [reflexivity|].
        split; [reflexivity|]. split; [reflexivity|]. apply makedirs_makes.
      * intros Hdir. rewrite take_photo_effect, Hlast, Hdir. reflexivity.
  - intros calls d n Hcalls. apply Hiff.
    apply (no_frame_yet_kept_by_run calls at_startup Hcalls).
    split; reflexivity.
  - intros s A calls d n Hnone. apply Hiff in Hnone.
    revert Hnone. apply last_frame_kept_by_run.
    unfold after. rewrite update_frame_effect. cbn. discriminate.
Qed.

(** ** Classification *)

Lemma check_illumination_flag_read (vf : VideoMediaFrame)
  (ir : InfraredMediaFrame) (flag : bool) (s : Sys) :
  infrared_media_frame vf = Gives (Some ir) ->
  is_illuminated ir = Gives flag ->
  _is_illuminated (ctl (after (_check_illumination vf) s)) = flag.
Proof.
  intros Hir Hflag. unfold _check_illumination. run_monad.
  rewrite Hir. cbn. rewrite Hflag. reflexivity.
Qed.

(** When reading the sub-frame or its flag raises, the flag is set to
    false. *)
Lemma check_illumination_read_fails (vf : VideoMediaFrame) (s : Sys) :
  infrared_media_frame vf = Throws \/
  (exists ir, infrared_media_frame vf = Gives (Some ir) /\
              is_illuminated ir = Throws) ->
  _is_illuminated (ctl (after (_check_illumination vf) s)) = false.
Proof.
  intros [Hir|(ir & Hir & Hflag)]; unfold _check_illumination; run_monad;
    rewrite Hir; cbn; [|rewrite Hflag]; reflexivity.
Qed.

(** When the frame has no infrared sub-frame, nothing is assigned. *)
Lemma check_illumination_no_subframe (vf : VideoMediaFrame) (s : Sys) :
  infrared_media_frame vf = Gives None ->
  _check_illumination vf s = (Returns tt, s).
Proof.
  intros Hir. unfold _check_illumination. run_monad. rewrite Hir. reflexivity.
Qed.

(** C8, evaluated where the code departs from it.  The previous frame was
    illuminated; the frame that arrives has no infrared sub-frame.
    [_check_illumination] leaves the flag at true, and with the filter on
    ILLUMINATED the frame is put in the buffer as an illuminated one. *)
Theorem check_illumination_absent_subframe_keeps_flag :
  _is_illuminated (ctl after_illuminated_frame) = true /\
  _is_illuminated
    (ctl (after (_check_illumination frame_without_ir)
            after_illuminated_frame)) = true /\
  Queue.items
    (_frame_queue
       (ctl (after (_on_frame_arrived
                      (Gives (Some {| video_media_frame :=
                                        Gives (Some frame_without_ir);
                                      close := Gives tt |})))
               after_illuminated_frame))) =
    [[[(10, 20, 30, 255); (40, 50, 60, 255)]]].
Proof. repeat split. Qed.

(** The sibling path: the flag cannot be read, and is set to false. *)
Example check_illumination_unreadable_flag_resets :
  _is_illuminated
    (ctl (after (_check_illumination frame_with_unreadable_flag)
            after_illuminated_frame)) = false.
Proof. reflexivity. Qed.

(** ** Device selection *)

Lemma device_at_index (devs : list MediaFrameSourceGroup) (index : Z) :
  0 <= index < Z.of_nat (List.length devs) ->
  exists device, nth_error devs (Z.to_nat index) = Some device.
Proof.
  intros Hrange.
  destruct (nth_error devs (Z.to_nat index)) as [d|] eqn:E.
  - exists d. reflexivity.
  - apply nth_error_None in E. lia.
Qed.

Lemma index_check (index n : Z) :
  (index <? 0) || (index >=? n) = true <-> index < 0 \/ n <= index.
Proof.
  rewrite orb_true_iff, Z.ltb_lt, Z.geb_le. reflexivity.
Qed.

Ltac answer_backend :=
  repeat match goal with
         | |- context [initialize_ok ?b ?m] =>
             destruct (initialize_ok b m); cbn
         | |- context [frame_sources ?b] => destruct (frame_sources b); cbn
         | |- context [supported_formats ?x] =>
             destruct (supported_formats x); cbn
         end.

(** C7, as the code has it.  An index outside the device list makes
    [select_device] return false and leaves everything as it was.  An
    index inside the list becomes [_current_device_index]; the call
    returns true exactly when the backend initialises the capture (in the
    mode asked for, or in shared mode after an exclusive attempt failed)
    and offers a frame source, returns false when it initialises and
    offers none, and raises when it does not initialise. *)
Theorem select_device_outcome (s : Sys) (index : Z) (exclusive : bool)
  (backend : CaptureBackend) :
  let n := Z.of_nat (List.length (_devices (ctl s))) in
  (index < 0 \/ n <= index ->
     select_device index exclusive backend s = (Returns false, s)) /\
  (0 <= index < n ->
     _current_device_index
       (ctl (after (select_device index exclusive backend) s)) = index /\
     result (select_device index exclusive backend) s =
       if initialize_ok backend
            (if exclusive then EXCLUSIVE_CONTROL else SHARED_READ_ONLY)
          || (exclusive && initialize_ok backend SHARED_READ_ONLY)
       then Returns match frame_sources backend with
                    | [] => false
                    | _ :: _ => true
                    end
       else Raises).
Proof.
  intros n. split.
  - intros Hout. apply index_check in Hout.
    unfold select_device, bind, self. cbv beta iota. fold n.
    rewrite Hout. reflexivity.
  - intros Hin.
    assert (Hcheck : (index <? 0) || (index >=? n) = false).
    { destruct ((index <? 0) || (index >=? n)) eqn:E; [|reflexivity].
      apply index_check in E. lia. }
    destruct (device_at_index _ _ Hin) as [device Hdev].
    unfold select_device, after, result, bind, self. cbv beta iota. fold n.
    rewrite Hcheck.
    destruct (_frame_reader (ctl s)) as [r|].
    + rewrite stop_effect. cbn [ctl env fst snd].
      replace (_devices _) with (_devices (ctl s))
        by (destruct (_is_recording (ctl s)); reflexivity).
      rewrite Hdev.
      unfold assign, try_except, initialize_with_settings_async, bind, self,
        raise, ret.
      cbn.
      destruct exclusive; cbn; answer_backend; split; reflexivity.
    + unfold ret. cbv beta iota. rewrite Hdev.
      unfold assign, try_except, initialize_with_settings_async, bind, self,
        raise, ret.
      cbn.
      destruct exclusive; cbn; answer_backend; split; reflexivity.
Qed.

(** * Further properties of the controller *)

(** ** Cyclic modes *)

(** X1. The filter button cycles through the three modes: one press
    always changes the filter, three presses bring the controller back to
    exactly the state it was in, and from every mode every other mode is
    reached within two presses. *)
Theorem on_filter_cycle (s : Sys) :
  _frame_filter (ctl (after _on_filter s)) <> _frame_filter (ctl s) /\
  after _on_filter (after _on_filter (after _on_filter s)) = s /\
  forall target : IRFrameFilter.t,
    exists n : nat,
      (n <= 2)%nat /\
      _frame_filter (ctl (Nat.iter n (after _on_filter) s)) = target.
Proof.
  open_state s. unfold _on_filter, frame_filter, frame_filter_setter.
  run_monad. cbn.
  split; [destruct _frame_filter0; discriminate|].
  split; [destruct _frame_filter0; reflexivity|].
  intros target.
  destruct _frame_filter0, target;
    first [exists 0%nat; split; [lia | reflexivity]
          | exists 1%nat; split; [lia | reflexivity]
          | exists 2%nat; split; [lia | reflexivity]].
Qed.

(** X2. The colour button cycles through the four mapping modes: one
    press always changes the mode, four presses restore the state, and
    fewer than four never do. *)
Theorem on_color_cycle (s : Sys) :
  _mapping_mode (ctl (after _on_color s)) <> _mapping_mode (ctl s) /\
  after _on_color (after _on_color (after _on_color (after _on_color s))) = s /\
  forall n : nat,
    (0 < n < 4)%nat ->
    _mapping_mode (ctl (Nat.iter n (after _on_color) s)) <>
      _mapping_mode (ctl s).
Proof.
  open_state s. unfold _on_color, mapping_mode, mapping_mode_setter.
  run_monad. cbn.
  split; [destruct _mapping_mode0; discriminate|].
  split; [destruct _mapping_mode0; reflexivity|].
  intros n Hn.
  assert (Hcases : n = 1%nat \/ n = 2%nat \/ n = 3%nat) by lia.
  destruct Hcases as [ E | [ E | E ] ]; subst n; destruct _mapping_mode0;
    discriminate.
Qed.

(** X3. Distinct modes have distinct display names and distinct values,
    for the filter and for the mapping alike. *)
Theorem display_names_distinguish_modes :
  (forall a b : IRFrameFilter.t,
     IRFrameFilter.display_name a = IRFrameFilter.display_name b -> a = b) /\
  (forall a b : IRMappingMode.t,
     IRMappingMode.display_name a = IRMappingMode.display_name b -> a = b) /\
  (forall a b : IRFrameFilter.t,
     IRFrameFilter.value a = IRFrameFilter.value b -> a = b) /\
  (forall a b : IRMappingMode.t,
     IRMappingMode.value a = IRMappingMode.value b -> a = b).
Proof.
  repeat split; intros a b; destruct a, b; cbn; intros E;
    try reflexivity; discriminate E.
Qed.

(** ** Discovery *)

Lemma has_infrared_existsb (infos : list MediaFrameSourceKind) :
  has_infrared infos = existsb is_infrared infos.
Proof.
  induction infos as [|k rest IH]; cbn; [reflexivity|].
  rewrite IH. destruct (is_infrared k); reflexivity.
Qed.

Lemma collect_ir_filter (found acc : list MediaFrameSourceGroup) :
  collect_ir found acc =
  acc ++ filter (fun d => existsb is_infrared (source_infos d)) found.
Proof.
  revert acc. induction found as [|d rest IH]; intros acc; cbn.
  - rewrite app_nil_r. reflexivity.
  - rewrite IH, has_infrared_existsb.
    destruct (existsb is_infrared (source_infos d)); cbn; [|reflexivity].
    rewrite <- app_assoc. reflexivity.
Qed.

(** X4. [find_ir_cameras] replaces the device list by the discovered
    groups that have an infrared source, in discovery order and without
    merging with what was known before; it returns that list and changes
    nothing else, the current device index included. *)
Theorem find_ir_cameras_result (s : Sys)
  (found : list MediaFrameSourceGroup) :
  let infrared := filter (fun d => existsb is_infrared (source_infos d)) found in
  find_ir_cameras found s =
    (Returns infrared,
     {| ctl := set_devices infrared (ctl s); env := env s |}) /\
  (forall d, In d infrared <-> In d found /\ In INFRARED (source_infos d)).
Proof.
  intros infrared. split.
  - open_state s. unfold find_ir_cameras. run_monad. cbn.
    rewrite collect_ir_filter. reflexivity.
  - intros d. subst infrared. rewrite filter_In, existsb_exists.
    split; intros [Hin Hir]; (split; [exact Hin|]).
    + destruct Hir as (k & Hk & Hkind). destruct k; try discriminate Hkind.
      exact Hk.
    + exists INFRARED. split; [exact Hir | reflexivity].
Qed.

(** ** Device selection, further *)

(** Python's [max] with a key: the result is the first of the elements
    with the greatest key. *)
Lemma max_from_first_greatest {A} (k : A -> Z) (xs : list A) :
  forall best : A,
    exists pre post,
      best :: xs = pre ++ max_from k best xs :: post /\
      (forall y, In y pre -> k y < k (max_from k best xs)) /\
      (forall y, In y post -> k y <= k (max_from k best xs)).
Proof.
  induction xs as [|x rest IH]; intros best; cbn [max_from].
  - exists [], []. repeat split; intros y [].
  - destruct (k best <? k x) eqn:Hlt.
    + apply Z.ltb_lt in Hlt.
      destruct (IH x) as (pre & post & Hsplit & Hpre & Hpost).
      exists (best :: pre), post. split; [cbn; rewrite <- Hsplit; reflexivity|].
      split; [|exact Hpost].
      intros y [<-|Hy]; [|apply Hpre; exact Hy].
      assert (Hx : k x <= k (max_from k x rest)).
      { assert (Hin : In x (pre ++ max_from k x rest :: post))
          by (rewrite <- Hsplit; left; reflexivity).
        apply in_app_or in Hin. destruct Hin as [Hin|[Hin|Hin]].
        - apply Z.lt_le_incl, Hpre, Hin.
        - rewrite Hin. lia.
        - apply Hpost, Hin. }
      lia.
    + apply Z.ltb_ge in Hlt.
      destruct (IH best) as (pre & post & Hsplit & Hpre & Hpost).
      destruct pre as [|p pre].
      * cbn in Hsplit. injection Hsplit as Hbest Hrest.
        exists [], (x :: rest). split; [cbn; rewrite <- Hbest; reflexivity|].
        split; [intros y []|].
        intros y [<-|Hy]; [rewrite <- Hbest; exact Hlt|].
        apply Hpost. rewrite <- Hrest. exact Hy.
      * cbn in Hsplit. injection Hsplit as Hp Hrest. subst p.
        exists (best :: x :: pre), post.
        split; [cbn; rewrite <- Hrest; reflexivity|].
        split; [|exact Hpost].
        assert (Hbest : k best < k (max_from k best rest))
          by (apply Hpre; left; reflexivity).
        intros y [<-|[<-|Hy]]; [exact Hbest | lia |].
        apply Hpre. right. exact Hy.
Qed.

(** What [select_device] leaves for a valid index: the old session torn
    down when there was a reader, and the index set. *)
Lemma select_device_valid_fields (s : Sys) (index : Z) (exclusive : bool)
  (backend : CaptureBackend) :
  0 <= index < Z.of_nat (List.length (_devices (ctl s))) ->
  let before :=
    match _frame_reader (ctl s) with
    | Some _ => after stop s
    | None => s
    end in
  outside_session (after (select_device index exclusive backend) s) =
    outside_session before.
Proof.
  intros Hin.
  assert (Hcheck : (index <? 0)
                   || (index >=? Z.of_nat (List.length (_devices (ctl s))))
                   = false).
  { destruct ((index <? 0)
              || (index >=? Z.of_nat (List.length (_devices (ctl s)))))
      eqn:E; [|reflexivity].
    apply index_check in E. lia. }
  destruct (device_at_index _ _ Hin) as [device Hdev].
  unfold select_device, after, bind, self. cbv beta iota.
  rewrite Hcheck.
  destruct (_frame_reader (ctl s)) as [r|]; cbv zeta.
  - rewrite stop_effect. cbn [ctl env fst snd].
    replace (_devices _) with (_devices (ctl s))
      by (destruct (_is_recording (ctl s)); reflexivity).
    rewrite Hdev.
    unfold assign, try_except, initialize_with_settings_async, bind, self,
      raise, ret.
    cbn.
    destruct exclusive; cbn; answer_backend; reflexivity.
  - unfold ret. cbv beta iota. rewrite Hdev.
    unfold assign, try_except, initialize_with_settings_async, bind, self,
      raise, ret.
    cbn.
    destruct exclusive; cbn; answer_backend; reflexivity.
Qed.

Lemma index_check_passes (s : Sys) (index : Z) :
  0 <= index < Z.of_nat (List.length (_devices (ctl s))) ->
  (index <? 0) || (index >=? Z.of_nat (List.length (_devices (ctl s))))
  = false.
Proof.
  intros Hin.
  destruct ((index <? 0)
            || (index >=? Z.of_nat (List.length (_devices (ctl s)))))
    eqn:E; [|reflexivity].
  apply index_check in E. lia.
Qed.

(** The session [select_device] builds when the backend opens the capture
    and offers the source [src] first. *)
Lemma select_device_opened (s : Sys) (index : Z) (exclusive : bool)
  (backend : CaptureBackend) (device : MediaFrameSourceGroup)
  (src : MediaFrameSource) (others : list MediaFrameSource) :
  0 <= index < Z.of_nat (List.length (_devices (ctl s))) ->
  nth_error (_devices (ctl s)) (Z.to_nat index) = Some device ->
  capture_opens backend exclusive = true ->
  frame_sources backend = src :: others ->
  let s' := after (select_device index exclusive backend) s in
  let chosen :=
    match supported_formats src with
    | [] => None
    | f :: fs => Some (max_from format_area f fs)
    end in
  _frame_reader (ctl s') =
    Some {| reader_source := src; reader_format := chosen;
            reader_started := false |} /\
  _media_capture (ctl s') =
    Some {| mc_settings :=
              Some (device,
                    if exclusive && initialize_ok backend EXCLUSIVE_CONTROL
                    then EXCLUSIVE_CONTROL else SHARED_READ_ONLY);
            mc_backend := backend |} /\
  (_frame_width (ctl s'), _frame_height (ctl s')) =
    match chosen with
    | None => (_frame_width (ctl s), _frame_height (ctl s))
    | Some best => (vf_width best, vf_height best)
    end.
Proof.
  intros Hin Hdev Hopens Hsrc. unfold capture_opens in Hopens.
  pose proof (index_check_passes s index Hin) as Hcheck.
  destruct backend as [init srcs]. cbn [frame_sources initialize_ok] in *.
  subst srcs. cbv zeta.
  destruct exclusive; cbn in Hopens;
    destruct (init EXCLUSIVE_CONTROL) eqn:Hexcl,
             (init SHARED_READ_ONLY) eqn:Hshared,
             (supported_formats src) eqn:Hformats;
    try discriminate Hopens;
    unfold select_device, after, bind, self; cbv beta iota;
    rewrite Hcheck;
    (destruct (_frame_reader (ctl s)) as [r|];
     [ rewrite stop_effect; cbn [ctl env fst snd];
       replace (_devices _) with (_devices (ctl s))
         by (destruct (_is_recording (ctl s)); reflexivity)
     | unfold ret; cbv beta iota ]);
    rewrite Hdev;
    unfold assign, try_except, initialize_with_settings_async, bind, self,
      raise, ret;
    cbn;
    repeat (rewrite ?Hexcl, ?Hshared, ?Hformats; cbn);
    try (destruct (_is_recording (ctl s))); repeat split; reflexivity.
Qed.

(** X5. When [select_device] succeeds it adopts the format of greatest
    area among those the first frame source supports, and the first such
    format when several share the greatest area; the frame size becomes
    that format's size.  When the source lists no format the frame size
    stays as it was. *)
Theorem select_device_picks_largest_format (s : Sys) (index : Z)
  (exclusive : bool) (backend : CaptureBackend)
  (src : MediaFrameSource) (others : list MediaFrameSource) :
  0 <= index < Z.of_nat (List.length (_devices (ctl s))) ->
  capture_opens backend exclusive = true ->
  frame_sources backend = src :: others ->
  let s' := after (select_device index exclusive backend) s in
  (supported_formats src = [] ->
     result frame_size s' = result frame_size s) /\
  (supported_formats src <> [] ->
     exists pre best post,
       supported_formats src = pre ++ best :: post /\
       (forall f, In f pre -> format_area f < format_area best) /\
       (forall f, In f post -> format_area f <= format_area best) /\
       result frame_size s' = Returns (vf_width best, vf_height best) /\
       exists reader,
         _frame_reader (ctl s') = Some reader /\
         reader_format reader = Some best).
Proof.
  intros Hin Hopens Hsrc s'.
  destruct (device_at_index _ _ Hin) as [device Hdev].
  destruct (select_device_opened s index exclusive backend device src others
              Hin Hdev Hopens Hsrc) as (Hreader & _ & Hsize).
  fold s' in Hreader, Hsize. clearbody s'. cbv zeta in Hreader, Hsize.
  unfold frame_size. run_monad.
  destruct (supported_formats src) as [|f fs] eqn:Hformats;
    injection Hsize as Hw Hh.
  - split; [|intros Hne; contradiction Hne; reflexivity].
    intros _. rewrite Hw, Hh. reflexivity.
  - split; [discriminate|]. intros _.
    destruct (max_from_first_greatest format_area fs f)
      as (pre & post & Hsplit & Hpre & Hpost).
    exists pre, (max_from format_area f fs), post.
    split; [exact Hsplit|]. split; [exact Hpre|]. split; [exact Hpost|].
    rewrite Hw, Hh. split; [reflexivity|].
    eexists. split; [exact Hreader | reflexivity].
Qed.

(** X6. The sharing mode [select_device] ends up with: exclusive control
    when it was asked for and the backend grants it, shared read-only
    otherwise, the fall-back after a refused exclusive request included.
    The capture is opened on the device at the index, the reader reads
    the first frame source and is not started yet; [start()] then returns
    true, starts the reader and makes the controller run. *)
Theorem select_device_then_start (s : Sys) (index : Z) (exclusive : bool)
  (backend : CaptureBackend) (device : MediaFrameSourceGroup)
  (src : MediaFrameSource) (others : list MediaFrameSource) :
  0 <= index < Z.of_nat (List.length (_devices (ctl s))) ->
  nth_error (_devices (ctl s)) (Z.to_nat index) = Some device ->
  capture_opens backend exclusive = true ->
  frame_sources backend = src :: others ->
  let s' := after (select_device index exclusive backend) s in
  (exists capture reader,
     _media_capture (ctl s') = Some capture /\
     mc_settings capture =
       Some (device,
             if exclusive && initialize_ok backend EXCLUSIVE_CONTROL
             then EXCLUSIVE_CONTROL else SHARED_READ_ONLY) /\
     _frame_reader (ctl s') = Some reader /\
     reader_source reader = src /\
     reader_started reader = false) /\
  result start s' = Returns true /\
  _running (ctl (after start s')) = true /\
  (exists reader,
     _frame_reader (ctl (after start s')) = Some reader /\
     reader_source reader = src /\
     reader_started reader = true).
Proof.
  intros Hin Hdev Hopens Hsrc s'.
  destruct (select_device_opened s index exclusive backend device src others
              Hin Hdev Hopens Hsrc) as (Hreader & Hcapture & _).
  fold s' in Hreader, Hcapture. clearbody s'.
  split.
  - do 2 eexists. split; [exact Hcapture|]. split; [reflexivity|].
    split; [exact Hreader|]. split; reflexivity.
  - unfold start. run_monad. rewrite Hreader. cbn.
    split; [reflexivity|]. split; [reflexivity|].
    eexists. split; [reflexivity|]. split; reflexivity.
Qed.

(** X7. Selecting a valid index while a reader is open first stops the
    old session, whatever the backend then answers: the controller is no
    longer running, a recording in progress is ended and its writer
    released, and the buffer of the latest frame is kept.  With no reader
    open nothing is stopped: a recording in progress goes on. *)
Theorem select_device_tears_down_session (s : Sys) (index : Z)
  (exclusive : bool) (backend : CaptureBackend) :
  0 <= index < Z.of_nat (List.length (_devices (ctl s))) ->
  let s' := after (select_device index exclusive backend) s in
  buffer s' = buffer s /\
  (_frame_reader (ctl s) <> None ->
     _running (ctl s') = false /\
     _is_recording (ctl s') = false /\
     (_is_recording (ctl s) = true ->
        _video_writer (ctl s') = None /\
        _video_path (ctl s') = None /\
        forall vw, _video_writer (ctl s) = Some vw ->
          released_writers (env s') = released_writers (env s) ++ [vw])) /\
  (_frame_reader (ctl s) = None ->
     outside_session s' = outside_session s).
Proof.
  intros Hin s'.
  pose proof (select_device_valid_fields s index exclusive backend Hin)
    as Hfields.
  fold s' in Hfields.
  split; [apply select_device_keeps_buffer|].
  destruct (_frame_reader (ctl s)) as [r|].
  - split; [|discriminate]. intros _.
    clearbody s'. cbv zeta in Hfields. unfold after in Hfields.
    rewrite stop_effect in Hfields. cbn [snd] in Hfields.
    unfold outside_session in Hfields. cbn [ctl env] in Hfields.
    destruct (_is_recording (ctl s)) eqn:Hrec; cbn in Hfields;
      injection Hfields as Hrun _ _ _ _ _ _ Hr Hw Hp He.
    + split; [exact Hrun|]. split; [exact Hr|]. intros _.
      split; [exact Hw|]. split; [exact Hp|].
      intros vw Hvw. rewrite He, Hvw. reflexivity.
    + split; [exact Hrun|]. split; [rewrite Hr; exact Hrec|]. discriminate.
  - split; [intros Hne; contradiction Hne; reflexivity|].
    intros _. exact Hfields.
Qed.

(** X8. [stop()] is idempotent and final: a second [stop()] changes
    nothing, [start()] after it returns false and changes nothing, and
    every frame delivered after it is discarded. *)
Theorem stop_is_final (s : Sys) :
  after stop (after stop s) = after stop s /\
  start (after stop s) = (Returns false, after stop s) /\
  forall acquired,
    _on_frame_arrived acquired (after stop s) = (Returns tt, after stop s).
Proof.
  unfold after. rewrite !stop_effect. cbn [snd].
  split; [|split].
  - open_state s. destruct _is_recording0; reflexivity.
  - unfold start. run_monad. reflexivity.
  - intros acquired. unfold _on_frame_arrived. run_monad.
    destruct (_is_recording (ctl s)); reflexivity.
Qed.

(** ** Sessions *)

Lemma on_frame_arrived_not_running (acquired : Fallible (option MediaFrame))
  (s : Sys) :
  _running (ctl s) = false ->
  _on_frame_arrived acquired s = (Returns tt, s).
Proof.
  intros Hrun. unfold _on_frame_arrived. run_monad. rewrite Hrun. reflexivity.
Qed.

Lemma no_session_kept_by_call (call : Call) (s : Sys) :
  selects_device call = false ->
  no_session s /\ no_frame_yet s ->
  no_session (after (perform call) s) /\ no_frame_yet (after (perform call) s).
Proof.
  intros Hcall [(Hcap & Hreader & Hrun) [Hq Hlast]].
  destruct call as [v| |v| |found|i e b| | | | | |acquired|d n|d f n|];
    try discriminate Hcall; cbn [perform].
  11: {
    unfold after. rewrite (on_frame_arrived_not_running acquired s Hrun).
    cbn [snd]. repeat split; assumption. }
  all: open_state s; unfold no_session, no_frame_yet; subst;
    destruct _frame_queue0 as [m its]; cbn in *; subst;
    unfold_methods; run_monad; cbn;
    split_matches; repeat split; reflexivity.
Qed.

(** X9. Until a device is selected nothing is captured: after any calls
    from start-up with no [select_device] among them there is no capture
    object and no reader, the controller is not running, [start()]
    returns false, every delivered frame has been discarded and
    [get_frame()] returns [None]. *)
Theorem no_capture_without_device (calls : list Call) :
  forallb (fun call => negb (selects_device call)) calls = true ->
  no_session (run calls at_startup) /\
  no_frame_yet (run calls at_startup) /\
  result start (run calls at_startup) = Returns false /\
  result get_frame (run calls at_startup) = Returns None.
Proof.
  intros Hcalls.
  assert (Hinv : no_session (run calls at_startup) /\
                 no_frame_yet (run calls at_startup)).
  { assert (Hstart : no_session at_startup /\ no_frame_yet at_startup)
      by (repeat split).
    revert Hcalls Hstart. generalize at_startup.
    induction calls as [|call calls IH]; intros s Hcalls Hs; cbn in *.
    - exact Hs.
    - apply andb_true_iff in Hcalls. destruct Hcalls as [Hcall Hrest].
      apply IH; [exact Hrest|].
      apply no_session_kept_by_call; [|exact Hs].
      destruct (selects_device call); [discriminate | reflexivity]. }
  destruct Hinv as [Hsession Hnone].
  split; [exact Hsession|]. split; [exact Hnone|]. split.
  - destruct Hsession as (_ & Hreader & _).
    unfold start. run_monad. rewrite Hreader. reflexivity.
  - apply get_frame_none_iff. exact Hnone.
Qed.

(** X10. [pause()] and [resume()] act on the reader only: all they
    change is [_frame_reader], where the reader, if there is one, is
    stopped or started.  With no reader both do nothing; [pause()] leaves
    [_running], the buffer and the recording as they are and is
    idempotent; and [resume()] after [pause()] restores a started session
    exactly. *)
Theorem pause_resume_round_trip (s : Sys) :
  pause s =
    (Returns tt,
     {| ctl := set_frame_reader
                 (option_map reader_stop_async (_frame_reader (ctl s))) (ctl s);
        env := env s |}) /\
  resume s =
    (Returns tt,
     {| ctl := set_frame_reader
                 (option_map reader_start_async (_frame_reader (ctl s))) (ctl s);
        env := env s |}) /\
  (_frame_reader (ctl s) = None ->
     pause s = (Returns tt, s) /\ resume s = (Returns tt, s)) /\
  outside_session (after pause s) = outside_session s /\
  after pause (after pause s) = after pause s /\
  (forall r, _frame_reader (ctl s) = Some r ->
     exists r',
       _frame_reader (ctl (after pause s)) = Some r' /\
       reader_started r' = false /\
       reader_source r' = reader_source r) /\
  (forall r, _frame_reader (ctl s) = Some r -> reader_started r = true ->
     after resume (after pause s) = s).
Proof.
  split; [|split].
  1, 2: open_state s; unfold pause, resume; run_monad;
    destruct _frame_reader0; reflexivity.
  open_state s. unfold pause, resume. run_monad.
  destruct _frame_reader0 as [[src fmt started]|]; cbn.
  - split; [discriminate|]. split; [reflexivity|]. split; [reflexivity|].
    split.
    + intros r Hr. eexists. repeat split.
      injection Hr as <-. reflexivity.
    + intros r Hr Hstarted. injection Hr as <-. cbn in Hstarted.
      subst started. reflexivity.
  - split; [intros _; split; reflexivity|].
    split; [reflexivity|]. split; [reflexivity|].
    split; intros r Hr; discriminate Hr.
Qed.

(** ** Invariants of every run *)

Lemma select_device_out_of_range (s : Sys) (index : Z) (exclusive : bool)
  (backend : CaptureBackend) :
  (index <? 0) || (index >=? Z.of_nat (List.length (_devices (ctl s)))) = true ->
  select_device index exclusive backend s = (Returns false, s).
Proof.
  intros Hout. unfold select_device, bind, self. cbv beta iota.
  rewrite Hout. reflexivity.
Qed.

Lemma recording_consistent_outside (a b : Sys) :
  outside_session a = outside_session b ->
  recording_consistent b -> recording_consistent a.
Proof.
  unfold outside_session, recording_consistent.
  intros E. injection E as _ _ _ _ _ _ _ Hr Hw Hp _.
  rewrite Hr, Hw, Hp. exact (fun H => H).
Qed.

Lemma recording_sound_outside (a b : Sys) :
  outside_session a = outside_session b ->
  recording_sound b -> recording_sound a.
Proof.
  unfold outside_session, recording_sound.
  intros E. injection E as _ _ _ _ _ _ _ Hr Hw Hp _.
  rewrite Hr, Hw, Hp. exact (fun H => H).
Qed.

Lemma recording_consistent_stop (s : Sys) :
  recording_consistent s -> recording_consistent (after stop s).
Proof.
  unfold after. rewrite stop_effect. unfold recording_consistent. cbn.
  destruct (_is_recording (ctl s)) eqn:Hrec; cbn; rewrite ?Hrec.
  - intros _. split; reflexivity.
  - exact (fun H => H).
Qed.

Lemma recording_sound_stop (s : Sys) :
  recording_sound s -> recording_sound (after stop s).
Proof.
  unfold after. rewrite stop_effect. unfold recording_sound. cbn.
  destruct (_is_recording (ctl s)) eqn:Hrec; cbn; rewrite ?Hrec.
  - intros _. reflexivity.
  - exact (fun H => H).
Qed.

Lemma recording_consistent_sound (s : Sys) :
  recording_consistent s -> recording_sound s.
Proof.
  unfold recording_consistent, recording_sound.
  destruct (_is_recording (ctl s)); [exact (fun H => H) | intros [_ H]; exact H].
Qed.

(** A base rate that fits a double gives a rate that fits one, whatever
    the filter. *)
Lemma fits_double_actual_fps (filter : IRFrameFilter.t) (base_fps : Z) :
  fits_double base_fps = true ->
  fits_double (actual_fps filter base_fps) = true.
Proof.
  unfold fits_double, actual_fps.
  assert (Hseven : 7 < 2 ^ 1024 - 2 ^ 970) by (apply Z.ltb_lt; reflexivity).
  remember (2 ^ 1024 - 2 ^ 970) as bound eqn:Hbound. clear Hbound.
  intros Hfits. apply Z.ltb_lt in Hfits.
  destruct (IRFrameFilter.eqb filter IRFrameFilter.NONE);
    apply Z.ltb_lt; [exact Hfits|].
  pose proof (Z.div_mod base_fps 2 ltac:(lia)) as Hdiv.
  pose proof (Z.mod_pos_bound base_fps 2 ltac:(lia)) as Hmod.
  lia.
Qed.

(** Every call keeps the sound part of the agreement. *)
Lemma recording_sound_kept_by_call (call : Call) (s : Sys) :
  recording_sound s -> recording_sound (after (perform call) s).
Proof.
  intros Hs.
  destruct call as [v| |v| |found|i e b| | | | | |acquired|d n|d f n|];
    cbn [perform].
  6: {
    assert (E : after (select_device i e b ;; ret tt) s =
                after (select_device i e b) s).
    { unfold after, bind, ret.
      destruct (select_device i e b s) as [[r|] s1]; reflexivity. }
    rewrite E.
    destruct ((i <? 0) || (i >=? Z.of_nat (List.length (_devices (ctl s)))))
      eqn:Hrange.
    - unfold after. rewrite (select_device_out_of_range s i e b Hrange).
      exact Hs.
    - assert (Hin : 0 <= i < Z.of_nat (List.length (_devices (ctl s)))).
      { destruct (Z.ltb_spec i 0), (Z.geb_spec i
          (Z.of_nat (List.length (_devices (ctl s))))); cbn in Hrange;
          try discriminate Hrange; lia. }
      apply (recording_sound_outside _ _
               (select_device_valid_fields s i e b Hin)).
      destruct (_frame_reader (ctl s));
        [apply recording_sound_stop|]; exact Hs. }
  7: { apply recording_sound_stop. exact Hs. }
  10: {
    unfold after.
    destruct (on_frame_arrived_cases acquired s) as [E|[flag [E|[frame E]]]];
      rewrite E; try rewrite update_frame_effect; cbn [snd];
      unfold recording_sound in *; cbn; try exact Hs.
    destruct (_is_recording (ctl s)); [|exact Hs].
    destruct Hs as (path & vw & Hp & Hw & Hvw).
    rewrite Hw. cbn. exists path. eexists. split; [exact Hp|].
    split; [reflexivity | exact Hvw]. }
  all: open_state s; unfold recording_sound in *; cbn in *;
    destruct _is_recording0;
    [ destruct Hs as (path & vw & Hp & Hw & Hvw) | idtac ];
    subst; unfold_methods; run_monad; cbn;
    split_matches; cbn; eauto 6.
Qed.

(** Every call that asks for no rate beyond the doubles keeps the whole
    agreement. *)
Lemma recording_consistent_kept_by_call (call : Call) (s : Sys) :
  asks_finite_rate call = true ->
  recording_consistent s -> recording_consistent (after (perform call) s).
Proof.
  intros Hrate Hs.
  destruct call as [v| |v| |found|i e b| | | | | |acquired|d n|d f n|];
    cbn [perform].
  6: {
    assert (E : after (select_device i e b ;; ret tt) s =
                after (select_device i e b) s).
    { unfold after, bind, ret.
      destruct (select_device i e b s) as [[r|] s1]; reflexivity. }
    rewrite E.
    destruct ((i <? 0) || (i >=? Z.of_nat (List.length (_devices (ctl s)))))
      eqn:Hrange.
    - unfold after. rewrite (select_device_out_of_range s i e b Hrange).
      exact Hs.
    - assert (Hin : 0 <= i < Z.of_nat (List.length (_devices (ctl s)))).
      { destruct (Z.ltb_spec i 0), (Z.geb_spec i
          (Z.of_nat (List.length (_devices (ctl s))))); cbn in Hrange;
          try discriminate Hrange; lia. }
      apply (recording_consistent_outside _ _
               (select_device_valid_fields s i e b Hin)).
      destruct (_frame_reader (ctl s));
        [apply recording_consistent_stop|]; exact Hs. }
  7: { apply recording_consistent_stop. exact Hs. }
  10: {
    unfold after.
    destruct (on_frame_arrived_cases acquired s) as [E|[flag [E|[frame E]]]];
      rewrite E; try rewrite update_frame_effect; cbn [snd];
      unfold recording_consistent in *; cbn; try exact Hs.
    destruct (_is_recording (ctl s)); [|exact Hs].
    destruct Hs as (path & vw & Hp & Hw & Hvw).
    rewrite Hw. cbn. exists path. eexists. split; [exact Hp|].
    split; [reflexivity | exact Hvw]. }
  11: {
    (* start_recording *)
    cbn in Hrate.
    assert (E : after (start_recording d f n ;; ret tt) s =
                after (start_recording d f n) s).
    { unfold after, bind, ret.
      destruct (start_recording d f n s) as [[r|] s1]; reflexivity. }
    rewrite E. unfold after.
    destruct (_is_recording (ctl s)) eqn:Hrec.
    - rewrite (start_recording_when_recording s d f n Hrec). exact Hs.
    - rewrite (start_recording_effect s d f n Hrec).
      rewrite (fits_double_actual_fps (_frame_filter (ctl s)) f Hrate).
      destruct (names_directory d); cbn [snd]; [|exact Hs].
      unfold recording_consistent. cbn. do 2 eexists.
      split; [reflexivity|]. split; reflexivity. }
  all: open_state s; unfold recording_consistent in *; cbn in *;
    destruct _is_recording0;
    [ destruct Hs as (path & vw & Hp & Hw & Hvw) | destruct Hs as [Hp Hw] ];
    subst; unfold_methods; run_monad; cbn;
    split_matches; cbn; eauto 6.
Qed.

Lemma recording_sound_run (calls : list Call) :
  forall s : Sys, recording_sound s -> recording_sound (run calls s).
Proof.
  induction calls as [|call calls IH]; intros s Hs; cbn.
  - exact Hs.
  - apply IH. apply recording_sound_kept_by_call. exact Hs.
Qed.

Lemma recording_consistent_run (calls : list Call) :
  forall s : Sys,
    forallb asks_finite_rate calls = true ->
    recording_consistent s -> recording_consistent (run calls s).
Proof.
  induction calls as [|call calls IH]; intros s Hcalls Hs; cbn in *.
  - exact Hs.
  - apply andb_true_iff in Hcalls. destruct Hcalls as [Hcall Hrest].
    apply IH; [exact Hrest|].
    apply recording_consistent_kept_by_call; assumption.
Qed.

(** X11. In every state the controller reaches from start-up, whatever
    calls returned or raised on the way: while [_is_recording] is set a
    writer is open on the path kept in [_video_path], and while it is
    not set there is no writer.  So [stop_recording()] returns a path
    exactly when a recording is in progress, and never [None] then.
    When no call asked [start_recording] for a base rate beyond the
    doubles, there is no path either while nothing is recorded. *)
Theorem recording_fields_agree (calls : list Call) :
  let s := run calls at_startup in
  (_is_recording (ctl s) = true ->
     exists path vw,
       result stop_recording s = Returns (Some path) /\
       _video_path (ctl s) = Some path /\
       _video_writer (ctl s) = Some vw /\ vw_path vw = path) /\
  (_is_recording (ctl s) = false ->
     result stop_recording s = Returns None /\
     _video_writer (ctl s) = None) /\
  (forallb asks_finite_rate calls = true -> recording_consistent s).
Proof.
  intros s.
  assert (Hs : recording_sound s).
  { apply recording_sound_run. reflexivity. }
  split; [|split].
  - clearbody s. unfold recording_sound in Hs.
    intros Hrec; rewrite Hrec in Hs.
    destruct Hs as (path & vw & Hp & Hw & Hvw).
    exists path, vw. unfold result.
    rewrite (stop_recording_when_recording s Hrec). cbn. rewrite Hp.
    repeat split; assumption.
  - clearbody s. unfold recording_sound in Hs.
    intros Hrec; rewrite Hrec in Hs. unfold result.
    rewrite (stop_recording_when_idle s Hrec). split; [reflexivity | exact Hs].
  - intros Hcalls. apply recording_consistent_run; [exact Hcalls|].
    split; reflexivity.
Qed.


(** ** The frame pipeline *)

Lemma should_display_frame_passes (s : Sys) :
  _should_display_frame s =
    (Returns (passes (_frame_filter (ctl s)) (_is_illuminated (ctl s))), s).
Proof.
  unfold _should_display_frame, passes. run_monad.
  destruct (_frame_filter (ctl s)); reflexivity.
Qed.

Lemma on_frame_arrived_ir_frame (s : Sys) (flag : bool)
  (bitmap : SoftwareBitmap) :
  _running (ctl s) = true ->
  let s1 := {| ctl := set_is_illuminated flag (ctl s); env := env s |} in
  _on_frame_arrived (Gives (Some (ir_media_frame flag bitmap))) s =
    match _convert_bitmap_to_frame bitmap with
    | Some frame =>
        if passes (_frame_filter (ctl s)) flag
        then _update_frame frame s1
        else (Returns tt, s1)
    | None => (Returns tt, s1)
    end.
Proof.
  intros Hrun s1.
  unfold _on_frame_arrived, try_except, bind, self. cbv beta iota.
  rewrite Hrun. cbn [negb].
  unfold _process_frame, ir_media_frame, read_attr, try_finally, bind, ret.
  cbn [video_media_frame close].
  assert (Hflag : _check_illumination
            {| infrared_media_frame :=
                 Gives (Some {| is_illuminated := Gives flag |});
               software_bitmap := Gives (Some bitmap) |} s = (Returns tt, s1)).
  { unfold _check_illumination. run_monad. reflexivity. }
  rewrite Hflag, should_display_frame_passes. cbn [software_bitmap].
  change (_frame_filter (ctl s1)) with (_frame_filter (ctl s)).
  change (_is_illuminated (ctl s1)) with flag.
  destruct (passes (_frame_filter (ctl s)) flag); cbn [negb];
    destruct (_convert_bitmap_to_frame bitmap) as [frame|];
    try rewrite update_frame_effect; reflexivity.
Qed.

(** X13. A frame delivered to a running controller, with a readable
    illumination flag and a bitmap: the flag is stored; when the bitmap
    converts and the frame passes the filter it is published by
    [_update_frame]; otherwise it is dropped, and the buffer, the last
    frame and the writer stay as they were. *)
Theorem frame_pipeline (s : Sys) (flag : bool) (bitmap : SoftwareBitmap) :
  _running (ctl s) = true ->
  let s' :=
    after (_on_frame_arrived (Gives (Some (ir_media_frame flag bitmap)))) s in
  let flagged := {| ctl := set_is_illuminated flag (ctl s); env := env s |} in
  _is_illuminated (ctl s') = flag /\
  (forall frame,
     _convert_bitmap_to_frame bitmap = Some frame ->
     passes (_frame_filter (ctl s)) flag = true ->
     s' = after (_update_frame frame) flagged /\
     _last_frame (ctl s') =
       Some (color_mapping (_mapping_mode (ctl s)) frame)) /\
  (_convert_bitmap_to_frame bitmap = None \/
   passes (_frame_filter (ctl s)) flag = false ->
     s' = flagged).
Proof.
  intros Hrun s' flagged. subst s'. unfold after.
  rewrite (on_frame_arrived_ir_frame s flag bitmap Hrun). fold flagged.
  split; [|split].
  - destruct (_convert_bitmap_to_frame bitmap) as [frame|]; [|reflexivity].
    destruct (passes (_frame_filter (ctl s)) flag); [|reflexivity].
    rewrite update_frame_effect. reflexivity.
  - intros frame Hframe Hpass. rewrite Hframe, Hpass.
    split; [reflexivity|]. rewrite update_frame_effect. reflexivity.
  - intros [Hnone|Hdrop].
    + rewrite Hnone. reflexivity.
    + rewrite Hdrop. destruct (_convert_bitmap_to_frame bitmap); reflexivity.
Qed.

Lemma bind_read_gives {A B} (a : A) (k : A -> M B) (s : Sys) :
  bind (read_attr (Gives a)) k s = k a s.
Proof. reflexivity. Qed.

Lemma try_finally_raising {A} (m : M A) (s : Sys) :
  try_finally m (read_attr Throws) s = (Raises, after m s).
Proof.
  unfold try_finally, after, read_attr, raise.
  destruct (m s) as [[a|] s1]; reflexivity.
Qed.

Lemma try_finally_returning {A} (m : M A) (s : Sys) :
  try_finally m (read_attr (Gives tt)) s = m s.
Proof.
  unfold try_finally, read_attr, ret.
  destruct (m s) as [[a|] s1]; reflexivity.
Qed.

(** X14. Whatever the backend delivers, and whether or not the
    controller is running, the frame callback returns without raising
    and touches nothing but the illumination flag, the buffer and the
    frames of the writer: session, modes, recording state, the writer's
    path, rate and size, and the file system stay as they were.  What a
    read of the backend raises inside [_process_frame] ends there: a
    frame that cannot be acquired raises in [_process_frame] and leaves
    the callback returning with nothing changed, and a frame that cannot
    be closed raises there after its work is done. *)
Theorem frame_callback_footprint (acquired : Fallible (option MediaFrame))
  (s : Sys) :
  result (_on_frame_arrived acquired) s = Returns tt /\
  beyond_frames (after (_on_frame_arrived acquired) s) = beyond_frames s /\
  (_is_recording (ctl s) = false ->
     _video_writer (ctl (after (_on_frame_arrived acquired) s)) =
       _video_writer (ctl s)) /\
  _process_frame Throws s = (Raises, s) /\
  _on_frame_arrived Throws s = (Returns tt, s) /\
  (forall media_frame,
     close media_frame = Throws ->
     result (_process_frame (Gives (Some media_frame))) s = Raises /\
     after (_process_frame (Gives (Some media_frame))) s =
       after (_process_frame
                (Gives (Some {| video_media_frame :=
                                  video_media_frame media_frame;
                                close := Gives tt |}))) s).
Proof.
  split; [|split; [|split; [|split; [|split]]]].
  - unfold result.
    destruct (on_frame_arrived_cases acquired s) as [E|[flag [E|[frame E]]]];
      rewrite E; try rewrite update_frame_effect; reflexivity.
  - unfold after.
    destruct (on_frame_arrived_cases acquired s) as [E|[flag [E|[frame E]]]];
      rewrite E; try rewrite update_frame_effect; cbn [fst snd];
      try reflexivity.
    unfold beyond_frames. cbn.
    destruct (_is_recording (ctl s)), (_video_writer (ctl s)); reflexivity.
  - intros Hidle. unfold after.
    destruct (on_frame_arrived_cases acquired s) as [E|[flag [E|[frame E]]]];
      rewrite E; try rewrite update_frame_effect; cbn [fst snd];
      try reflexivity.
    cbn. rewrite Hidle. reflexivity.
  - reflexivity.
  - unfold _on_frame_arrived. run_monad.
    destruct (_running (ctl s)); reflexivity.
  - intros [video closing] Hclose. cbn in Hclose. subst closing.
    unfold result, after, _process_frame.
    rewrite !bind_read_gives. cbv beta iota. cbn [video_media_frame close].
    rewrite try_finally_raising, try_finally_returning.
    split; reflexivity.
Qed.

(** ** Bitmap conversion *)

Lemma pixels_of_bytes (n : nat) :
  forall data : list Z,
    List.length data = (4 * n)%nat ->
    flat_map pixel_bytes (pixels_of data) = data /\
    List.length (pixels_of data) = n.
Proof.
  induction n as [|n IH]; intros data Hlen.
  - destruct data; [split; reflexivity | discriminate Hlen].
  - destruct data as [|b [|g [|r [|a rest]]]]; cbn in Hlen; try lia.
    destruct (IH rest) as [Hbytes Hcount]; [lia|].
    cbn. rewrite Hbytes, Hcount. split; reflexivity.
Qed.

Lemma rows_of_shape (h w : nat) :
  forall px : list Pixel,
    List.length px = (h * w)%nat ->
    List.concat (rows_of h w px) = px /\
    List.length (rows_of h w px) = h /\
    Forall (fun row => List.length row = w) (rows_of h w px).
Proof.
  induction h as [|h IH]; intros px Hlen; cbn in *.
  - destruct px; [repeat split; constructor | discriminate Hlen].
  - destruct (IH (skipn w px)) as (Hcat & Hcount & Hrows).
    { rewrite length_skipn. lia. }
    rewrite Hcat, Hcount, firstn_skipn.
    repeat split. constructor; [|exact Hrows].
    rewrite length_firstn. lia.
Qed.

(** X15. [_convert_bitmap_to_frame] gives a frame exactly when the
    conversion yields a buffer of height * width * 4 bytes; the frame then
    has [pixel_height] rows of [pixel_width] pixels and holds the bytes of
    the buffer in order, four to a pixel.  In every other case, a failed
    conversion included, it gives [None]. *)
Theorem convert_bitmap_round_trip (bitmap : SoftwareBitmap) :
  (forall frame,
     _convert_bitmap_to_frame bitmap = Some frame ->
     bgra8_bytes bitmap = Gives (frame_bytes frame) /\
     Z.of_nat (List.length frame) = pixel_height bitmap /\
     Forall (fun row => Z.of_nat (List.length row) = pixel_width bitmap)
       frame) /\
  (forall data,
     bgra8_bytes bitmap = Gives data ->
     0 <= pixel_height bitmap -> 0 <= pixel_width bitmap ->
     Z.of_nat (List.length data) =
       pixel_height bitmap * pixel_width bitmap * 4 ->
     exists frame, _convert_bitmap_to_frame bitmap = Some frame) /\
  (bgra8_bytes bitmap = Throws -> _convert_bitmap_to_frame bitmap = None) /\
  (forall data,
     bgra8_bytes bitmap = Gives data ->
     Z.of_nat (List.length data) <>
       pixel_height bitmap * pixel_width bitmap * 4 ->
     _convert_bitmap_to_frame bitmap = None).
Proof.
  destruct bitmap as [h w bytes]. unfold _convert_bitmap_to_frame, reshape.
  cbn [pixel_height pixel_width bgra8_bytes].
  split; [|split; [|split]].
  - intros frame Hframe. destruct bytes as [data|]; [|discriminate Hframe].
    destruct ((0 <=? h) && (0 <=? w)
              && (Z.of_nat (List.length data) =? h * w * 4)) eqn:Hok;
      [|discriminate Hframe].
    injection Hframe as <-.
    apply andb_true_iff in Hok. destruct Hok as [Hok Hlen].
    apply andb_true_iff in Hok. destruct Hok as [Hh Hw].
    apply Z.leb_le in Hh, Hw. apply Z.eqb_eq in Hlen.
    destruct (pixels_of_bytes (Z.to_nat h * Z.to_nat w) data)
      as [Hbytes Hcount]; [nia|].
    destruct (rows_of_shape (Z.to_nat h) (Z.to_nat w) (pixels_of data) Hcount)
      as (Hcat & Hrows & Hwidth).
    split; [|split].
    + unfold frame_bytes. rewrite Hcat, Hbytes. reflexivity.
    + rewrite Hrows. lia.
    + apply Forall_impl with (2 := Hwidth). intros row Hrow. lia.
  - intros data Hbytes Hh Hw Hlen. rewrite Hbytes.
    apply Z.leb_le in Hh, Hw. apply Z.eqb_eq in Hlen.
    rewrite Hh, Hw, Hlen. eexists. reflexivity.
  - intros ->. reflexivity.
  - intros data Hbytes Hlen. rewrite Hbytes.
    apply Z.eqb_neq in Hlen. rewrite Hlen, andb_false_r. reflexivity.
Qed.

(** ** Colour mapping, further *)

(** X16. Colour mapping acts on each pixel on its own and keeps the shape
    of the frame.  In every mode but NONE all pixels come out opaque; in
    mode GREEN a pixel keeps only its gray value, in the green channel;
    in the modes HEAT and JET the look-up table is applied to that same
    gray value. *)
Theorem color_mapping_pixelwise (mode : IRMappingMode.t) (frame : Frame) :
  color_mapping mode frame = map (map (mapped_pixel mode)) frame /\
  map (@List.length Pixel) (color_mapping mode frame) =
    map (@List.length Pixel) frame /\
  (mode <> IRMappingMode.NONE ->
     Forall (Forall (fun p => alpha p = 255)) (color_mapping mode frame)).
Proof.
  assert (Heq : color_mapping mode frame = map (map (mapped_pixel mode)) frame).
  { unfold color_mapping, green_channel, cv2.COLOR_BGRA2GRAY,
      cv2.COLOR_BGR2BGRA, cv2.applyColorMap.
    destruct mode; cbn [IRMappingMode.eqb mapped_pixel].
    - rewrite <- (map_id frame) at 1. apply map_ext. intros row.
      rewrite <- (map_id row) at 1. reflexivity.
    - rewrite map_map. apply map_ext. intros row. rewrite map_map. reflexivity.
    - rewrite !map_map. apply map_ext. intros row. rewrite !map_map.
      apply map_ext. intros p. unfold mapped_pixel.
      destruct (colormap_hot (bgra2gray p)) as [[b g] r]. reflexivity.
    - rewrite !map_map. apply map_ext. intros row. rewrite !map_map.
      apply map_ext. intros p. unfold mapped_pixel.
      destruct (colormap_jet (bgra2gray p)) as [[b g] r]. reflexivity. }
  split; [exact Heq|]. rewrite Heq. split.
  - rewrite map_map. apply map_ext. intros row. apply length_map.
  - intros Hmode. apply Forall_map, Forall_forall. intros row _.
    apply Forall_map, Forall_forall. intros p _.
    destruct mode; cbn; [contradiction Hmode; reflexivity | reflexivity | |].
    + destruct (colormap_hot (bgra2gray p)) as [[b g] r]. reflexivity.
    + destruct (colormap_jet (bgra2gray p)) as [[b g] r]. reflexivity.
Qed.

(** ** Recording, further *)

(** X17. Starting a recording and stopping it at once, with a directory
    that can be made and a rate the writer takes: [stop_recording]
    returns the path [start_recording] returned, the controller is back
    in the state it was in, and outside there is one more finished video,
    opened at the computed rate and the current frame size, with no
    frame in it; no image file is written. *)
Theorem start_stop_recording_round_trip (s : Sys) (save_dir : string)
  (base_fps : Z) (now : string) :
  _is_recording (ctl s) = false ->
  _video_writer (ctl s) = None ->
  _video_path (ctl s) = None ->
  names_directory save_dir = true ->
  fits_double (actual_fps (_frame_filter (ctl s)) base_fps) = true ->
  let started := after (start_recording save_dir base_fps now) s in
  let stopped := after stop_recording started in
  ctl stopped = ctl s /\
  (exists path,
     result (start_recording save_dir base_fps now) s = Returns (Some path) /\
     result stop_recording started = Returns (Some path) /\
     released_writers (env stopped) =
       released_writers (env s) ++
       [{| vw_path := path;
           vw_fourcc := cv2.VideoWriter_fourcc "X" "V" "I" "D";
           vw_fps := actual_fps (_frame_filter (ctl s)) base_fps;
           vw_size := (_frame_width (ctl s), _frame_height (ctl s));
           vw_frames := [] |}]) /\
  fs_images (env stopped) = fs_images (env s) /\
  In save_dir (fs_dirs (env stopped)).
Proof.
  intros Hidle Hw Hp Hdir Hfits. cbv zeta. unfold result, after.
  rewrite (start_recording_effect s save_dir base_fps now Hidle), Hdir, Hfits.
  cbn [fst snd].
  rewrite stop_recording_when_recording by reflexivity.
  cbn [fst snd ctl env].
  open_state s. subst. cbn.
  split; [reflexivity|]. split.
  - eexists. repeat split.
  - split; [reflexivity|]. apply makedirs_makes.
Qed.

(** X18. What a recording receives.  While the controller runs and
    records, delivering bitmaps one after the other appends to the writer
    exactly the frames that convert and pass the filter, colour-mapped
    and without alpha, in the order of delivery; the writer's path and
    rate stay as they are. *)
Theorem recording_receives_forwarded_frames
  (arrivals : list (bool * SoftwareBitmap)) :
  forall (s : Sys) (vw : VideoWriter),
    _running (ctl s) = true ->
    _is_recording (ctl s) = true ->
    _video_writer (ctl s) = Some vw ->
    exists vw',
      _video_writer (ctl (run (map deliver arrivals) s)) = Some vw' /\
      vw_frames vw' =
        vw_frames vw ++
        recorded (_frame_filter (ctl s)) (_mapping_mode (ctl s)) arrivals /\
      vw_path vw' = vw_path vw /\
      vw_fps vw' = vw_fps vw.
Proof.
  induction arrivals as [|[flag bitmap] rest IH]; intros s vw Hrun Hrec Hvw.
  - exists vw. cbn. rewrite app_nil_r. repeat split. exact Hvw.
  - cbn [map run fold_left deliver perform fst snd recorded].
    change (fold_left (fun s0 call => after (perform call) s0)
              (map deliver rest) ?x) with (run (map deliver rest) x).
    unfold after at 1.
    rewrite (on_frame_arrived_ir_frame s flag bitmap Hrun).
    destruct (_convert_bitmap_to_frame bitmap) as [frame|].
    + destruct (passes (_frame_filter (ctl s)) flag).
      * rewrite update_frame_effect. cbn [snd ctl env].
        change (_is_recording (set_is_illuminated flag (ctl s)))
          with (_is_recording (ctl s)).
        change (_video_writer (set_is_illuminated flag (ctl s)))
          with (_video_writer (ctl s)).
        change (_mapping_mode (set_is_illuminated flag (ctl s)))
          with (_mapping_mode (ctl s)).
        rewrite Hrec, Hvw. cbn [option_map].
        match goal with
        | |- context [run (map deliver rest) ?t] =>
            destruct (IH t (VideoWriter_write
                              (cv2.COLOR_BGRA2BGR
                                 (color_mapping (_mapping_mode (ctl s)) frame))
                              vw))
              as (vw' & Hw' & Hframes & Hpath & Hfps);
              [exact Hrun | exact Hrec | reflexivity |]
        end.
        exists vw'. split; [exact Hw'|]. cbn in Hframes, Hpath, Hfps.
        rewrite Hframes, <- app_assoc. repeat split; assumption.
      * cbn [snd].
        match goal with
        | |- context [run (map deliver rest) ?t] =>
            destruct (IH t vw) as (vw' & Hw' & Hframes & Hpath & Hfps);
              [exact Hrun | exact Hrec | exact Hvw |]
        end.
        exists vw'. repeat split; assumption.
    + cbn [snd].
      match goal with
      | |- context [run (map deliver rest) ?t] =>
          destruct (IH t vw) as (vw' & Hw' & Hframes & Hpath & Hfps);
            [exact Hrun | exact Hrec | exact Hvw |]
      end.
      exists vw'. repeat split; assumption.
Qed.

(** ** Facts used by the application *)

Lemma select_device_valid_result (s : Sys) (index : Z) (exclusive : bool)
  (backend : CaptureBackend) :
  0 <= index < Z.of_nat (List.length (_devices (ctl s))) ->
  _current_device_index
    (ctl (after (select_device index exclusive backend) s)) = index /\
  result (select_device index exclusive backend) s =
    if capture_opens backend exclusive
    then Returns match frame_sources backend with
                 | [] => false
                 | _ :: _ => true
                 end
    else Raises.
Proof.
  intros Hin. unfold capture_opens.
  pose proof (index_check_passes s index Hin) as Hcheck.
  destruct (device_at_index _ _ Hin) as [device Hdev].
  unfold select_device, after, result, bind, self. cbv beta iota.
  rewrite Hcheck.
  destruct (_frame_reader (ctl s)) as [r|].
  - rewrite stop_effect. cbn [ctl env fst snd].
    replace (_devices _) with (_devices (ctl s))
      by (destruct (_is_recording (ctl s)); reflexivity).
    rewrite Hdev.
    unfold assign, try_except, initialize_with_settings_async, bind, self,
      raise, ret.
    cbn.
    destruct exclusive; cbn; answer_backend; split; reflexivity.
  - unfold ret. cbv beta iota. rewrite Hdev.
    unfold assign, try_except, initialize_with_settings_async, bind, self,
      raise, ret.
    cbn.
    destruct exclusive; cbn; answer_backend; split; reflexivity.
Qed.

Lemma start_effect (s : Sys) :
  start s =
    match _frame_reader (ctl s) with
    | None => (Returns false, s)
    | Some r =>
        (Returns true,
         {| ctl := set_frame_reader (Some (reader_start_async r))
                     (set_running true (ctl s));
            env := env s |})
    end.
Proof.
  unfold start. run_monad. destruct (_frame_reader (ctl s)); reflexivity.
Qed.

(** ** The buffer between the callback thread and the main loop *)

Lemma last_of_snoc {A} (xs : list A) (x d : A) : last (xs ++ [x]) d = x.
Proof.
  induction xs as [|y ys IH]; [reflexivity|].
  cbn [List.app]. destruct (ys ++ [x]) eqn:E.
  - destruct ys; discriminate E.
  - exact IH.
Qed.

Lemma firstn_of_snoc {A} (n : nat) (xs : list A) (x : A) :
  (n <= List.length xs)%nat -> firstn n (xs ++ [x]) = firstn n xs.
Proof.
  intros Hn. rewrite firstn_app.
  replace (n - List.length xs)%nat with 0%nat by lia.
  cbn. apply app_nil_r.
Qed.

Lemma threads_safe_initially : Threads.safe Threads.initially.
Proof.
  unfold Threads.safe, Threads.initially, Threads.of_buffer. cbn.
  repeat split; try lia; try contradiction; try discriminate.
Qed.

Ltac safe_parts :=
  unfold Threads.safe;
  cbn [Threads.queue Threads.last_frame Threads.callback Threads.reader
       Threads.published Threads.returned Threads.dropped
       Threads.set_callback Threads.set_reader Threads.set_queue
       Threads.publish Threads.give Threads.drop Threads.in_hand
       Queue.items Queue.maxsize].

Lemma threads_safe_callback_next (s : Threads.State) :
  Threads.safe s -> Threads.safe (Threads.callback_next s).
Proof.
  intros (Hmax & Hlen & Hdrop & Hput & Hhand & Hin & Hlast & Hret).
  unfold Threads.callback_next.
  destruct (Threads.callback s) as [|f|f|f|f|f] eqn:Hcb;
    cbn [Threads.in_hand] in Hhand.
  - unfold Threads.safe. rewrite Hcb. cbn [Threads.in_hand].
    repeat first [assumption | discriminate | split].
  - (* the assignment to _last_frame *)
    safe_parts.
    split; [exact Hmax|]. split; [exact Hlen|]. split; [exact Hdrop|].
    split; [discriminate|].
    split; [intros g Hg; injection Hg as <-; apply in_or_app; right; left;
            reflexivity|].
    split; [intros g Hg; apply in_or_app; left; apply Hin; exact Hg|].
    split; [rewrite map_app; cbn [map]; rewrite last_of_snoc; reflexivity|].
    intros value count Hvc. destruct (Hret value count Hvc) as [Hcount Hvalue].
    rewrite length_app. cbn. split; [lia|].
    destruct value as [g|]; [|exact Hvalue].
    rewrite firstn_of_snoc by exact Hcount. exact Hvalue.
  - safe_parts. repeat first [assumption | discriminate | split].
  - unfold Queue.empty.
    destruct (Queue.items (Threads.queue s)) eqn:Hitems; safe_parts;
      rewrite ?Hitems;
      repeat first [assumption | discriminate | split];
      try (cbn; lia); try (intros g []);
      try (intros g Hg; apply Hin; rewrite ?Hitems; exact Hg).
  - unfold Queue.get_nowait.
    destruct (Queue.items (Threads.queue s)) as [|g rest] eqn:Hitems;
      safe_parts; rewrite ?Hitems.
    + repeat first [assumption | discriminate | split];
        try (cbn; lia); intros g [].
    + try rewrite Hitems in Hlen. cbn in Hlen.
      repeat first [assumption | discriminate | split]; try lia.
      intros h Hh. apply Hin. rewrite ?Hitems. right. exact Hh.
  - (* put_nowait *)
    pose proof (Hput f eq_refl) as Hempty.
    unfold Queue.put_nowait, Queue.full. rewrite Hmax, Hempty. cbn.
    safe_parts.
    split; [reflexivity|]. split; [cbn; lia|]. split; [exact Hdrop|].
    split; [discriminate|]. split; [discriminate|].
    split; [intros g [<-|[]]; apply Hhand; reflexivity|].
    split; [exact Hlast|]. exact Hret.
Qed.

Lemma threads_safe_reader_next (s : Threads.State) :
  Threads.safe s -> Threads.safe (Threads.reader_next s).
Proof.
  intros (Hmax & Hlen & Hdrop & Hput & Hhand & Hin & Hlast & Hret).
  unfold Threads.reader_next.
  destruct (Threads.reader s) eqn:Hreader.
  - repeat first [assumption | split].
  - unfold Queue.get_nowait.
    destruct (Queue.items (Threads.queue s)) as [|g rest] eqn:Hitems;
      safe_parts; rewrite ?Hitems.
    + repeat first [assumption | split]; try (cbn; lia); intros g [].
    + try rewrite Hitems in Hlen. cbn in Hlen.
      split; [exact Hmax|]. split; [lia|]. split; [exact Hdrop|].
      split; [intros f Hf; destruct rest; [reflexivity | cbn in Hlen; lia]|].
      split; [exact Hhand|].
      split; [intros h Hh; apply Hin; rewrite ?Hitems; right; exact Hh|].
      split; [exact Hlast|].
      intros value count Hvc. apply in_app_or in Hvc.
      destruct Hvc as [Hvc|[Hvc|[]]]; [apply Hret; exact Hvc|].
      injection Hvc as <- <-. split; [lia|].
      rewrite firstn_all. apply Hin. rewrite ?Hitems. left. reflexivity.
  - safe_parts.
    split; [exact Hmax|]. split; [exact Hlen|]. split; [exact Hdrop|].
    split; [exact Hput|]. split; [exact Hhand|]. split; [exact Hin|].
    split; [exact Hlast|].
    intros value count Hvc. apply in_app_or in Hvc.
    destruct Hvc as [Hvc|[Hvc|[]]]; [apply Hret; exact Hvc|].
    injection Hvc as <- <-. split; [lia|].
    rewrite Hlast, firstn_all.
    destruct (Threads.published s) as [|g gs] eqn:Hpub using rev_ind;
      [reflexivity|].
    rewrite map_app. cbn [map]. rewrite last_of_snoc.
    apply in_or_app. right. left. reflexivity.
Qed.

Lemma threads_safe_advance (s : Threads.State) (move : Threads.Move) :
  Threads.safe s -> Threads.safe (Threads.advance s move).
Proof.
  intros Hs. destruct move as [frame| | | |]; cbn [Threads.advance].
  - destruct Hs as (Hmax & Hlen & Hdrop & Hput & Hhand & Hin & Hlast & Hret).
    destruct (Threads.callback s) eqn:Hcb; safe_parts; rewrite ?Hcb;
      cbn [Threads.in_hand];
      repeat first [assumption | discriminate | split].
  - apply threads_safe_callback_next. exact Hs.
  - destruct Hs as (Hmax & Hlen & Hdrop & Hput & Hhand & Hin & Hlast & Hret).
    destruct (Threads.callback s) eqn:Hcb; safe_parts; rewrite ?Hcb;
      cbn [Threads.in_hand];
      repeat first [assumption | discriminate | split].
  - destruct Hs as (Hmax & Hlen & Hdrop & Hput & Hhand & Hin & Hlast & Hret).
    destruct (Threads.reader s) eqn:Hreader; safe_parts;
      repeat first [assumption | split].
  - apply threads_safe_reader_next. exact Hs.
Qed.

Lemma threads_safe_interleave (schedule : list Threads.Move) :
  forall s, Threads.safe s -> Threads.safe (Threads.interleave schedule s).
Proof.
  induction schedule as [|move rest IH]; intros s Hs; cbn.
  - exact Hs.
  - apply IH. apply threads_safe_advance. exact Hs.
Qed.

(** A callback that is let run: from the test of the queue it empties
    the queue, one test and one [get_nowait] per frame, and puts its
    frame. *)
Lemma threads_callback_drains (k : nat) :
  forall (s : Threads.State) (frame : Frame),
    Threads.callback s = Threads.at_empty frame ->
    List.length (Queue.items (Threads.queue s)) = k ->
    Threads.interleave (repeat Threads.callback_step (2 * k + 2)) s =
      Threads.set_callback Threads.waiting
        (Threads.set_queue
           {| Queue.maxsize := Queue.maxsize (Threads.queue s);
              Queue.items := [frame] |} s).
Proof.
  induction k as [|k IH]; intros s frame Hcb Hlen.
  - destruct s as [[m its] l c r p ret d]. cbn in Hcb, Hlen. subst c.
    destruct its; [|discriminate Hlen].
    cbn. rewrite put_into_empty. reflexivity.
  - replace (2 * S k + 2)%nat with (S (S (2 * k + 2))) by lia.
    cbn [repeat Threads.interleave fold_left Threads.advance].
    destruct s as [[m its] l c r p ret d]. cbn in Hcb, Hlen. subst c.
    destruct its as [|g rest]; [discriminate Hlen|].
    match goal with
    | |- fold_left Threads.advance ?moves ?t = ?rhs =>
        let t' := eval cbn in t in
        change (Threads.interleave moves t' = rhs)
    end.
    rewrite IH with (frame := frame) by (cbn in *; congruence).
    reflexivity.
Qed.

Lemma threads_callback_rests (n : nat) (s : Threads.State) :
  Threads.callback s = Threads.waiting ->
  Threads.interleave (repeat Threads.callback_step n) s = s.
Proof.
  intros Hcb. induction n as [|n IH]; [reflexivity|].
  cbn [repeat Threads.interleave fold_left Threads.advance].
  unfold Threads.callback_next. rewrite Hcb. exact IH.
Qed.

(** Let run alone, the callback does to the buffer what [_update_frame]
    does. *)
Lemma threads_run_update_frame (s : Sys) (frame : Frame) (n : nat) :
  (2 * List.length (Queue.items (_frame_queue (ctl s))) + 4 <= n)%nat ->
  let mapped := color_mapping (_mapping_mode (ctl s)) frame in
  let t :=
    Threads.interleave
      (Threads.frame_ready mapped :: repeat Threads.callback_step n)
      (Threads.of_buffer (_frame_queue (ctl s)) (_last_frame (ctl s))) in
  (Threads.queue t, Threads.last_frame t) =
    buffer (after (_update_frame frame) s) /\
  Threads.callback t = Threads.waiting.
Proof.
  intros Hn mapped t. subst t.
  unfold after. rewrite update_frame_effect. fold mapped.
  unfold buffer. cbn [snd ctl _frame_queue _last_frame set_frame_queue
                        set_video_writer set_last_frame].
  remember (List.length (Queue.items (_frame_queue (ctl s)))) as k eqn:Hk.
  assert (Hmoves :
    repeat Threads.callback_step n =
      Threads.callback_step :: Threads.callback_step
        :: (repeat Threads.callback_step (2 * k + 2)
            ++ repeat Threads.callback_step (n - (2 * k + 4)))).
  { replace n with (2 + ((2 * k + 2) + (n - (2 * k + 4))))%nat at 1 by lia.
    rewrite (repeat_app _ 2), (repeat_app _ (2 * k + 2)). reflexivity. }
  rewrite Hmoves. unfold Threads.interleave.
  cbn [fold_left Threads.advance].
  rewrite fold_left_app.
  match goal with
  | |- context [fold_left Threads.advance (repeat _ (2 * k + 2)) ?t] =>
      let t' := eval cbn in t in
      change (fold_left Threads.advance (repeat Threads.callback_step
                                           (2 * k + 2)) t)
        with (Threads.interleave (repeat Threads.callback_step (2 * k + 2)) t')
  end.
  rewrite threads_callback_drains with (frame := mapped) by (cbn; auto).
  change (fold_left Threads.advance ?moves ?t)
    with (Threads.interleave moves t).
  rewrite threads_callback_rests by reflexivity.
  split; reflexivity.
Qed.

(** And the main loop, let run alone, gets from [get_frame] what the
    method returns. *)
Lemma threads_run_get_frame (s : Sys) :
  let t :=
    Threads.interleave
      [Threads.get_frame_called; Threads.reader_step; Threads.reader_step]
      (Threads.of_buffer (_frame_queue (ctl s)) (_last_frame (ctl s))) in
  map (fun entry => Returns (fst entry)) (Threads.returned t) =
    [result get_frame s] /\
  (Threads.queue t, Threads.last_frame t) = buffer (after get_frame s) /\
  Threads.reader t = Threads.elsewhere.
Proof.
  cbv zeta. unfold result, after. rewrite get_frame_effect.
  unfold buffer, Threads.interleave.
  cbn [fold_left Threads.advance Threads.of_buffer Threads.reader].
  unfold Threads.reader_next at 2. cbn [Threads.reader Threads.set_reader
    Threads.queue].
  unfold Queue.get_nowait.
  destruct s as [c w]. cbn [ctl].
  destruct (_frame_queue c) as [m its] eqn:Hq. cbn [Queue.items Queue.maxsize].
  destruct its as [|f rest]; cbn; rewrite ?Hq; repeat split; reflexivity.
Qed.

(** X12. The latest-frame buffer between the callback thread and the
    main loop.  [get_frame] takes no lock, so its steps fall anywhere
    between the steps of [_update_frame]; the recording block may raise
    and end a callback early.  Whatever the order of the steps: the queue
    never holds more than one frame, [put_nowait] never finds it full,
    [_last_frame] is the frame published last, every frame [get_frame]
    returns had been published when it returned, and [get_frame] returns
    [None] only while no frame was yet published.  A thread let run
    alone does what the method does in the model of one thread. *)
Theorem buffer_between_threads :
  (forall schedule : list Threads.Move,
     let t := Threads.interleave schedule Threads.initially in
     (List.length (Queue.items (Threads.queue t)) <= 1)%nat /\
     Threads.dropped t = 0%nat /\
     Threads.last_frame t = last (map Some (Threads.published t)) None /\
     forall (value : option Frame) (count : nat),
       In (value, count) (Threads.returned t) ->
       match value with
       | Some frame => In frame (firstn count (Threads.published t))
       | None => count = 0%nat
       end) /\
  (forall (s : Sys) (frame : Frame) (n : nat),
     (2 * List.length (Queue.items (_frame_queue (ctl s))) + 4 <= n)%nat ->
     let t :=
       Threads.interleave
         (Threads.frame_ready (color_mapping (_mapping_mode (ctl s)) frame)
            :: repeat Threads.callback_step n)
         (Threads.of_buffer (_frame_queue (ctl s)) (_last_frame (ctl s))) in
     (Threads.queue t, Threads.last_frame t) =
       buffer (after (_update_frame frame) s)) /\
  (forall s : Sys,
     let t :=
       Threads.interleave
         [Threads.get_frame_called; Threads.reader_step; Threads.reader_step]
         (Threads.of_buffer (_frame_queue (ctl s)) (_last_frame (ctl s))) in
     map (fun entry => Returns (fst entry)) (Threads.returned t) =
       [result get_frame s] /\
     (Threads.queue t, Threads.last_frame t) = buffer (after get_frame s)).
Proof.
  split; [|split].
  - intros schedule t.
    destruct (threads_safe_interleave schedule _ threads_safe_initially)
      as (_ & Hlen & Hdrop & _ & _ & _ & Hlast & Hret).
    fold t in Hlen, Hdrop, Hlast, Hret.
    split; [exact Hlen|]. split; [exact Hdrop|]. split; [exact Hlast|].
    intros value count Hvc. exact (proj2 (Hret value count Hvc)).
  - intros s frame n Hn.
    exact (proj1 (threads_run_update_frame s frame n Hn)).
  - intros s. destruct (threads_run_get_frame s) as (Hret & Hbuf & _).
    split; [exact Hret | exact Hbuf].
Qed.

(** The order of the steps matters to what the main loop sees.  Here
    [get_frame] finds the queue empty; the callback publishes and queues
    A, and assigns B to [_last_frame]; [get_frame] returns B; the next
    [get_frame] then takes A from the queue: the older frame after the
    newer one. *)
Example reader_can_step_back :
  map fst
    (Threads.returned
       (Threads.interleave
          [Threads.get_frame_called; Threads.reader_step;
           Threads.frame_ready frame_A;
           Threads.callback_step; Threads.callback_step;
           Threads.callback_step; Threads.callback_step;
           Threads.frame_ready frame_B; Threads.callback_step;
           Threads.reader_step;
           Threads.get_frame_called; Threads.reader_step]
          Threads.initially)) =
    [Some frame_B; Some frame_A].
Proof. reflexivity. Qed.

End ControllerFacts.

(** ** The theorems at concrete inputs *)

Lemma filter_assignments_do_not_end_recording (value : IRFrameFilter.t) :
  ends_recording (set_filter value) = false /\
  ends_recording next_filter = false.
Proof. split; reflexivity. Qed.

(** [start_recording(base_fps=15)]: 15 with filter NONE, 7 with RAW and with
    ILLUMINATED. *)
Lemma start_recording_15 (filter : IRFrameFilter.t) :
  actual_fps filter 15 =
    match filter with IRFrameFilter.NONE => 15 | _ => 7 end.
Proof. destruct filter; reflexivity. Qed.

Lemma start_recording_rate_witness :
  _is_recording (ctl after_illuminated_frame) = false /\
  names_directory "videos" = true /\
  fits_double 7 = true /\
  (exists vw,
     _video_writer
       (ctl (after (start_recording (P := demo_platform)
                      "videos" 15 "20240101_120000")
               after_illuminated_frame)) = Some vw /\
     vw_fps vw = 7) /\
  names_directory EmptyString = false /\
  result (start_recording (P := demo_platform)
            EmptyString 15 "20240101_120000") after_illuminated_frame = Raises.
Proof.
  split; [reflexivity|]. split; [reflexivity|]. split; [reflexivity|].
  split; [|split; [reflexivity|]].
  - destruct (proj1 (start_recording_rate (P := demo_platform)
                       after_illuminated_frame
                       "videos" 15 "20240101_120000" eq_refl)
                eq_refl eq_refl)
      as (vw & Hvw & _ & _ & Hfps).
    exists vw. split; [exact Hvw | exact Hfps].
  - exact (proj1 (proj2 (start_recording_rate (P := demo_platform)
                           after_illuminated_frame
                           EmptyString 15 "20240101_120000" eq_refl)
                    (or_introl eq_refl))).
Defined.

(** C2 as the claim states it fails: with filter NONE and the base rate
    10^400, which fits no double, [start_recording] raises in
    [cv2.VideoWriter]; no stream is opened at that rate, or at any. *)
Lemma start_recording_rate_beyond_doubles :
  _is_recording (ctl at_startup) = false /\
  _frame_filter (ctl at_startup) = IRFrameFilter.NONE /\
  result (start_recording (P := demo_platform)
            "videos" (10 ^ 400) "20240101_120000") at_startup = Raises /\
  _video_writer
    (ctl (after (start_recording (P := demo_platform)
                   "videos" (10 ^ 400) "20240101_120000") at_startup)) = None /\
  ~ (exists vw,
       _video_writer
         (ctl (after (start_recording (P := demo_platform)
                        "videos" (10 ^ 400) "20240101_120000") at_startup)) =
         Some vw /\
       vw_fps vw = 10 ^ 400).
Proof.
  assert (Hwriter :
    _video_writer
      (ctl (after (start_recording (P := demo_platform)
                     "videos" (10 ^ 400) "20240101_120000") at_startup)) = None)
    by (vm_compute; reflexivity).
  split; [reflexivity|]. split; [reflexivity|].
  split; [vm_compute; reflexivity|]. split; [exact Hwriter|].
  intros (vw & Hvw & _). rewrite Hwriter in Hvw. discriminate Hvw.
Qed.

Lemma recording_rate_fixed_witness :
  result (start_recording (P := demo_platform)
            "videos" 15 "20240101_120000") at_startup =
    Returns (Some "videos/IR_Video_20240101_120000_OFF.avi") /\
  exists opened current,
    _video_writer
      (ctl (after (start_recording (P := demo_platform)
                     "videos" 15 "20240101_120000") at_startup)) =
      Some opened /\
    _video_writer
      (ctl (run (P := demo_platform)
              [set_filter IRFrameFilter.RAW; next_filter; call_get_frame]
              (after (start_recording (P := demo_platform)
                        "videos" 15 "20240101_120000") at_startup))) =
      Some current /\
    vw_fps current = vw_fps opened /\
    vw_path current = vw_path opened.
Proof.
  split; [reflexivity|].
  destruct (recording_rate_fixed (P := demo_platform) at_startup
              "videos" 15 "20240101_120000"
              [set_filter IRFrameFilter.RAW; next_filter; call_get_frame]
              "videos/IR_Video_20240101_120000_OFF.avi"
              eq_refl eq_refl)
    as (opened & current & H1 & H2 & H3 & H4 & _).
  exists opened, current. repeat split; assumption.
Defined.

Lemma latest_frame_buffer_semantics_witness :
  reads 2
    (after (_update_frame (P := demo_platform) frame_B)
       (after (_update_frame (P := demo_platform) frame_A) at_startup)) =
    [Returns (Some frame_B); Returns (Some frame_B)] /\
  result get_frame
    (run (P := demo_platform) [call_start; call_get_frame; next_filter]
       at_startup) = Returns None /\
  no_frame_yet at_startup.
Proof.
  pose proof (latest_frame_buffer_semantics (P := demo_platform))
    as (Hwrite & _ & Hnone & Hstart & _).
  split; [|split].
  - destruct (Hwrite at_startup frame_A frame_B 1%nat) as (_ & _ & Hreads).
    exact Hreads.
  - exact (Hstart [call_start; call_get_frame; next_filter] eq_refl).
  - apply (proj1 (Hnone at_startup)). reflexivity.
Defined.

Lemma recording_control_misuse_witness :
  stop_recording at_startup = (Returns None, at_startup) /\
  result stop_recording recording_sys = Returns (Some (vw_path demo_writer)) /\
  _is_recording (ctl (after stop_recording recording_sys)) = false /\
  start_recording (P := demo_platform) "videos" 15 "20240101_120001"
    recording_sys = (Returns None, recording_sys) /\
  result stop_recording
    (run (P := demo_platform) [next_filter]
       (after (start_recording (P := demo_platform)
                 "videos" 15 "20240101_120000") at_startup)) =
    Returns (Some "videos/IR_Video_20240101_120000_OFF.avi").
Proof.
  pose proof (recording_control_misuse (P := demo_platform))
    as (Hidle & Hactive & Hagain & Hpath).
  split; [exact (Hidle at_startup eq_refl)|].
  destruct (Hactive recording_sys eq_refl) as (Hres & Hrec & _).
  split; [exact Hres|]. split; [exact Hrec|].
  split; [exact (Hagain recording_sys "videos" 15 "20240101_120001" eq_refl)|].
  destruct (Hpath at_startup "videos" 15 "20240101_120000" [next_filter]
              "videos/IR_Video_20240101_120000_OFF.avi" eq_refl eq_refl)
    as (vw & _ & _ & Hstop & _).
  exact Hstop.
Defined.

Lemma apply_color_mapping_none_identity_witness :
  _mapping_mode (ctl at_startup) = IRMappingMode.NONE /\
  _apply_color_mapping (P := demo_platform) frame_A at_startup =
    (Returns frame_A, at_startup).
Proof.
  split; [reflexivity|].
  exact (apply_color_mapping_none_identity (P := demo_platform)
           at_startup frame_A eq_refl).
Defined.

(** C7 as the claim states it fails: index 1 of the list [A, B] is valid,
    and with a backend that initialises the capture and offers no frame
    source [select_device] returns false, not true. *)
Lemma select_device_valid_index_can_fail :
  _devices (ctl with_A_B) = [device_A; device_B] /\
  0 <= 1 < Z.of_nat (List.length (_devices (ctl with_A_B))) /\
  result (select_device 1 false sourceless_backend) with_A_B = Returns false /\
  ~ (result (select_device 1 false sourceless_backend) with_A_B = Returns true /\
     _current_device_index
       (ctl (after (select_device 1 false sourceless_backend) with_A_B)) = 1).
Proof.
  split; [reflexivity|]. split; [cbn; lia|]. split; [reflexivity|].
  intros [Hresult _]. vm_compute in Hresult. discriminate Hresult.
Qed.

Lemma select_device_outcome_witness :
  select_device 5 false good_backend with_A_B = (Returns false, with_A_B) /\
  _current_device_index
    (ctl (after (select_device 1 false good_backend) with_A_B)) = 1 /\
  result (select_device 1 false good_backend) with_A_B = Returns true /\
  result (select_device 1 false sourceless_backend) with_A_B = Returns false.
Proof.
  assert (Hout : 5 < 0 \/ Z.of_nat (List.length (_devices (ctl with_A_B))) <= 5)
    by (right; cbn; lia).
  assert (Hin : 0 <= 1 < Z.of_nat (List.length (_devices (ctl with_A_B))))
    by (cbn; lia).
  split; [exact (proj1 (select_device_outcome with_A_B 5 false good_backend)
                   Hout)|].
  destruct (proj2 (select_device_outcome with_A_B 1 false good_backend) Hin)
    as [Hindex Hresult].
  split; [exact Hindex|]. split; [exact Hresult|].
  exact (proj2 (proj2 (select_device_outcome with_A_B 1 false
                         sourceless_backend) Hin)).
Defined.

Lemma stop_ends_recording_witness :
  _is_recording (ctl recording_sys) = true /\
  _is_recording (ctl (after stop recording_sys)) = false /\
  _video_writer (ctl (after stop recording_sys)) = None /\
  _frame_reader (ctl (after stop recording_sys)) = None /\
  _media_capture (ctl (after stop recording_sys)) = None /\
  released_writers (env (after stop recording_sys)) = [demo_writer].
Proof.
  split; [reflexivity|].
  destruct (stop_ends_recording recording_sys)
    as (_ & _ & Hrec & Hreader & Hcapture & Hwriter).
  destruct (Hwriter eq_refl) as (_ & Hvw & _ & Hreleased).
  split; [exact Hrec|]. split; [exact Hvw|]. split; [exact Hreader|].
  split; [exact Hcapture|]. exact (Hreleased demo_writer eq_refl).
Defined.

Lemma take_photo_result_witness :
  take_photo (P := demo_platform) "photos" "20240101_120000" at_startup =
    (Returns None, at_startup) /\
  names_directory "photos" = true /\
  result (take_photo (P := demo_platform) "photos" "20240101_120000")
    (after (_update_frame (P := demo_platform) frame_A) at_startup) =
    Returns (Some "photos/IR_Photo_20240101_120000.jpg") /\
  result (take_photo (P := demo_platform) "photos" "20240101_120000")
    (run (P := demo_platform) [call_start; next_mapping] at_startup) =
    Returns None.
Proof.
  pose proof (take_photo_result (P := demo_platform))
    as (Hphoto & Hstart & _).
  split; [|split; [reflexivity|split]].
  - destruct (Hphoto at_startup "photos" "20240101_120000") as (_ & Hnone & _).
    exact (Hnone eq_refl).
  - destruct (Hphoto (after (_update_frame (P := demo_platform) frame_A)
                        at_startup) "photos" "20240101_120000")
      as (_ & _ & Hsome).
    destruct (proj1 (Hsome frame_A eq_refl) eq_refl)
      as (path & Hres & Hpath & _).
    rewrite Hres, Hpath. reflexivity.
  - exact (Hstart [call_start; next_mapping] "photos" "20240101_120000"
             eq_refl).
Defined.

(** C10 as the claim states it fails: there is a last frame, and for the
    empty path [os.makedirs] raises, so [take_photo] returns no path and
    writes no file. *)
Lemma take_photo_empty_path_raises :
  _last_frame
    (ctl (after (_update_frame (P := demo_platform) frame_A) at_startup)) =
    Some frame_A /\
  take_photo (P := demo_platform) EmptyString "20240101_120000"
    (after (_update_frame (P := demo_platform) frame_A) at_startup) =
    (Raises, after (_update_frame (P := demo_platform) frame_A) at_startup) /\
  ~ (exists path,
       result (take_photo (P := demo_platform) EmptyString "20240101_120000")
         (after (_update_frame (P := demo_platform) frame_A) at_startup) =
         Returns (Some path)).
Proof.
  split; [reflexivity|]. split; [reflexivity|].
  intros [path Hpath]. vm_compute in Hpath. discriminate Hpath.
Qed.

(** * The control panel and the application *)

Section InterfaceFacts.

Context {P : Platform} {U : UiPlatform}.

(** ** Buttons *)

Lemma contains_iff {A} (b : Button.t A) (px py : Z) :
  Button.contains b px py = true <->
  Button.x b <= px <= Button.x b + Button.width b /\
  Button.y b <= py <= Button.y b + Button.height b.
Proof.
  unfold Button.contains.
  rewrite !andb_true_iff, !Z.leb_le. tauto.
Qed.

(** X19. The buttons [add_button] lays out never overlap: a point that
    lies in the button given to a panel holding [i] buttons and in the
    one given to a panel holding [j] buttons forces [i = j].  Each such
    button is 100 wide and 35 high, five to a row. *)
Theorem grid_buttons_do_not_overlap {A} (offset : Z) (i j : nat)
  (label_i label_j : string) (act_i act_j : A) (px py : Z) :
  Button.contains (ControlPanel.grid_button offset i label_i act_i) px py
    = true ->
  Button.contains (ControlPanel.grid_button offset j label_j act_j) px py
    = true ->
  i = j.
Proof.
  rewrite !contains_iff. unfold ControlPanel.grid_button, Button.__init__.
  cbn [Button.x Button.y Button.width Button.height].
  unfold Layout.BUTTON_MARGIN, Layout.BUTTON_WIDTH, Layout.BUTTON_HEIGHT.
  intros [Hxi Hyi] [Hxj Hyj].
  pose proof (Z.div_mod (Z.of_nat i) 5 ltac:(lia)) as Hi.
  pose proof (Z.div_mod (Z.of_nat j) 5 ltac:(lia)) as Hj.
  pose proof (Z.mod_pos_bound (Z.of_nat i) 5 ltac:(lia)) as Hbi.
  pose proof (Z.mod_pos_bound (Z.of_nat j) 5 ltac:(lia)) as Hbj.
  lia.
Qed.

(** X20. [handle_mouse] over a list of buttons.  Whether or not the
    button is pressed, every button it visits gets its hover flag set to
    whether the pointer is in it, and no button is added, dropped or
    moved.  Without a press no action runs.  With a press the actions of
    exactly the buttons under the pointer run, once each and in panel
    order, up to the first that raises; the buttons after that one are
    not visited and keep their hover flag. *)
Theorem visit_buttons_runs_actions_under_pointer {A S}
  (run : A -> S -> Outcome unit * S) (px py : Z) (clicked : bool)
  (bs : list (Button.t A)) (s : S) :
  let r := ControlPanel.visit_buttons run px py clicked bs s in
  (fst r, snd (snd r)) =
    (if clicked
     then run_actions run (map Button.action (under_pointer px py bs)) s
     else (Returns tt, s)) /\
  (fst r = Returns tt ->
     fst (snd r) =
       map (fun b => Button.set_hover (Button.contains b px py) b) bs) /\
  map (fun b => (Button.x b, Button.y b, Button.width b, Button.height b,
                 Button.text b, Button.action b, Button.active b))
      (fst (snd r)) =
  map (fun b => (Button.x b, Button.y b, Button.width b, Button.height b,
                 Button.text b, Button.action b, Button.active b)) bs /\
  exists visited : nat,
    fst (snd r) =
      map (fun b => Button.set_hover (Button.contains b px py) b)
        (firstn visited bs)
      ++ skipn visited bs /\
    (fst r = Returns tt -> visited = List.length bs).
Proof.
  revert s. induction bs as [|b rest IH]; intros s; cbn zeta.
  - cbn. destruct clicked; repeat split; exists 0%nat; split; reflexivity.
  - cbn [ControlPanel.visit_buttons under_pointer filter].
    change (Button.hover (Button.set_hover (Button.contains b px py) b))
      with (Button.contains b px py).
    change (Button.action (Button.set_hover (Button.contains b px py) b))
      with (Button.action b).
    destruct clicked; cbn [andb].
    + destruct (Button.contains b px py) eqn:Hin;
        cbn [map run_actions].
      * destruct (run (Button.action b) s) as [[[]|] s1].
        -- specialize (IH s1). cbv zeta in IH. cbn [andb] in IH.
           fold (under_pointer px py rest).
           destruct (ControlPanel.visit_buttons run px py true rest s1)
             as [o [rest' s2]].
           cbn [fst snd] in *.
           destruct IH as (Hrun & Hhover & Hsame & k & Hk & Hall).
           split; [exact Hrun|]. split; [|split].
           ++ intros Ho. cbn [map]. rewrite (Hhover Ho), Hin. reflexivity.
           ++ cbn [map]. rewrite Hsame. reflexivity.
           ++ exists (Datatypes.S k). cbn [firstn skipn map List.app List.length].
              rewrite Hin, Hk. split; [reflexivity|].
              intros Ho. rewrite (Hall Ho). reflexivity.
        -- cbn [fst snd]. split; [reflexivity|].
           split; [discriminate|]. split; [reflexivity|].
           exists 1%nat. cbn [firstn skipn map List.app]. rewrite Hin.
           split; [reflexivity | discriminate].
      * specialize (IH s). cbv zeta in IH.
        fold (under_pointer px py rest).
        destruct (ControlPanel.visit_buttons run px py true rest s)
          as [o [rest' s2]].
        cbn [fst snd] in *.
        destruct IH as (Hrun & Hhover & Hsame & k & Hk & Hall).
        split; [exact Hrun|]. split; [|split].
        -- intros Ho. cbn [map]. rewrite (Hhover Ho), Hin. reflexivity.
        -- cbn [map]. rewrite Hsame. reflexivity.
        -- exists (Datatypes.S k). cbn [firstn skipn map List.app List.length].
           rewrite Hin, Hk. split; [reflexivity|].
           intros Ho. rewrite (Hall Ho). reflexivity.
    + specialize (IH s). cbv zeta in IH.
      destruct (ControlPanel.visit_buttons run px py false rest s)
        as [o [rest' s2]].
      cbn [fst snd] in *.
      destruct IH as (Hrun & Hhover & Hsame & k & Hk & Hall).
      split; [exact Hrun|]. split; [|split].
      * intros Ho. cbn [map]. rewrite (Hhover Ho). reflexivity.
      * cbn [map]. rewrite Hsame. reflexivity.
      * exists (Datatypes.S k). cbn [firstn skipn map List.app List.length].
        rewrite Hk. split; [reflexivity|].
        intros Ho. rewrite (Hall Ho). reflexivity.
Qed.

(** ** The panel of the application *)

Lemma none_under_pointer {A} (px py : Z) (bs : list (Button.t A)) :
  (forall k b, nth_error bs k = Some b -> Button.contains b px py = false) ->
  under_pointer px py bs = [].
Proof.
  induction bs as [|b rest IH]; intros Hnone; cbn; [reflexivity|].
  rewrite (Hnone 0%nat b eq_refl). apply IH.
  intros k b' Hk. apply (Hnone (S k) b' Hk).
Qed.

(** Among buttons that do not overlap, the pointer is in one at most. *)
Lemma one_under_pointer {A} (px py : Z) (bs : list (Button.t A)) :
  forall (i : nat) (b : Button.t A),
    buttons_apart bs ->
    nth_error bs i = Some b ->
    Button.contains b px py = true ->
    under_pointer px py bs = [b].
Proof.
  induction bs as [|b0 rest IH]; intros i b Hapart Hi Hin.
  - destruct i; discriminate Hi.
  - assert (Hrest : buttons_apart rest).
    { intros k l bk bl qx qy Hk Hl Hbk Hbl.
      assert (E : S k = S l)
        by (apply (Hapart (S k) (S l) bk bl qx qy); assumption).
      injection E as E. exact E. }
    destruct i as [|i]; cbn in Hi.
    + injection Hi as ->. cbn. rewrite Hin. f_equal.
      apply none_under_pointer. intros k b' Hk.
      destruct (Button.contains b' px py) eqn:Hb'; [|reflexivity].
      assert (E : 0%nat = S k)
        by (apply (Hapart 0%nat (S k) b b' px py); auto).
      discriminate E.
    + cbn. destruct (Button.contains b0 px py) eqn:Hb0.
      * assert (E : 0%nat = S i)
          by (apply (Hapart 0%nat (S i) b0 b px py); auto).
        discriminate E.
      * apply (IH i b Hrest Hi Hin).
Qed.

Ltac nth_cases i :=
  destruct i as [|[|[|[|[|i]]]]]; cbn in *;
  try match goal with H : nth_error [] _ = Some _ |- _ =>
        destruct i; discriminate H end;
  try discriminate.

Lemma setup_ui_buttons (app : IRCameraApp) :
  let multi := 1 <? Z.of_nat (List.length (_devices (ctl (controller app)))) in
  let panel_height :=
    if multi then Layout.CONTROL_PANEL_HEIGHT_2ROWS
    else Layout.CONTROL_PANEL_HEIGHT in
  let top := window_height app - panel_height in
  exists panel,
    control_panel (_setup_ui app) = Some panel /\
    ControlPanel.y_offset panel = top /\
    ControlPanel.height panel = panel_height /\
    ControlPanel.width panel = window_width app /\
    ControlPanel.buttons panel =
      [Button.__init__ 5 (top + 5) 100 35 "Photo" do_photo;
       Button.__init__ 110 (top + 5) 100 35 "Record" do_record;
       Button.__init__ 215 (top + 5) 100 35 "Filter: OFF" do_filter;
       Button.__init__ 320 (top + 5) 100 35 "Color: OFF" do_color]
      ++ (if multi
          then [Button.__init__ 5 (top + 45) (window_width app - 10) 35
                  "Device" do_device]
          else []).
Proof.
  cbv zeta. unfold _setup_ui.
  destruct (1 <? Z.of_nat (List.length (_devices (ctl (controller app)))));
    eexists; cbn [control_panel];
    (split; [reflexivity|]);
    unfold ControlPanel.add_button, ControlPanel.add_button_at,
      ControlPanel.grid_button, ControlPanel.append_button,
      ControlPanel.__init__, Button.__init__;
    cbn; unfold Layout.CONTROL_PANEL_HEIGHT_2ROWS,
      Layout.CONTROL_PANEL_HEIGHT, Layout.BUTTON_MARGIN, Layout.BUTTON_WIDTH,
      Layout.BUTTON_HEIGHT;
    repeat split;
    repeat match goal with
           | |- _ :: _ = _ :: _ => apply f_equal2
           | |- Button.Build_t _ _ _ _ _ _ _ _ _ = _ => f_equal; lia
           end;
    reflexivity.
Qed.

Lemma panel_buttons_apart (top width : Z) (multi : bool) :
  buttons_apart
    ([Button.__init__ 5 (top + 5) 100 35 "Photo" do_photo;
      Button.__init__ 110 (top + 5) 100 35 "Record" do_record;
      Button.__init__ 215 (top + 5) 100 35 "Filter: OFF" do_filter;
      Button.__init__ 320 (top + 5) 100 35 "Color: OFF" do_color]
     ++ (if multi
         then [Button.__init__ 5 (top + 45) (width - 10) 35
                 "Device" do_device]
         else [])).
Proof.
  intros i j bi bj px py Hi Hj Hbi Hbj.
  apply contains_iff in Hbi, Hbj.
  destruct multi;
    destruct i as [|[|[|[|[|i]]]]]; cbn in Hi; try discriminate Hi;
    try (destruct i; discriminate Hi);
    destruct j as [|[|[|[|[|j]]]]]; cbn in Hj; try discriminate Hj;
    try (destruct j; discriminate Hj);
    injection Hi as <-; injection Hj as <-;
    cbn in Hbi, Hbj; first [reflexivity | lia].
Qed.

(** X21. The panel [_setup_ui] builds: the buttons Photo, Record, Filter
    and Color in one row, and below them a Device button as wide as the
    window when more than one device is known; the references the
    application keeps point to those buttons.  No two buttons overlap,
    and in a window at least [MIN_WINDOW_WIDTH] wide every button lies
    inside the panel, which takes the bottom of the window.  The
    controller is not touched. *)
Theorem setup_ui_layout (app : IRCameraApp) :
  let multi := 1 <? Z.of_nat (List.length (_devices (ctl (controller app)))) in
  exists panel,
    control_panel (_setup_ui app) = Some panel /\
    controller (_setup_ui app) = controller app /\
    map Button.action (ControlPanel.buttons panel) =
      [do_photo; do_record; do_filter; do_color]
      ++ (if multi then [do_device] else []) /\
    map Button.text (ControlPanel.buttons panel) =
      ["Photo"; "Record"; "Filter: OFF"; "Color: OFF"]
      ++ (if multi then ["Device"] else []) /\
    btn_record (_setup_ui app) = Some 1%nat /\
    btn_filter (_setup_ui app) = Some 2%nat /\
    btn_color (_setup_ui app) = Some 3%nat /\
    btn_device (_setup_ui app) =
      (if multi then Some 4%nat else btn_device app) /\
    buttons_apart (ControlPanel.buttons panel) /\
    ControlPanel.y_offset panel + ControlPanel.height panel =
      window_height app /\
    map (fun b => (Button.x b, Button.y b, Button.width b, Button.height b))
      (ControlPanel.buttons panel) =
      [(5, ControlPanel.y_offset panel + 5, 100, 35);
       (110, ControlPanel.y_offset panel + 5, 100, 35);
       (215, ControlPanel.y_offset panel + 5, 100, 35);
       (320, ControlPanel.y_offset panel + 5, 100, 35)]
      ++ (if multi
          then [(5, ControlPanel.y_offset panel + 45, window_width app - 10,
                 35)]
          else []) /\
    (Layout.MIN_WINDOW_WIDTH <= window_width app ->
     Forall (button_inside (ControlPanel.y_offset panel) (window_width app)
               (window_height app))
       (ControlPanel.buttons panel)).
Proof.
  intros multi.
  destruct (setup_ui_buttons app)
    as (panel & Hpanel & Htop & Hheight & Hwidth & Hbuttons).
  fold multi in Htop, Hheight, Hbuttons.
  assert (Hrefs :
    controller (_setup_ui app) = controller app /\
    btn_record (_setup_ui app) = Some 1%nat /\
    btn_filter (_setup_ui app) = Some 2%nat /\
    btn_color (_setup_ui app) = Some 3%nat /\
    btn_device (_setup_ui app) =
      (if multi then Some 4%nat else btn_device app)).
  { unfold _setup_ui. fold multi. destruct multi; repeat split. }
  destruct Hrefs as (Hctl & Hrecord & Hfilter & Hcolor & Hdevice).
  exists panel. split; [exact Hpanel|].
  split; [exact Hctl|].
  rewrite Hbuttons, Htop, Hheight.
  split; [destruct multi; reflexivity|].
  split; [destruct multi; reflexivity|].
  split; [exact Hrecord|]. split; [exact Hfilter|]. split; [exact Hcolor|].
  split; [exact Hdevice|].
  split; [apply panel_buttons_apart|].
  split; [lia|].
  split; [destruct multi; reflexivity|].
  unfold Layout.MIN_WINDOW_WIDTH. intros Hwide.
  unfold Layout.CONTROL_PANEL_HEIGHT_2ROWS, Layout.CONTROL_PANEL_HEIGHT.
  destruct multi; cbn [List.app];
    repeat (apply Forall_cons;
            [unfold button_inside, Button.__init__;
             cbn [Button.x Button.y Button.width Button.height]; lia|]);
    apply Forall_nil.
Qed.

(** X22. The mouse callback on a panel whose buttons do not overlap.  A
    press inside a button runs the action of that button, once, and no
    other action: what it does to the status bar and the controller, and
    whether it raises, is what that action does.  Any other mouse event
    leaves the status bar and the controller alone and only refreshes
    the hover flags; so does a press outside every button. *)
Theorem on_mouse_runs_one_action (ev : Ambient) (app : IRCameraApp)
  (panel : ControlPanel.t Action) (px py : Z) :
  control_panel app = Some panel ->
  buttons_apart (ControlPanel.buttons panel) ->
  let pressed := _on_mouse ev EVENT_LBUTTONDOWN px py app in
  (forall i b,
     nth_error (ControlPanel.buttons panel) i = Some b ->
     Button.contains b px py = true ->
     exists panel',
       control_panel (snd pressed) = Some panel' /\
       (fst pressed,
        (ControlPanel.status_bar panel', controller (snd pressed))) =
         fire ev (Button.action b)
           (ControlPanel.status_bar panel, controller app)) /\
  (under_pointer px py (ControlPanel.buttons panel) = [] ->
   fst pressed = Returns tt /\ controller (snd pressed) = controller app /\
   exists panel',
     control_panel (snd pressed) = Some panel' /\
     ControlPanel.status_bar panel' = ControlPanel.status_bar panel) /\
  (forall event,
     event <> EVENT_LBUTTONDOWN ->
     exists panel',
       _on_mouse ev event px py app =
         (Returns tt, with_panel panel' (controller app) app) /\
       ControlPanel.status_bar panel' = ControlPanel.status_bar panel /\
       ControlPanel.buttons panel' =
         map (fun b => Button.set_hover (Button.contains b px py) b)
           (ControlPanel.buttons panel)).
Proof.
  intros Hpanel Hapart pressed. subst pressed.
  unfold _on_mouse, handle_mouse. rewrite Hpanel.
  split; [|split].
  - intros i b Hi Hin. rewrite Z.eqb_refl.
    pose proof (visit_buttons_runs_actions_under_pointer (fire ev) px py true
                  (ControlPanel.buttons panel)
                  (ControlPanel.status_bar panel, controller app))
      as (Hrun & _ & _).
    rewrite (one_under_pointer px py _ i b Hapart Hi Hin) in Hrun.
    cbn [map run_actions] in Hrun.
    destruct (ControlPanel.visit_buttons (fire ev) px py true
                (ControlPanel.buttons panel)
                (ControlPanel.status_bar panel, controller app))
      as [o [bs [bar sys]]].
    cbn [fst snd] in *. eexists. split; [reflexivity|].
    cbn [ControlPanel.status_bar ControlPanel.set_status_bar controller
         with_panel fst snd].
    etransitivity; [exact Hrun|].
    destruct (fire ev (Button.action b)
                (ControlPanel.status_bar panel, controller app))
      as [[[]|] u]; reflexivity.
  - intros Hnone. rewrite Z.eqb_refl.
    pose proof (visit_buttons_runs_actions_under_pointer (fire ev) px py true
                  (ControlPanel.buttons panel)
                  (ControlPanel.status_bar panel, controller app))
      as (Hrun & _ & _).
    rewrite Hnone in Hrun. cbn [map run_actions] in Hrun.
    destruct (ControlPanel.visit_buttons (fire ev) px py true
                (ControlPanel.buttons panel)
                (ControlPanel.status_bar panel, controller app))
      as [o [bs [bar sys]]].
    cbn [fst snd] in *. injection Hrun as -> -> ->.
    split; [reflexivity|]. split; [reflexivity|].
    eexists. split; reflexivity.
  - intros event Hevent.
    assert (Hclicked : (event =? EVENT_LBUTTONDOWN) = false)
      by (apply Z.eqb_neq; exact Hevent).
    rewrite Hclicked.
    pose proof (visit_buttons_runs_actions_under_pointer (fire ev) px py false
                  (ControlPanel.buttons panel)
                  (ControlPanel.status_bar panel, controller app))
      as (Hrun & Hhover & _).
    destruct (ControlPanel.visit_buttons (fire ev) px py false
                (ControlPanel.buttons panel)
                (ControlPanel.status_bar panel, controller app))
      as [o [bs [bar sys]]].
    cbn [fst snd] in *. injection Hrun as -> -> ->.
    eexists. split; [reflexivity|]. split; [reflexivity|].
    cbn. apply Hhover. reflexivity.
Qed.

(** ** The button actions *)

Lemma py_index_in_range {A B} (f : A -> B) (xs : list A) (i : Z) :
  0 <= i < Z.of_nat (List.length xs) ->
  exists x, nth_error xs (Z.to_nat i) = Some x /\
            py_index (map f xs) i = Some (f x).
Proof.
  intros Hin. unfold py_index. rewrite length_map.
  assert (Hok : (0 <=? i) && (i <? Z.of_nat (List.length xs)) = true).
  { apply andb_true_iff. split; [apply Z.leb_le | apply Z.ltb_lt]; lia. }
  rewrite Hok, nth_error_map.
  destruct (nth_error xs (Z.to_nat i)) as [x|] eqn:E.
  - exists x. split; reflexivity.
  - apply nth_error_None in E. lia.
Qed.

(** X23. The device button.  With one device or none it does nothing.
    With more it selects the device after the current one, going back to
    the first after the last: the index it asks for is always inside the
    list, so the new index is set whatever the backend answers; and when
    the backend opens the capture and offers a frame source, the
    controller is running afterwards and the status bar names the
    device. *)
Theorem on_device_advances (ev : Ambient) (bar : StatusBar) (s : Sys) :
  let n := Z.of_nat (List.length (_devices (ctl s))) in
  let r := _on_device ev (bar, s) in
  (n <= 1 -> r = (Returns tt, (bar, s))) /\
  (2 <= n ->
     let next := (_current_device_index (ctl s) + 1) mod n in
     0 <= next < n /\
     _current_device_index (ctl (snd (snd r))) = next /\
     _devices (ctl (snd (snd r))) = _devices (ctl s) /\
     (capture_opens (ev_backend ev) false = true ->
      frame_sources (ev_backend ev) <> [] ->
      fst r = Returns tt /\
      _running (ctl (snd (snd r))) = true /\
      exists d,
        nth_error (_devices (ctl s)) (Z.to_nat next) = Some d /\
        fst (snd r) =
          set_message (String.append "Device: " (display_name d))
            (ev_time ev) bar)).
Proof.
  intros n r. subst r n.
  unfold _on_device, ui_bind, call, devices, current_device_index,
    get_device_names.
  run_monad. cbv beta iota. cbn [fst snd].
  split.
  - intros Hfew. apply Z.leb_le in Hfew. rewrite Hfew. reflexivity.
  - intros Hmany.
    assert (Hnot : (Z.of_nat (List.length (_devices (ctl s))) <=? 1) = false)
      by (apply Z.leb_gt; lia).
    rewrite Hnot. cbv beta iota. cbn [fst snd].
    assert (Hnext : 0 <= (_current_device_index (ctl s) + 1)
                         mod Z.of_nat (List.length (_devices (ctl s)))
                    < Z.of_nat (List.length (_devices (ctl s))))
      by (apply Z.mod_pos_bound; lia).
    remember ((_current_device_index (ctl s) + 1)
              mod Z.of_nat (List.length (_devices (ctl s)))) as target
      eqn:Htarget.
    clear Htarget.
    split; [exact Hnext|].
    destruct (select_device_valid_result s target false (ev_backend ev) Hnext)
      as [Hindex Hresult].
    pose proof (select_device_valid_fields s target false (ev_backend ev)
                  Hnext) as Hfields.
    cbv zeta in Hfields.
    assert (Hdevs : _devices
              (ctl (after (select_device target false (ev_backend ev)) s)) =
              _devices (ctl s)).
    { unfold outside_session in Hfields.
      injection Hfields as _ _ _ Hd _ _ _ _ _ _ _. rewrite Hd.
      destruct (_frame_reader (ctl s)); [|reflexivity].
      unfold after. rewrite stop_effect. cbn.
      destruct (_is_recording (ctl s)); reflexivity. }
    unfold after, result in *.
    destruct (select_device target false (ev_backend ev) s) as [o s1] eqn:Hsel.
    cbn [fst snd] in *.
    destruct o as [ok|].
    + rewrite start_effect.
      destruct (py_index_in_range display_name (_devices (ctl s)) target Hnext)
        as (d & Hd & Hname).
      destruct (_frame_reader (ctl s1)) as [reader|] eqn:Hreader;
        cbn [fst snd ctl]; unfold status;
        change (_devices (set_frame_reader _ (set_running true (ctl s1))))
          with (_devices (ctl s1));
        rewrite Hdevs, Hname; cbn [fst snd ctl];
        (split; [exact Hindex|]); (split; [exact Hdevs|]).
      * intros _ _. split; [reflexivity|]. split; [reflexivity|].
        exists d. split; [exact Hd | reflexivity].
      * intros Hopens Hsrc. rewrite Hopens in Hresult.
        destruct (frame_sources (ev_backend ev)) as [|src others] eqn:Hsources;
          [contradiction Hsrc; reflexivity|].
        destruct (device_at_index _ _ Hnext) as [device Hdevice].
        destruct (select_device_opened s target false (ev_backend ev) device
                    src others Hnext Hdevice Hopens Hsources)
          as (Hr & _ & _).
        unfold after in Hr. rewrite Hsel in Hr. cbn [snd] in Hr.
        rewrite Hr in Hreader. discriminate Hreader.
    + cbn [fst snd]. split; [exact Hindex|]. split; [exact Hdevs|].
      intros Hopens _. rewrite Hopens in Hresult. discriminate Hresult.
Qed.

(** X24. The record button toggles the recording.  While idle it starts
    a recording into the directory videos at the base rate 15, that is at
    15 frames per second with filter NONE and at 7 otherwise; while
    recording it stops the recording and releases the writer.  It never
    raises, it leaves the recording fields in agreement, and it reports
    in the status bar, provided the path is not the empty string:
    Recording... after a start, Saved: with the base name of the file
    after a stop. *)
Theorem on_record_toggles (ev : Ambient) (bar : StatusBar) (s : Sys) :
  recording_consistent s ->
  let r := _on_record ev (bar, s) in
  let s' := snd (snd r) in
  fst r = Returns tt /\
  _is_recording (ctl s') = negb (_is_recording (ctl s)) /\
  recording_consistent s' /\
  (_is_recording (ctl s) = false ->
     exists path vw,
       path =
         path_join "videos"
           (String.append "IR_Video_"
              (String.append (ev_clock ev)
                 (String.append "_"
                    (String.append
                       (IRFrameFilter.display_name (_frame_filter (ctl s)))
                       ".avi")))) /\
       _video_writer (ctl s') = Some vw /\
       vw_path vw = path /\
       vw_fps vw =
         match _frame_filter (ctl s) with
         | IRFrameFilter.NONE => 15
         | _ => 7
         end /\
       fst (snd r) =
         if String.eqb path "" then bar
         else set_message "Recording..." (ev_time ev) bar) /\
  (_is_recording (ctl s) = true ->
     exists path vw,
       _video_path (ctl s) = Some path /\
       _video_writer (ctl s) = Some vw /\
       released_writers (env s') = released_writers (env s) ++ [vw] /\
       fst (snd r) =
         if String.eqb path "" then bar
         else set_message (String.append "Saved: " (basename path))
                (ev_time ev) bar).
Proof.
  intros Hs r s'. subst s' r.
  unfold _on_record, ui_bind, call, is_recording. run_monad.
  cbv beta iota. cbn [fst snd].
  unfold recording_consistent in Hs.
  destruct (_is_recording (ctl s)) eqn:Hrec; cbv beta iota; cbn [fst snd].
  - destruct Hs as (path & vw & Hpath & Hvw & Hvwpath).
    rewrite (stop_recording_when_recording s Hrec). cbn [fst snd].
    rewrite Hpath. unfold truthy, status, ui_ret.
    destruct (String.eqb path "") eqn:Hempty; cbn [negb fst snd ctl env];
      rewrite Hvw;
      (split; [reflexivity|]); (split; [reflexivity|]);
      (split; [unfold recording_consistent; cbn; split; reflexivity|]);
      (split; [discriminate|]); intros _;
      exists path, vw; rewrite Hempty; repeat split; reflexivity.
  - destruct Hs as [Hpath Hvw].
    destruct (start_recording_when_idle s "videos" 15 (ev_clock ev) Hrec
                eq_refl (fits_double_actual_fps _ 15 eq_refl))
      as (Hres & Hrecording & vw & Hw & Hwpath & Hfps & _).
    unfold result, after in *.
    destruct (start_recording "videos" 15 (ev_clock ev) s) as [o s1].
    cbn [fst snd] in *. subst o.
    unfold truthy, status, ui_ret. cbv beta iota.
    destruct Hrecording as (Hr1 & Hp1 & _).
    assert (Hcons : recording_consistent s1).
    { unfold recording_consistent. rewrite Hr1.
      eexists. exists vw. split; [exact Hp1|]. split; [exact Hw | exact Hwpath]. }
    assert (Hrate : vw_fps vw =
                    match _frame_filter (ctl s) with
                    | IRFrameFilter.NONE => 15
                    | _ => 7
                    end).
    { rewrite Hfps. unfold actual_fps.
      destruct (_frame_filter (ctl s)); reflexivity. }
    match goal with
    | |- context [String.eqb ?p ""] => destruct (String.eqb p "") eqn:Hempty
    end; cbn [negb fst snd];
      (split; [reflexivity|]); (split; [exact Hr1|]);
      (split; [exact Hcons|]); (split; [|discriminate]); intros _;
      eexists; exists vw; (split; [reflexivity|]); (split; [exact Hw|]);
      (split; [exact Hwpath|]); (split; [exact Hrate|]);
      rewrite Hempty; reflexivity.
Qed.

(** X25. The photo button.  With no last frame it changes nothing and
    reports nothing.  With a last frame it writes that frame, without
    alpha, to a file in the directory photos named after the time, leaves
    the controller as it is, and reports Saved: with the base name of
    the file.  It never raises. *)
Theorem on_photo_saves (ev : Ambient) (bar : StatusBar) (s : Sys) :
  let r := _on_photo ev (bar, s) in
  let path :=
    path_join "photos"
      (String.append "IR_Photo_" (String.append (ev_clock ev) ".jpg")) in
  fst r = Returns tt /\
  ctl (snd (snd r)) = ctl s /\
  (_last_frame (ctl s) = None -> r = (Returns tt, (bar, s))) /\
  (forall last,
     _last_frame (ctl s) = Some last ->
     fs_images (env (snd (snd r))) =
       fs_images (env s) ++ [(path, cv2.COLOR_BGRA2BGR last)] /\
     fst (snd r) =
       if String.eqb path "" then bar
       else set_message (String.append "Saved: " (basename path))
              (ev_time ev) bar).
Proof.
  intros r path. subst r.
  unfold _on_photo, ui_bind, call. rewrite take_photo_effect.
  change (names_directory "photos") with true.
  cbv beta iota. cbn [fst snd].
  destruct (_last_frame (ctl s)) as [last|] eqn:Hlast; cbn [fst snd truthy].
  - fold path. unfold status, ui_ret.
    destruct (String.eqb path ""); cbn [negb fst snd ctl env];
      (split; [reflexivity|]); (split; [reflexivity|]);
      (split; [discriminate|]);
      intros last' E; injection E as <-; split; reflexivity.
  - unfold ui_ret. repeat split; intros; discriminate.
Qed.

(** ** Labels and start-up *)

Lemma setup_ui_refs (app : IRCameraApp) :
  let multi := 1 <? Z.of_nat (List.length (_devices (ctl (controller app)))) in
  controller (_setup_ui app) = controller app /\
  window_width (_setup_ui app) = window_width app /\
  window_height (_setup_ui app) = window_height app /\
  btn_record (_setup_ui app) = Some 1%nat /\
  btn_filter (_setup_ui app) = Some 2%nat /\
  btn_color (_setup_ui app) = Some 3%nat /\
  btn_device (_setup_ui app) = (if multi then Some 4%nat else btn_device app).
Proof.
  intros multi. unfold _setup_ui. fold multi. destruct multi; repeat split.
Qed.

(** X26. The labels [_update_button_texts] writes on the panel of
    [_setup_ui]: the record button reads Stop and is shown active exactly
    while a recording is in progress, and Record otherwise; the filter
    and colour buttons name the current modes; the device button, when
    there is one, names the current device.  The call raises exactly
    when there is a device button and the current device index is
    outside the device names; with the index inside the list it
    returns.  Positions, actions and the controller are not touched. *)
Theorem update_button_texts_labels (app : IRCameraApp) :
  btn_device app = None ->
  let c := ctl (controller app) in
  let multi := 1 <? Z.of_nat (List.length (_devices c)) in
  let names := map display_name (_devices c) in
  let r := _update_button_texts (_setup_ui app) in
  exists before panel,
    control_panel (_setup_ui app) = Some before /\
    control_panel (snd r) = Some panel /\
    controller (snd r) = controller app /\
    map Button.text (ControlPanel.buttons panel) =
      ["Photo";
       if _is_recording c then "Stop" else "Record";
       String.append "Filter: " (IRFrameFilter.display_name (_frame_filter c));
       String.append "Color: " (IRMappingMode.display_name (_mapping_mode c))]
      ++ (if multi
          then [match py_index names (_current_device_index c) with
                | Some name => String.append "Device: " name
                | None => "Device"
                end]
          else []) /\
    map Button.active (ControlPanel.buttons panel) =
      [false; _is_recording c; false; false]
      ++ (if multi then [false] else []) /\
    map (fun b => (Button.x b, Button.y b, Button.width b, Button.height b,
                   Button.action b)) (ControlPanel.buttons panel) =
    map (fun b => (Button.x b, Button.y b, Button.width b, Button.height b,
                   Button.action b)) (ControlPanel.buttons before) /\
    (fst r = Raises <->
     multi = true /\ py_index names (_current_device_index c) = None) /\
    (0 <= _current_device_index c < Z.of_nat (List.length (_devices c)) ->
     fst r = Returns tt).
Proof.
  intros Hnone c multi names r.
  destruct (setup_ui_buttons app)
    as (before & Hpanel & _ & _ & _ & Hbuttons).
  destruct (setup_ui_refs app)
    as (Hctl & _ & _ & Hrecord & Hfilter & Hcolor & Hdevice).
  fold c multi in Hbuttons, Hdevice.
  exists before.
  assert (Hin : 0 <= _current_device_index c < Z.of_nat (List.length (_devices c))
                -> py_index names (_current_device_index c) <> None).
  { intros Hrange.
    destruct (py_index_in_range display_name (_devices c) _ Hrange)
      as (d & _ & E).
    fold names in E. rewrite E. discriminate. }
  subst r. unfold _update_button_texts.
  rewrite Hpanel, Hrecord, Hfilter, Hcolor, Hdevice, Hctl, Hnone.
  fold c names.
  unfold through, ControlPanel.set_buttons, with_panel.
  cbn [ControlPanel.buttons ControlPanel.width ControlPanel.height
       ControlPanel.y_offset ControlPanel.status_bar].
  rewrite Hbuttons.
  destruct multi.
  - destruct (py_index names (_current_device_index c)) as [name|];
      eexists; cbn;
      (split; [reflexivity|]); (split; [reflexivity|]);
      (split; [reflexivity|]); (split; [reflexivity|]);
      (split; [reflexivity|]); (split; [reflexivity|]); split.
    + split; [discriminate | intros [_ E]; discriminate E].
    + reflexivity.
    + split; [intros _; split; reflexivity | reflexivity].
    + intros Hrange. contradiction (Hin Hrange). reflexivity.
  - eexists; cbn;
      (split; [reflexivity|]); (split; [reflexivity|]);
      (split; [reflexivity|]); (split; [reflexivity|]);
      (split; [reflexivity|]); (split; [reflexivity|]); split.
    + split; [discriminate | intros [E _]; discriminate E].
    + reflexivity.
Qed.

Lemma find_ir_cameras_effect (s : Sys) (found : list MediaFrameSourceGroup) :
  find_ir_cameras found s =
    (Returns (filter (fun d => existsb is_infrared (source_infos d)) found),
     {| ctl := set_devices
                 (filter (fun d => existsb is_infrared (source_infos d)) found)
                 (ctl s);
        env := env s |}).
Proof.
  destruct s as [c w]. destruct c. unfold find_ir_cameras. run_monad. cbn.
  rewrite collect_ir_filter. reflexivity.
Qed.

(** X27. Start-up.  [_initialize] keeps the discovered infrared devices
    and, when there is none, raises before anything is selected.
    Otherwise it selects the first device in shared mode and completes
    exactly when the backend opens the capture and offers a frame
    source.  On completion the controller is running on device 0, the
    window is as wide as the camera frame but not narrower than
    [MIN_WINDOW_WIDTH] and as high as the frame plus the panel, two rows
    high when there are several devices, and the panel starts right
    below the frame.  When it raises, no panel has been built. *)
Theorem initialize_outcome (found : list MediaFrameSourceGroup)
  (backend : CaptureBackend) (app : IRCameraApp) :
  let infrared := filter (fun d => existsb is_infrared (source_infos d)) found in
  let multi := 1 <? Z.of_nat (List.length infrared) in
  let r := _initialize found backend app in
  let c := ctl (controller (snd r)) in
  _devices c = infrared /\
  (infrared = [] -> fst r = Raises) /\
  (infrared <> [] ->
     (fst r = Returns tt <->
      capture_opens backend false = true /\ frame_sources backend <> [])) /\
  (fst r = Raises -> control_panel (snd r) = control_panel app) /\
  (fst r = Returns tt ->
     _running c = true /\
     _current_device_index c = 0 /\
     window_width (snd r) = Z.max (_frame_width c) Layout.MIN_WINDOW_WIDTH /\
     window_height (snd r) =
       _frame_height c
       + (if multi then Layout.CONTROL_PANEL_HEIGHT_2ROWS
          else Layout.CONTROL_PANEL_HEIGHT) /\
     exists panel,
       control_panel (snd r) = Some panel /\
       ControlPanel.y_offset panel = _frame_height c /\
       ControlPanel.width panel = window_width (snd r) /\
       List.length (ControlPanel.buttons panel) =
         (if multi then 5%nat else 4%nat)).
Proof.
  intros infrared multi r c. subst c r.
  unfold _initialize. rewrite find_ir_cameras_effect. fold infrared.
  cbn [ctl]. change (_devices (set_devices infrared _)) with infrared.
  set (s0 := {| ctl := set_devices infrared (ctl (controller app));
                env := env (controller app) |}).
  destruct infrared as [|d ds] eqn:Hinfrared.
  - cbn [fst snd]. split; [reflexivity|]. split; [reflexivity|].
    split; [intros Hne; contradiction Hne; reflexivity|].
    split; [reflexivity | discriminate].
  - assert (Hin : 0 <= 0 < Z.of_nat (List.length (_devices (ctl s0))))
      by (cbn; lia).
    destruct (select_device_valid_result s0 0 false backend Hin)
      as [Hindex Hresult].
    pose proof (select_device_valid_fields s0 0 false backend Hin) as Hfields.
    cbv zeta in Hfields.
    assert (Hdevs : _devices (ctl (after (select_device 0 false backend) s0))
                    = d :: ds).
    { unfold outside_session in Hfields.
      injection Hfields as _ _ _ Hd _ _ _ _ _ _ _. rewrite Hd.
      destruct (_frame_reader (ctl (controller app))); [|reflexivity].
      unfold after. rewrite stop_effect. cbn.
      destruct (_is_recording (ctl (controller app))); reflexivity. }
    assert (Hreader : capture_opens backend false = true ->
                      frame_sources backend <> [] ->
                      _frame_reader
                        (ctl (after (select_device 0 false backend) s0))
                      <> None).
    { intros Hopens Hsrc.
      destruct (frame_sources backend) as [|src others] eqn:Hsources;
        [contradiction Hsrc; reflexivity|].
      destruct (select_device_opened s0 0 false backend d src others Hin
                  eq_refl Hopens Hsources) as (Hr & _ & _).
      rewrite Hr. discriminate. }
    assert (Hsized :
      forall src others, capture_opens backend false = true ->
        frame_sources backend = src :: others ->
        _frame_reader (ctl (after (select_device 0 false backend) s0))
        <> None).
    { intros src others Hopens Hsources. apply Hreader; [exact Hopens|].
      rewrite Hsources. discriminate. }
    unfold after, result in *.
    destruct (select_device 0 false backend s0) as [[[|]|] s1];
      cbn [fst snd] in *.
    + (* the device is selected *)
      rewrite start_effect.
      destruct (capture_opens backend false) eqn:Hopens;
        [|discriminate Hresult].
      destruct (frame_sources backend) as [|src others] eqn:Hsources;
        [discriminate Hresult|].
      destruct (_frame_reader (ctl s1)) as [reader|] eqn:Hr1;
        [|contradiction (Hreader eq_refl); [discriminate | reflexivity]].
      cbn [snd fst].
      match goal with
      | |- context [_setup_ui ?a] =>
          destruct (setup_ui_buttons a)
            as (panel & Hpanel & Htop & _ & Hwidth & Hbuttons);
          destruct (setup_ui_refs a) as (Hctl & Hw & Hh & _)
      end.
      cbn [controller set_controller set_window window_width window_height
           ctl _devices set_frame_reader set_running] in *.
      rewrite Hctl, Hw, Hh. cbn [ctl].
      change (_devices (set_frame_reader _ (set_running true (ctl s1))))
        with (_devices (ctl s1)) in *.
      rewrite Hdevs in *.
      split; [reflexivity|]. split; [discriminate|].
      split; [intros _; split; [intros _; split; [reflexivity|discriminate]
                               | reflexivity]|].
      split; [discriminate|]. intros _.
      split; [reflexivity|]. split; [exact Hindex|].
      split; [reflexivity|]. split; [reflexivity|].
      exists panel. split; [exact Hpanel|].
      split; [rewrite Htop; cbn; lia|]. split; [exact Hwidth|].
      rewrite Hbuttons. fold multi. destruct multi; reflexivity.
    + (* no frame source *)
      split; [exact Hdevs|]. split; [discriminate|].
      split; [|split; [reflexivity | discriminate]].
      intros _. split; [discriminate|]. intros [Hopens Hsrc].
      rewrite Hopens in Hresult.
      destruct (frame_sources backend); [contradiction Hsrc; reflexivity|].
      discriminate Hresult.
    + (* the backend does not open the capture *)
      split; [exact Hdevs|]. split; [discriminate|].
      split; [|split; [reflexivity | discriminate]].
      intros _. split; [discriminate|]. intros [Hopens _].
      rewrite Hopens in Hresult. discriminate Hresult.
Qed.

End InterfaceFacts.

(** * The logger *)

Lemma last_after_first {A} (xs : list A) (x d : A) :
  last (x :: xs) d = last xs x.
Proof.
  revert x d. induction xs as [|y ys IH]; intros x d; [reflexivity|].
  change (last (x :: y :: ys) d) with (last (y :: ys) d).
  rewrite IH. symmetry. apply IH.
Qed.

Lemma key_idempotent (name : string) :
  logging.key (logging.key name) = logging.key name.
Proof.
  unfold logging.key. destruct (String.eqb name EmptyString) eqn:E.
  - reflexivity.
  - rewrite E. reflexivity.
Qed.

Lemma setup_loggers_entry (name : string) (requests : list (string * Z)) :
  forall reg : logging.Registry,
    logging.getLogger name (setup_loggers requests reg) =
      match logging.handlers (logging.getLogger name reg),
            levels_for name requests with
      | _, [] => logging.getLogger name reg
      | [], first :: later =>
          {| logging.level := last later first;
             logging.handlers := [console first] |}
      | h :: hs, first :: later =>
          {| logging.level := last later first;
             logging.handlers := h :: hs |}
      end.
Proof.
  induction requests as [|[n l] rest IH]; intros reg.
  - cbn. destruct (logging.handlers (logging.getLogger name reg)); reflexivity.
  - unfold setup_loggers, levels_for in *. cbn [fold_left filter fst snd].
    rewrite IH. clear IH.
    unfold setup_logger, logging.getLogger, logging.store.
    cbn [logging.handlers logging.level].
    destruct (String.eqb (logging.key n) (logging.key name)) eqn:Hname.
    + apply String.eqb_eq in Hname. rewrite Hname. cbn [map snd].
      destruct (logging.handlers (reg (logging.key name))) as [|h hs] eqn:Hh;
        cbn [snd fst]; rewrite String.eqb_refl;
        cbn [logging.handlers logging.level List.app];
        destruct (map snd
                    (filter (fun request =>
                               String.eqb (logging.key (fst request))
                                 (logging.key name))
                       rest)) as [|next later];
        rewrite ?last_after_first; reflexivity.
    + assert (Hother : String.eqb (logging.key name) (logging.key n) = false)
        by (rewrite String.eqb_sym; exact Hname).
      destruct (logging.handlers (reg (logging.key n))); cbn [snd fst];
        rewrite Hother; reflexivity.
Qed.

(** X28. However often [setup_logger] is called, and with whatever
    levels, a logger gets one console handler and no more.  The logger's
    own level is that of the last call for it, while its handler keeps
    the level of the first call; a logger nobody set up stays without
    handler, at the level it starts with.  The empty name and the name
    root stand for the same logger. *)
Theorem setup_logger_adds_one_handler (requests : list (string * Z))
  (name : string) :
  let logger :=
    logging.getLogger name (setup_loggers requests logging.no_loggers) in
  (List.length (logging.handlers logger) <= 1)%nat /\
  (levels_for name requests = [] ->
     logger = logging.getLogger name logging.no_loggers /\
     logging.handlers logger = []) /\
  (forall first later,
     levels_for name requests = first :: later ->
     logging.level logger = last later first /\
     logging.handlers logger = [console first]).
Proof.
  cbv zeta. rewrite setup_loggers_entry.
  unfold logging.no_loggers, logging.getLogger. cbn [logging.handlers].
  destruct (levels_for name requests) as [|first later].
  - cbn [logging.handlers List.length]. split; [lia|].
    split; [split; reflexivity | discriminate].
  - cbn [logging.handlers logging.level List.length].
    split; [lia|]. split; [discriminate|].
    intros f l E. injection E as <- <-. split; reflexivity.
Qed.

(** * The further properties at concrete inputs *)

Lemma on_color_cycle_witness :
  (0 < 2 < 4)%nat /\
  _mapping_mode (ctl (Nat.iter 2 (after _on_color) at_startup)) <>
    _mapping_mode (ctl at_startup).
Proof.
  assert (Hn : (0 < 2 < 4)%nat) by lia.
  split; [exact Hn|].
  exact (proj2 (proj2 (on_color_cycle at_startup)) 2%nat Hn).
Defined.

Lemma display_names_distinguish_modes_witness :
  IRFrameFilter.display_name IRFrameFilter.RAW =
    IRFrameFilter.display_name IRFrameFilter.RAW /\
  IRFrameFilter.RAW = IRFrameFilter.RAW.
Proof.
  split; [reflexivity|].
  exact (proj1 display_names_distinguish_modes IRFrameFilter.RAW
           IRFrameFilter.RAW eq_refl).
Defined.

Lemma find_ir_cameras_result_witness :
  In device_B [device_A; device_B] /\
  In INFRARED (source_infos device_B) /\
  In device_B
    (filter (fun d => existsb is_infrared (source_infos d))
       [device_A; device_B]).
Proof.
  assert (Hin : In device_B [device_A; device_B]) by (right; left; reflexivity).
  assert (Hir : In INFRARED (source_infos device_B)) by (left; reflexivity).
  split; [exact Hin|]. split; [exact Hir|].
  exact (proj2 (proj2 (find_ir_cameras_result at_startup
                         [device_A; device_B]) device_B)
           (conj Hin Hir)).
Defined.

Lemma select_device_picks_largest_format_witness :
  0 <= 1 < Z.of_nat (List.length (_devices (ctl with_A_B))) /\
  capture_opens good_backend false = true /\
  exists pre best post,
    [{| vf_width := 320; vf_height := 240 |};
     {| vf_width := 640; vf_height := 360 |}] = pre ++ best :: post /\
    (forall f, In f pre -> format_area f < format_area best) /\
    (forall f, In f post -> format_area f <= format_area best) /\
    result frame_size (after (select_device 1 false good_backend) with_A_B) =
      Returns (vf_width best, vf_height best).
Proof.
  assert (Hin : 0 <= 1 < Z.of_nat (List.length (_devices (ctl with_A_B))))
    by (cbn; lia).
  split; [exact Hin|]. split; [reflexivity|].
  destruct (select_device_picks_largest_format with_A_B 1 false good_backend
              _ _ Hin eq_refl eq_refl) as [_ Hbest].
  destruct Hbest as (pre & best & post & Hsplit & Hpre & Hpost & Hsize & _).
  { discriminate. }
  exists pre, best, post. repeat split; assumption.
Defined.

Lemma select_device_then_start_witness :
  0 <= 1 < Z.of_nat (List.length (_devices (ctl with_A_B))) /\
  result start (after (select_device 1 true good_backend) with_A_B) =
    Returns true /\
  _running
    (ctl (after start (after (select_device 1 true good_backend) with_A_B))) =
    true.
Proof.
  assert (Hin : 0 <= 1 < Z.of_nat (List.length (_devices (ctl with_A_B))))
    by (cbn; lia).
  split; [exact Hin|].
  destruct (select_device_then_start with_A_B 1 true good_backend device_B
              _ _ Hin eq_refl eq_refl eq_refl) as (_ & Hstart & Hrun & _).
  split; [exact Hstart | exact Hrun].
Defined.

Lemma select_device_tears_down_session_witness :
  0 <= 0 < Z.of_nat (List.length (_devices (ctl recording_sys))) /\
  _frame_reader (ctl recording_sys) <> None /\
  _is_recording
    (ctl (after (select_device 0 false sourceless_backend) recording_sys)) =
    false /\
  released_writers
    (env (after (select_device 0 false sourceless_backend) recording_sys)) =
    [demo_writer].
Proof.
  assert (Hin : 0 <= 0 < Z.of_nat (List.length (_devices (ctl recording_sys))))
    by (cbn; lia).
  assert (Hreader : _frame_reader (ctl recording_sys) <> None)
    by discriminate.
  split; [exact Hin|]. split; [exact Hreader|].
  destruct (select_device_tears_down_session recording_sys 0 false
              sourceless_backend Hin) as (_ & Hdown & _).
  destruct (Hdown Hreader) as (_ & Hrec & Hwriter).
  split; [exact Hrec|].
  destruct (Hwriter eq_refl) as (_ & _ & Hreleased).
  exact (Hreleased demo_writer eq_refl).
Defined.

Lemma no_capture_without_device_witness :
  forallb (fun call => negb (selects_device call))
    [call_start;
     frame_arrived (Gives (Some (ir_media_frame false bitmap_A)));
     call_get_frame] = true /\
  result get_frame
    (run (P := demo_platform)
       [call_start;
        frame_arrived (Gives (Some (ir_media_frame false bitmap_A)));
        call_get_frame] at_startup) = Returns None.
Proof.
  split; [reflexivity|].
  destruct (no_capture_without_device (P := demo_platform)
              [call_start;
               frame_arrived (Gives (Some (ir_media_frame false bitmap_A)));
               call_get_frame] eq_refl) as (_ & _ & _ & Hnone).
  exact Hnone.
Defined.

Lemma pause_resume_round_trip_witness :
  _frame_reader (ctl running_sys) = Some demo_reader /\
  reader_started demo_reader = true /\
  after resume (after pause running_sys) = running_sys.
Proof.
  split; [reflexivity|]. split; [reflexivity|].
  destruct (pause_resume_round_trip running_sys)
    as (_ & _ & _ & _ & _ & _ & Hback).
  exact (Hback demo_reader eq_refl eq_refl).
Defined.

Lemma recording_fields_agree_witness :
  _is_recording
    (ctl (run (P := demo_platform)
            [call_start_recording "videos" (10 ^ 400) "20240101_115959";
             call_start_recording "videos" 15 "20240101_120000"; next_filter]
            at_startup)) = true /\
  (exists path,
     result stop_recording
       (run (P := demo_platform)
          [call_start_recording "videos" (10 ^ 400) "20240101_115959";
           call_start_recording "videos" 15 "20240101_120000"; next_filter]
          at_startup) = Returns (Some path)) /\
  _is_recording
    (ctl (run (P := demo_platform)
            [call_start_recording "videos" (10 ^ 400) "20240101_115959"]
            at_startup)) = false /\
  _video_writer
    (ctl (run (P := demo_platform)
            [call_start_recording "videos" (10 ^ 400) "20240101_115959"]
            at_startup)) = None /\
  forallb asks_finite_rate
    [call_start_recording "videos" 15 "20240101_120000"; call_stop_recording] =
    true /\
  recording_consistent
    (run (P := demo_platform)
       [call_start_recording "videos" 15 "20240101_120000"; call_stop_recording]
       at_startup).
Proof.
  assert (Hrecording :
    _is_recording
      (ctl (run (P := demo_platform)
              [call_start_recording "videos" (10 ^ 400) "20240101_115959";
               call_start_recording "videos" 15 "20240101_120000"; next_filter]
              at_startup)) = true) by (vm_compute; reflexivity).
  assert (Hidle :
    _is_recording
      (ctl (run (P := demo_platform)
              [call_start_recording "videos" (10 ^ 400) "20240101_115959"]
              at_startup)) = false) by (vm_compute; reflexivity).
  split; [exact Hrecording|]. split; [|split; [exact Hidle|split; [|split]]].
  - destruct (recording_fields_agree (P := demo_platform)
                [call_start_recording "videos" (10 ^ 400) "20240101_115959";
                 call_start_recording "videos" 15 "20240101_120000";
                 next_filter])
      as (Hrec & _).
    destruct (Hrec Hrecording) as (path & vw & Hstop & _).
    exists path. exact Hstop.
  - destruct (recording_fields_agree (P := demo_platform)
                [call_start_recording "videos" (10 ^ 400) "20240101_115959"])
      as (_ & Hnot & _).
    exact (proj2 (Hnot Hidle)).
  - reflexivity.
  - destruct (recording_fields_agree (P := demo_platform)
                [call_start_recording "videos" 15 "20240101_120000";
                 call_stop_recording])
      as (_ & _ & Hall).
    exact (Hall eq_refl).
Defined.

Lemma frame_pipeline_witness :
  _running (ctl running_sys) = true /\
  _convert_bitmap_to_frame bitmap_A = Some frame_A /\
  passes (_frame_filter (ctl running_sys)) true = true /\
  _last_frame
    (ctl (after (_on_frame_arrived (P := demo_platform)
                   (Gives (Some (ir_media_frame true bitmap_A)))) running_sys)) =
    Some frame_A.
Proof.
  split; [reflexivity|]. split; [reflexivity|]. split; [reflexivity|].
  destruct (frame_pipeline (P := demo_platform) running_sys true bitmap_A
              eq_refl) as (_ & Hpublished & _).
  destruct (Hpublished frame_A eq_refl eq_refl) as [_ Hlast].
  exact Hlast.
Defined.

Lemma frame_callback_footprint_witness :
  _is_recording (ctl running_sys) = false /\
  _video_writer
    (ctl (after (_on_frame_arrived (P := demo_platform)
                   (Gives (Some (ir_media_frame true bitmap_A)))) running_sys)) =
    _video_writer (ctl running_sys) /\
  result (_process_frame (P := demo_platform)
            (Gives (Some {| video_media_frame := Gives None;
                            close := Throws |}))) running_sys = Raises.
Proof.
  split; [reflexivity|].
  destruct (frame_callback_footprint (P := demo_platform)
              (Gives (Some (ir_media_frame true bitmap_A))) running_sys)
    as (_ & _ & Hwriter & _ & _ & Hclose).
  split; [exact (Hwriter eq_refl)|].
  exact (proj1 (Hclose {| video_media_frame := Gives None; close := Throws |}
                  eq_refl)).
Defined.

Lemma convert_bitmap_round_trip_witness :
  _convert_bitmap_to_frame bitmap_A = Some frame_A /\
  bgra8_bytes bitmap_A = Gives (frame_bytes frame_A) /\
  bgra8_bytes short_bitmap = Gives [10; 20; 30; 255; 40; 50; 60] /\
  _convert_bitmap_to_frame short_bitmap = None.
Proof.
  split; [reflexivity|].
  destruct (convert_bitmap_round_trip bitmap_A) as (Hframe & _).
  destruct (Hframe frame_A eq_refl) as (Hbytes & _).
  split; [exact Hbytes|]. split; [reflexivity|].
  destruct (convert_bitmap_round_trip short_bitmap) as (_ & _ & _ & Hshort).
  apply (Hshort [10; 20; 30; 255; 40; 50; 60] eq_refl).
  cbn. lia.
Defined.

Lemma color_mapping_pixelwise_witness :
  IRMappingMode.GREEN <> IRMappingMode.NONE /\
  Forall (Forall (fun p => alpha p = 255))
    (color_mapping (P := demo_platform) IRMappingMode.GREEN frame_A).
Proof.
  assert (Hmode : IRMappingMode.GREEN <> IRMappingMode.NONE) by discriminate.
  split; [exact Hmode|].
  exact (proj2 (proj2 (color_mapping_pixelwise (P := demo_platform)
                         IRMappingMode.GREEN frame_A)) Hmode).
Defined.

Lemma start_stop_recording_round_trip_witness :
  _is_recording (ctl at_startup) = false /\
  _video_writer (ctl at_startup) = None /\
  _video_path (ctl at_startup) = None /\
  names_directory "videos" = true /\
  fits_double (actual_fps (_frame_filter (ctl at_startup)) 15) = true /\
  ctl (after stop_recording
         (after (start_recording (P := demo_platform)
                   "videos" 15 "20240101_120000") at_startup)) =
    ctl at_startup.
Proof.
  split; [reflexivity|]. split; [reflexivity|]. split; [reflexivity|].
  split; [reflexivity|]. split; [reflexivity|].
  destruct (start_stop_recording_round_trip (P := demo_platform) at_startup
              "videos" 15 "20240101_120000" eq_refl eq_refl eq_refl
              eq_refl eq_refl)
    as (Hctl & _).
  exact Hctl.
Defined.

Lemma recording_receives_forwarded_frames_witness :
  _running (ctl recording_sys) = true /\
  _is_recording (ctl recording_sys) = true /\
  _video_writer (ctl recording_sys) = Some demo_writer /\
  exists vw',
    _video_writer
      (ctl (run (P := demo_platform)
              (map deliver [(true, bitmap_A); (false, short_bitmap);
                            (false, bitmap_B)])
              recording_sys)) = Some vw' /\
    vw_frames vw' =
      [[[(10, 20, 30); (40, 50, 60)]]; [[(1, 2, 3); (4, 5, 6)]]].
Proof.
  split; [reflexivity|]. split; [reflexivity|]. split; [reflexivity|].
  destruct (recording_receives_forwarded_frames (P := demo_platform)
              [(true, bitmap_A); (false, short_bitmap); (false, bitmap_B)]
              recording_sys demo_writer eq_refl eq_refl eq_refl)
    as (vw' & Hvw & Hframes & _).
  exists vw'. split; [exact Hvw|]. rewrite Hframes. reflexivity.
Defined.

Lemma grid_buttons_do_not_overlap_witness :
  Button.contains
    (ControlPanel.grid_button 480 1 "Record" do_record) 150 500 = true /\
  1%nat = 1%nat.
Proof.
  split; [reflexivity|].
  exact (grid_buttons_do_not_overlap 480 1 1 "Record" "Record"
           do_record do_record 150 500 eq_refl eq_refl).
Defined.

Lemma visit_buttons_runs_actions_under_pointer_witness :
  fst (ControlPanel.visit_buttons
         (fun (a : Action) (s : list Action) => (Returns tt, s ++ [a]))
         150 500 true
         [ControlPanel.grid_button 480 0 "Photo" do_photo;
          ControlPanel.grid_button 480 1 "Record" do_record] []) =
    Returns tt /\
  map Button.hover
    (fst (snd (ControlPanel.visit_buttons
                 (fun (a : Action) (s : list Action) => (Returns tt, s ++ [a]))
                 150 500 true
                 [ControlPanel.grid_button 480 0 "Photo" do_photo;
                  ControlPanel.grid_button 480 1 "Record" do_record] []))) =
    [false; true].
Proof.
  split; [reflexivity|].
  destruct (visit_buttons_runs_actions_under_pointer
              (fun (a : Action) (s : list Action) => (Returns tt, s ++ [a]))
              150 500 true
              [ControlPanel.grid_button 480 0 "Photo" do_photo;
               ControlPanel.grid_button 480 1 "Record" do_record] [])
    as (_ & Hhover & _).
  rewrite (Hhover eq_refl). reflexivity.
Defined.

Lemma setup_ui_layout_witness :
  Layout.MIN_WINDOW_WIDTH <= window_width app_A_B /\
  exists panel,
    control_panel (_setup_ui app_A_B) = Some panel /\
    map Button.action (ControlPanel.buttons panel) =
      [do_photo; do_record; do_filter; do_color; do_device] /\
    Forall (button_inside (ControlPanel.y_offset panel)
              (window_width app_A_B) (window_height app_A_B))
      (ControlPanel.buttons panel).
Proof.
  assert (Hwide : Layout.MIN_WINDOW_WIDTH <= window_width app_A_B)
    by (cbn; lia).
  split; [exact Hwide|].
  destruct (setup_ui_layout app_A_B)
    as (panel & Hpanel & _ & Hactions & _ & _ & _ & _ & _ & _ & _ & _
        & Hinside).
  exists panel. split; [exact Hpanel|]. split; [exact Hactions|].
  exact (Hinside Hwide).
Defined.

Lemma on_mouse_runs_one_action_witness :
  exists panel b,
    control_panel (_setup_ui app_A_B) = Some panel /\
    nth_error (ControlPanel.buttons panel) 2 = Some b /\
    Button.contains b 250 500 = true /\
    Button.action b = do_filter /\
    _frame_filter
      (ctl (controller
              (snd (_on_mouse (P := demo_platform) demo_event
                      EVENT_LBUTTONDOWN 250 500 (_setup_ui app_A_B))))) =
      IRFrameFilter.RAW.
Proof.
  destruct (setup_ui_buttons app_A_B)
    as (panel & Hpanel & _ & _ & _ & Hbuttons).
  assert (Hapart : buttons_apart (ControlPanel.buttons panel))
    by (rewrite Hbuttons; apply panel_buttons_apart).
  assert (Hb : nth_error (ControlPanel.buttons panel) 2 =
               Some (Button.__init__ 215 (585 - 105 + 5) 100 35
                       "Filter: OFF" do_filter))
    by (rewrite Hbuttons; reflexivity).
  exists panel. eexists. split; [exact Hpanel|]. split; [exact Hb|].
  split; [reflexivity|]. split; [reflexivity|].
  destruct (on_mouse_runs_one_action (P := demo_platform) demo_event
              (_setup_ui app_A_B) panel 250 500 Hpanel Hapart)
    as (Hpress & _ & _).
  destruct (Hpress 2%nat _ Hb eq_refl) as (panel' & _ & Hfire).
  apply (f_equal (fun r => snd (snd r))) in Hfire. cbn [fst snd] in Hfire.
  rewrite Hfire. reflexivity.
Defined.

Lemma on_device_advances_witness :
  2 <= Z.of_nat (List.length (_devices (ctl with_A_B))) /\
  capture_opens (ev_backend demo_event) false = true /\
  frame_sources (ev_backend demo_event) <> [] /\
  _current_device_index
    (ctl (snd (snd (_on_device demo_event (@StatusBar__init__ demo_ui,
                                           with_A_B))))) = 1 /\
  message
    (fst (snd (_on_device demo_event (@StatusBar__init__ demo_ui,
                                      with_A_B)))) = "Device: B".
Proof.
  assert (Hmany : 2 <= Z.of_nat (List.length (_devices (ctl with_A_B))))
    by (cbn; lia).
  assert (Hsrc : frame_sources (ev_backend demo_event) <> []) by discriminate.
  split; [exact Hmany|]. split; [reflexivity|]. split; [exact Hsrc|].
  destruct (on_device_advances demo_event (@StatusBar__init__ demo_ui)
              with_A_B) as [_ Hadvance].
  destruct (Hadvance Hmany) as (_ & Hindex & _ & Hgood).
  split; [exact Hindex|].
  destruct (Hgood eq_refl Hsrc) as (_ & _ & d & Hd & Hbar).
  rewrite Hbar. cbn in Hd. injection Hd as <-. reflexivity.
Defined.

Lemma on_record_toggles_witness :
  recording_consistent at_startup /\
  _is_recording
    (ctl (snd (snd (_on_record (P := demo_platform) demo_event
                      (@StatusBar__init__ demo_ui, at_startup))))) = true /\
  message
    (fst (snd (_on_record (P := demo_platform) demo_event
                 (@StatusBar__init__ demo_ui, at_startup)))) = "Recording...".
Proof.
  assert (Hs : recording_consistent at_startup) by (split; reflexivity).
  split; [exact Hs|].
  destruct (on_record_toggles (P := demo_platform) demo_event
              (@StatusBar__init__ demo_ui) at_startup Hs)
    as (_ & Hrec & _ & Hstart & _).
  split; [exact Hrec|].
  destruct (Hstart eq_refl) as (path & vw & Hpath & _ & _ & _ & Hbar).
  rewrite Hbar, Hpath. reflexivity.
Defined.

Lemma on_photo_saves_witness :
  _last_frame (ctl at_startup) = None /\
  _on_photo (P := demo_platform) demo_event
    (@StatusBar__init__ demo_ui, at_startup) =
    (Returns tt, (@StatusBar__init__ demo_ui, at_startup)) /\
  _last_frame
    (ctl (after (_update_frame (P := demo_platform) frame_A) at_startup)) =
    Some frame_A /\
  fs_images
    (env (snd (snd (_on_photo (P := demo_platform) demo_event
                      (@StatusBar__init__ demo_ui,
                       after (_update_frame (P := demo_platform) frame_A)
                         at_startup))))) =
    [("photos/IR_Photo_20240101_120000.jpg",
      [[(10, 20, 30); (40, 50, 60)]])] /\
  message
    (fst (snd (_on_photo (P := demo_platform) demo_event
                 (@StatusBar__init__ demo_ui,
                  after (_update_frame (P := demo_platform) frame_A)
                    at_startup)))) =
    "Saved: photos/IR_Photo_20240101_120000.jpg".
Proof.
  split; [reflexivity|].
  split.
  - destruct (on_photo_saves (P := demo_platform) demo_event
                (@StatusBar__init__ demo_ui) at_startup)
      as (_ & _ & Hnone & _).
    exact (Hnone eq_refl).
  - split; [reflexivity|].
    destruct (on_photo_saves (P := demo_platform) demo_event
                (@StatusBar__init__ demo_ui)
                (after (_update_frame (P := demo_platform) frame_A) at_startup))
      as (_ & _ & _ & Hsome).
    destruct (Hsome frame_A eq_refl) as [Himages Hbar].
    split; [rewrite Himages; reflexivity | rewrite Hbar; reflexivity].
Defined.

Lemma update_button_texts_labels_witness :
  btn_device app_A_B = None /\
  0 <= _current_device_index (ctl (controller app_A_B))
    < Z.of_nat (List.length (_devices (ctl (controller app_A_B)))) /\
  fst (_update_button_texts (_setup_ui app_A_B)) = Returns tt /\
  exists panel,
    control_panel (snd (_update_button_texts (_setup_ui app_A_B))) =
      Some panel /\
    map Button.text (ControlPanel.buttons panel) =
      ["Photo"; "Record"; "Filter: OFF"; "Color: OFF"; "Device: A"].
Proof.
  assert (Hin : 0 <= _current_device_index (ctl (controller app_A_B))
                < Z.of_nat (List.length (_devices (ctl (controller app_A_B)))))
    by (cbn; lia).
  split; [reflexivity|]. split; [exact Hin|].
  destruct (update_button_texts_labels app_A_B eq_refl)
    as (before & panel & _ & Hpanel & _ & Htexts & _ & _ & _ & Hreturns).
  split; [exact (Hreturns Hin)|].
  exists panel. split; [exact Hpanel|]. rewrite Htexts. reflexivity.
Defined.

Lemma initialize_outcome_witness :
  filter (fun d => existsb is_infrared (source_infos d))
    [device_A; device_B] <> [] /\
  capture_opens good_backend false = true /\
  frame_sources good_backend <> [] /\
  fst (_initialize (U := demo_ui) [device_A; device_B] good_backend
         IRCameraApp__init__) = Returns tt /\
  window_height
    (snd (_initialize (U := demo_ui) [device_A; device_B] good_backend
            IRCameraApp__init__)) = 360 + 105.
Proof.
  assert (Hsome : filter (fun d => existsb is_infrared (source_infos d))
                    [device_A; device_B] <> []) by discriminate.
  assert (Hsrc : frame_sources good_backend <> []) by discriminate.
  split; [exact Hsome|]. split; [reflexivity|]. split; [exact Hsrc|].
  destruct (initialize_outcome (U := demo_ui) [device_A; device_B]
              good_backend IRCameraApp__init__)
    as (_ & _ & Hiff & _ & Hdone).
  assert (Hok : fst (_initialize (U := demo_ui) [device_A; device_B]
                       good_backend IRCameraApp__init__) = Returns tt)
    by (apply (proj2 (Hiff Hsome)); split; [reflexivity | exact Hsrc]).
  split; [exact Hok|].
  destruct (Hdone Hok) as (_ & _ & _ & Hheight & _).
  rewrite Hheight. reflexivity.
Defined.

Lemma setup_logger_adds_one_handler_witness :
  levels_for "root" [(EmptyString, logging.INFO); ("other", logging.ERROR);
                     ("root", logging.DEBUG)] =
    [logging.INFO; logging.DEBUG] /\
  logging.level
    (logging.getLogger "root"
       (setup_loggers [(EmptyString, logging.INFO); ("other", logging.ERROR);
                       ("root", logging.DEBUG)]
          logging.no_loggers)) = logging.DEBUG /\
  logging.handlers
    (logging.getLogger "root"
       (setup_loggers [(EmptyString, logging.INFO); ("other", logging.ERROR);
                       ("root", logging.DEBUG)]
          logging.no_loggers)) = [console logging.INFO].
Proof.
  split; [reflexivity|].
  destruct (setup_logger_adds_one_handler
              [(EmptyString, logging.INFO); ("other", logging.ERROR);
               ("root", logging.DEBUG)] "root") as (_ & _ & Hset).
  exact (Hset logging.INFO [logging.DEBUG] eq_refl).
Defined.

Lemma buffer_between_threads_witness :
  (2 * List.length (Queue.items (_frame_queue (ctl at_startup))) + 4 <= 4)%nat /\
  (let t :=
     Threads.interleave
       (Threads.frame_ready
          (color_mapping (P := demo_platform)
             (_mapping_mode (ctl at_startup)) frame_A)
          :: repeat Threads.callback_step 4)
       (Threads.of_buffer (_frame_queue (ctl at_startup))
          (_last_frame (ctl at_startup))) in
   (Threads.queue t, Threads.last_frame t) =
     buffer (after (_update_frame (P := demo_platform) frame_A) at_startup)) /\
  (List.length
     (Queue.items
        (Threads.queue
           (Threads.interleave
              [Threads.get_frame_called; Threads.reader_step;
               Threads.frame_ready frame_A;
               Threads.callback_step; Threads.callback_step;
               Threads.callback_step; Threads.callback_step;
               Threads.frame_ready frame_B; Threads.callback_step;
               Threads.reader_step;
               Threads.get_frame_called; Threads.reader_step]
              Threads.initially))) <= 1)%nat.
Proof.
  pose proof (buffer_between_threads (P := demo_platform))
    as (Hsafe & Hupdate & _).
  assert (Hn : (2 * List.length (Queue.items (_frame_queue (ctl at_startup)))
                + 4 <= 4)%nat) by (vm_compute; lia).
  split; [exact Hn|]. split.
  - exact (Hupdate at_startup frame_A 4%nat Hn).
  - exact (proj1 (Hsafe [Threads.get_frame_called; Threads.reader_step;
                         Threads.frame_ready frame_A;
                         Threads.callback_step; Threads.callback_step;
                         Threads.callback_step; Threads.callback_step;
                         Threads.frame_ready frame_B; Threads.callback_step;
                         Threads.reader_step;
                         Threads.get_frame_called; Threads.reader_step])).
Defined.
